(** * F-1 tax filing engine: tax rules, day counting and form field mapping

    A shallow embedding of the TypeScript sources

      - lib/tax-calculation/index.ts            (calculateTax)
      - lib/tax-calculation/federal/india.ts    (calculateFederalTax)
      - lib/tax-calculation/state/illinois.ts   (calculateStateTax)
      - lib/form-generation/utils/days-calculator.ts
      - lib/form-generation/pdf-filler.ts       (formatSSN, formatCurrencyForPDFWholeOnly)
      - lib/form-generation/forms/*.ts          (the field mappers)
      - lib/form-generation/package-fica.ts     (the FICA figures, setTextField)
      - lib/form-generation/index.ts            (createZipFromPaidProducts)
      - app/success/page.tsx                    (the net-underpayment gate)
      - app/payment/page.tsx                    (the payment page and the checkout)

    Conventions of the embedding.

      - A JavaScript [number] is the rational value of a finite IEEE 754
        double, kept in [Q].  The sums and differences of currency amounts
        ([total += x], [a - b]) round as binary64 does, to the nearest
        double with ties to even ([Double.add], [Double.sub]); a decimal
        such as [20000.01] read from the stored JSON is first taken to the
        nearest double, as [JSON.parse] does.  Overflow to [Infinity] is
        outside the model.  [Math.floor] is [Qfloor] and lands in [Z]; a
        floored value that is used again in arithmetic is injected back
        with [inject_Z].  The bracket formula and the flat-rate product of
        the tax rules, which apply to whole dollar amounts, and the sums of
        whole numbers and of the checkout's prices are taken exactly.
      - A numeric form field is [option Q]: the income step stores [null]
        for an input left empty, and the sources guard every read with
        [x || 0] or [x ?? 0].
      - A string is a [string] of ASCII characters.
      - [async] functions are modelled by their result; a thrown [Error] is
        the [Throw] outcome carrying the message.
      - A [Date] is its time value, an integer number of milliseconds since
        the epoch; the host's clock and time zone are explicit parameters. *)

From Stdlib Require Import ZArith QArith Qround Qpower List String Ascii Bool Lia.
From Stdlib Require Import DecimalString Permutation Lqa.
Import ListNotations.

Local Open Scope Z_scope.

(** ** JavaScript primitives *)

Module Math.

Definition floor (x : Q) : Z := Qfloor x.

Definition max (a b : Q) : Q := if Qle_bool a b then b else a.

End Math.

(** Arithmetic of binary64 numbers, on their rational values. *)
Module Double.

(** The integer nearest to [q], the even one of the two at a tie. *)
Definition rne (q : Q) : Z :=
  let f := Qfloor q in
  match (q - inject_Z f ?= 1 # 2)%Q with
  | Lt => f
  | Gt => f + 1
  | Eq => if Z.even f then f else f + 1
  end.

(** For [q > 0], the exponent [k] with [2^k <= q < 2^(k+1)]. *)
Definition ilog2 (q : Q) : Z :=
  let k := Z.log2 (Qnum q) - Z.log2 (Z.pos (Qden q)) in
  if Qle_bool (2 ^ k) q then k else k - 1.

(** A positive [q] rounded to 53 significant bits. *)
Definition roundPos (q : Q) : Q :=
  let k := ilog2 q in
  (inject_Z (rne (q * 2 ^ (52 - k))) * 2 ^ (k - 52))%Q.

(** The double nearest to [q]. *)
Definition round (q : Q) : Q :=
  match (q ?= 0)%Q with
  | Eq => 0%Q
  | Gt => roundPos q
  | Lt => (- roundPos (- q))%Q
  end.

(** [a + b] and [a - b] on numbers. *)
Definition add (a b : Q) : Q := round (round a + round b).

Definition sub (a b : Q) : Q := round (round a - round b).

(** [array.forEach(x => { total += f(x) })] continuing from the running
    [total]. *)
Definition forEach_add {A : Type} (f : A -> Q) (xs : list A) (total : Q) : Q :=
  fold_left (fun acc x => add acc (f x)) xs total.

End Double.

(** [x || 0] and [x ?? 0] on a value of type [number | null]: both give [0]
    for [null], and [0 || 0] is [0] as well. *)
Definition orZero (x : option Q) : Q :=
  match x with
  | Some q => q
  | None => 0%Q
  end.

(** [String(n)] for an integral number. *)
Definition String_of_Z (n : Z) : string := NilZero.string_of_int (Z.to_int n).

(** The same loop over amounts whose sum is taken exactly (the prices of
    the checkout). *)
Definition forEach_add {A : Type} (f : A -> Q) (xs : list A) (total : Q) : Q :=
  fold_left (fun acc x => (acc + f x)%Q) xs total.

(** The integer variant, for totals of floored amounts. *)
Definition forEach_addZ {A : Type} (f : A -> Z) (xs : list A) (total : Z) : Z :=
  fold_left (fun acc x => acc + f x) xs total.

Inductive Outcome (A : Type) : Type :=
| Ok (a : A)
| Throw (message : string).

Arguments Ok {A} a.
Arguments Throw {A} message.

(** ** Data model (types/form.ts) *)

Record W2Form : Type := mkW2Form {
  wages : option Q;
  federalTaxWithheld : option Q;
  stateTaxWithheld : option Q;
  socialSecurityWithheld : option Q;
  medicareWithheld : option Q;
  ein : string
}.

Record Form1099INT : Type := mkForm1099INT {
  interestIncome : option Q;
  int_federalTaxWithheld : option Q;
  int_stateTaxWithheld : option Q
}.

Record Form1099MISC : Type := mkForm1099MISC {
  otherIncome : option Q;
  misc_federalTaxWithheld : option Q;
  misc_stateTaxWithheld : option Q
}.

Inductive IncomeState : Type := Illinois | Other.

Record IncomeInfo : Type := mkIncomeInfo {
  hadUSIncome : bool;
  incomeState : option IncomeState;
  ssn : option string;
  w2Forms : list W2Form;
  form1099INT : list Form1099INT;
  form1099MISC : list Form1099MISC
}.

(** A visit; a date string [YYYY-MM-DD] (what the residency step stores,
    [date.toISOString().split('T')[0]]) is kept as its day number, the
    count of days since 1970-01-01, so that [new Date(s)] is midnight UTC of
    that day.  [None] is the empty string. *)
Record Visit : Type := mkVisit {
  entryDate : option Z;
  exitDate : option Z
}.

Record ResidencyInfo : Type := mkResidencyInfo {
  visits : list Visit
}.

Record PersonalInfo : Type := mkPersonalInfo {
  firstName : string;
  lastName : string;
  country : string   (* personalInfo.foreignAddress.country *)
}.

Record FormData : Type := mkFormData {
  personalInfo : PersonalInfo;
  residencyInfo : ResidencyInfo;
  incomeInfo : IncomeInfo
}.

(** ** Tax results (lib/tax-calculation/index.ts) *)

Record FederalForms : Type := mkFederalForms {
  form8843 : bool;
  fed_form1040 : bool;
  form832 : bool
}.

Record FederalTax : Type := mkFederalTax {
  fed_taxOwed : Z;
  fed_refund : Z;
  fed_amountOwed : Z;
  fed_forms : FederalForms
}.

Record StateTax : Type := mkStateTax {
  st_taxOwed : Z;
  st_refund : Z;
  st_amountOwed : Z;
  st_form1040 : bool
}.

Record TaxCalculationResult : Type := mkTaxCalculationResult {
  federalTax : FederalTax;
  stateTax : StateTax
}.

(** ** Federal rule for India (lib/tax-calculation/federal/india.ts) *)

Module India.

(** A bracket; [b_max = None] is [Infinity]. *)
Record Bracket : Type := mkBracket {
  b_min : Q;
  b_max : option Q;
  rate : Q;
  base : Q
}.

Definition TAX_BRACKETS : list Bracket :=
  [ mkBracket 0 (Some 11925%Q) (10 # 100) 0;
    mkBracket 11926 (Some 48475%Q) (12 # 100) (119250 # 100);
    mkBracket 48476 (Some 103350%Q) (22 # 100) (557850 # 100);
    mkBracket 103351 (Some 197300%Q) (24 # 100) 17651;
    mkBracket 197301 (Some 250525%Q) (32 # 100) 40199;
    mkBracket 250526 (Some 626350%Q) (35 # 100) 57231;
    mkBracket 626351 None (37 # 100) (18876975 # 100) ].

Definition STANDARD_DEDUCTION : Q := 15750.

Definition calculateGrossIncome (formData : FormData) : Q :=
  let total := 0%Q in
  let total := Double.forEach_add (fun w2 => orZero (wages w2))
                 (w2Forms (incomeInfo formData)) total in
  let total := Double.forEach_add (fun form => orZero (interestIncome form))
                 (form1099INT (incomeInfo formData)) total in
  let total := Double.forEach_add (fun form => orZero (otherIncome form))
                 (form1099MISC (incomeInfo formData)) total in
  total.

Definition calculateTotalTaxWithheld (formData : FormData) : Q :=
  let total := 0%Q in
  let total := Double.forEach_add (fun w2 => orZero (federalTaxWithheld w2))
                 (w2Forms (incomeInfo formData)) total in
  let total := Double.forEach_add (fun form => orZero (int_federalTaxWithheld form))
                 (form1099INT (incomeInfo formData)) total in
  let total := Double.forEach_add (fun form => orZero (misc_federalTaxWithheld form))
                 (form1099MISC (incomeInfo formData)) total in
  total.

(** [taxableIncome >= b.min && taxableIncome <= b.max] *)
Definition inBracket (taxableIncome : Q) (b : Bracket) : bool :=
  Qle_bool (b_min b) taxableIncome &&
  match b_max b with
  | Some m => Qle_bool taxableIncome m
  | None => true
  end.

Definition calculateProgressiveTax (taxableIncome : Q) : Q :=
  if Qle_bool taxableIncome 0 then 0%Q
  else
    match find (inBracket taxableIncome) TAX_BRACKETS with
    | None => 0%Q
    | Some bracket =>
        let amountOverBracketMin := (taxableIncome - b_min bracket)%Q in
        let additionalTax := (amountOverBracketMin * rate bracket)%Q in
        (base bracket + additionalTax)%Q
    end.

(** The locals of [calculateFederalTax], in the order the function binds
    them. *)
Definition taxableIncome (formData : FormData) : Z :=
  Math.floor (Math.max 0 (Double.sub (calculateGrossIncome formData) STANDARD_DEDUCTION)).

Definition taxOwed (formData : FormData) : Z :=
  Math.floor (calculateProgressiveTax (inject_Z (taxableIncome formData))).

Definition totalFICAWithheld (formData : FormData) : Q :=
  Double.forEach_add
    (fun w2 => Double.add (orZero (socialSecurityWithheld w2))
                          (orZero (medicareWithheld w2)))
    (w2Forms (incomeInfo formData)) 0.

Definition calculateFederalTax (formData : FormData) : FederalTax :=
  let taxWithheld := calculateTotalTaxWithheld formData in
  let taxOwed := taxOwed formData in
  let refund := Math.floor (Math.max 0 (Double.sub taxWithheld (inject_Z taxOwed))) in
  let amountOwed := Math.floor (Math.max 0 (Double.sub (inject_Z taxOwed) taxWithheld)) in
  let hasFICAWithheld := negb (Qle_bool (totalFICAWithheld formData) 0) in
  {| fed_taxOwed := taxOwed;
     fed_refund := refund;
     fed_amountOwed := amountOwed;
     fed_forms := {| form8843 := true;
                     fed_form1040 := hadUSIncome (incomeInfo formData);
                     form832 := hasFICAWithheld |} |}.

End India.

(** ** State rule for Illinois (lib/tax-calculation/state/illinois.ts) *)

Module IllinoisTax.

Definition ILLINOIS_TAX_RATE : Q := 495 # 10000.
Definition PERSONAL_EXEMPTION_SINGLE : Q := 2850.
Definition HIGH_INCOME_THRESHOLD : Q := 250000.

Definition calculateGrossIncome (formData : FormData) : Q :=
  let total := 0%Q in
  let total := Double.forEach_add (fun w2 => orZero (wages w2))
                 (w2Forms (incomeInfo formData)) total in
  let total := Double.forEach_add (fun form => orZero (interestIncome form))
                 (form1099INT (incomeInfo formData)) total in
  let total := Double.forEach_add (fun form => orZero (otherIncome form))
                 (form1099MISC (incomeInfo formData)) total in
  total.

Definition calculateStateTaxWithheld (formData : FormData) : Z :=
  let total := 0 in
  let total := forEach_addZ (fun w2 => Math.floor (orZero (stateTaxWithheld w2)))
                 (w2Forms (incomeInfo formData)) total in
  let total := forEach_addZ (fun form => Math.floor (orZero (int_stateTaxWithheld form)))
                 (form1099INT (incomeInfo formData)) total in
  let total := forEach_addZ (fun form => Math.floor (orZero (misc_stateTaxWithheld form)))
                 (form1099MISC (incomeInfo formData)) total in
  total.

(** [grossIncome > HIGH_INCOME_THRESHOLD ? 0 : PERSONAL_EXEMPTION_SINGLE] *)
Definition exemption (formData : FormData) : Q :=
  if negb (Qle_bool (calculateGrossIncome formData) HIGH_INCOME_THRESHOLD)
  then 0%Q
  else PERSONAL_EXEMPTION_SINGLE.

Definition taxableIncome (formData : FormData) : Z :=
  Math.floor (Math.max 0 (Double.sub (calculateGrossIncome formData) (exemption formData))).

Definition taxOwed (formData : FormData) : Z :=
  Math.floor (inject_Z (taxableIncome formData) * ILLINOIS_TAX_RATE).

Definition calculateStateTax (formData : FormData) : StateTax :=
  let stateTaxWithheld := calculateStateTaxWithheld formData in
  let taxOwed := taxOwed formData in
  let refund :=
    Math.floor (Math.max 0 (inject_Z stateTaxWithheld - inject_Z taxOwed)) in
  let amountOwed :=
    Math.floor (Math.max 0 (inject_Z taxOwed - inject_Z stateTaxWithheld)) in
  {| st_taxOwed := taxOwed;
     st_refund := refund;
     st_amountOwed := amountOwed;
     st_form1040 := hadUSIncome (incomeInfo formData) |}.

End IllinoisTax.

(** ** Strings *)

Module Str.

Local Open Scope char_scope.

Definition isUpper (c : ascii) : bool :=
  (65 <=? nat_of_ascii c)%nat && (nat_of_ascii c <=? 90)%nat.

Definition lowerChar (c : ascii) : ascii :=
  if isUpper c then ascii_of_nat (nat_of_ascii c + 32) else c.

(** [s.toLowerCase()] *)
Fixpoint toLowerCase (s : string) : string :=
  match s with
  | EmptyString => EmptyString
  | String c s' => String (lowerChar c) (toLowerCase s')
  end.

(** The white space and line terminators of ASCII: TAB, LF, VT, FF, CR
    and the space. *)
Definition isWhiteSpace (c : ascii) : bool :=
  let n := nat_of_ascii c in
  ((9 <=? n)%nat && (n <=? 13)%nat) || (n =? 32)%nat.

Fixpoint trimStart (s : string) : string :=
  match s with
  | EmptyString => EmptyString
  | String c s' => if isWhiteSpace c then trimStart s' else s
  end.

(** Drops the trailing white space: a character is kept when it is not
    white space or when something is kept after it. *)
Fixpoint trimEnd (s : string) : string :=
  match s with
  | EmptyString => EmptyString
  | String c s' =>
      match trimEnd s' with
      | EmptyString => if isWhiteSpace c then EmptyString else String c EmptyString
      | rest => String c rest
      end
  end.

(** [s.trim()] *)
Definition trim (s : string) : string := trimEnd (trimStart s).

Definition isDigit (c : ascii) : bool :=
  (48 <=? nat_of_ascii c)%nat && (nat_of_ascii c <=? 57)%nat.

(** [s.replace(/\D/g, '')] *)
Fixpoint digitsOnly (s : string) : string :=
  match s with
  | EmptyString => EmptyString
  | String c s' => if isDigit c then String c (digitsOnly s') else digitsOnly s'
  end.

(** [s.slice(a, b)] for [0 <= a <= b] *)
Definition slice (a b : nat) (s : string) : string := substring a (b - a) s.

(** [s.slice(a)] for [0 <= a] *)
Definition sliceFrom (a : nat) (s : string) : string :=
  substring a (String.length s - a) s.

Fixpoint allDigits (s : string) : bool :=
  match s with
  | EmptyString => true
  | String c s' => isDigit c && allDigits s'
  end.

End Str.

(** ** Dispatch by country and by state (lib/tax-calculation/index.ts) *)

Local Open Scope string_scope.

Definition unsupportedCountryMessage (countryRaw : string) : string :=
  "Federal tax calculation not yet supported for " ++ countryRaw ++
  " students. Currently only India is supported.".

Definition zeroStateTax : StateTax :=
  {| st_taxOwed := 0; st_refund := 0; st_amountOwed := 0; st_form1040 := false |}.

(** The test that selects the India rule. *)
Definition usesIndiaRule (formData : FormData) : bool :=
  let rawCountry := country (personalInfo formData) in
  let countryRaw := if rawCountry =? "" then "India" else rawCountry in
  let country := Str.trim (Str.toLowerCase countryRaw) in
  (country =? "india") || (country =? "indian") || (country =? "") ||
  (country =? "foreign country") || (rawCountry =? "").

Definition calculateTax (formData : FormData) : Outcome TaxCalculationResult :=
  let rawCountry := country (personalInfo formData) in
  let countryRaw := if rawCountry =? "" then "India" else rawCountry in
  let incomeStateIsIllinois :=
    match incomeState (incomeInfo formData) with
    | Some Illinois => true
    | _ => false
    end in
  if usesIndiaRule formData then
    let federalResult := India.calculateFederalTax formData in
    let stateResult :=
      if incomeStateIsIllinois then IllinoisTax.calculateStateTax formData
      else zeroStateTax in
    Ok {| federalTax := federalResult; stateTax := stateResult |}
  else
    Throw (unsupportedCountryMessage countryRaw).

Definition getMinimalTaxResultFor8843 : TaxCalculationResult :=
  {| federalTax :=
       {| fed_taxOwed := 0; fed_refund := 0; fed_amountOwed := 0;
          fed_forms := {| form8843 := true; fed_form1040 := false; form832 := false |} |};
     stateTax := zeroStateTax |}.

(** ** Day-presence calculator (lib/form-generation/utils/days-calculator.ts) *)

Module Days.

Local Open Scope Z_scope.

(** The host the code runs on: the clock read by [new Date()] and the
    offset of local time from UTC, both in milliseconds.  The offset is
    taken constant (no daylight-saving change within the dates at hand);
    [utcOffset = -6 h] is US Central Standard Time. *)
Record Host : Type := mkHost {
  now : Z;
  utcOffset : Z
}.

(** [1000 * 60 * 60 * 24] *)
Definition msPerDay : Z := 1000 * 60 * 60 * 24.

Definition hour : Z := 1000 * 60 * 60.

(** Day number of the civil date [y-m-d] (proleptic Gregorian calendar),
    counted from 1970-01-01. *)
Definition daysFromCivil (y m d : Z) : Z :=
  let y' := if m <=? 2 then y - 1 else y in
  let era := y' / 400 in
  let yoe := y' - era * 400 in
  let mp := if 2 <? m then m - 3 else m + 9 in
  let doy := (153 * mp + 2) / 5 + d - 1 in
  let doe := yoe * 365 + yoe / 4 - yoe / 100 + doy in
  era * 146097 + doe - 719468.

(** [new Date(s)] for a date-only string [s]: midnight UTC of that day. *)
Definition dateOfDay (day : Z) : Z := day * msPerDay.

(** [d.setHours(0, 0, 0, 0)]: midnight, local time, of the local day of
    [d]. *)
Definition setHours0 (h : Host) (t : Z) : Z :=
  (t + utcOffset h) / msPerDay * msPerDay - utcOffset h.

(** [new Date(`${year}-01-01`)] and [new Date(`${year}-12-31`)], for the
    four-digit years the callers pass. *)
Definition taxYearStartOf (year : Z) : Z := dateOfDay (daysFromCivil year 1 1).
Definition taxYearEndOf (year : Z) : Z := dateOfDay (daysFromCivil year 12 31).

(** The body of the [forEach] callback.  The loop state is the running
    [totalDays] together with the time value of the [taxYearEnd] object:
    for a visit without exit date evaluated after the year's end, [exit]
    IS the [taxYearEnd] object, and [exit.setHours(0, 0, 0, 0)] rewrites
    it for the rest of the loop. *)
Definition visitStep (h : Host) (taxYearStart : Z) (st : Z * Z) (visit : Visit)
  : Z * Z :=
  let '(taxYearEnd, totalDays) := st in
  match entryDate visit with
  | None => st
  | Some e =>
      let entry := setHours0 h (dateOfDay e) in
      let '(exit, taxYearEnd) :=
        match exitDate visit with
        | Some x => (setHours0 h (dateOfDay x), taxYearEnd)
        | None =>
            if now h <? taxYearEnd then (setHours0 h (now h), taxYearEnd)
            else (setHours0 h taxYearEnd, setHours0 h taxYearEnd)
        end in
      let startDate := if taxYearStart <? entry then entry else taxYearStart in
      let endDate := if exit <? taxYearEnd then exit else taxYearEnd in
      if startDate <=? endDate then
        let diffTime := endDate - startDate in
        let diffDays := diffTime / msPerDay in
        if match exitDate visit with Some _ => true | None => false end
           && (exit <=? taxYearEnd) && (taxYearStart <=? exit)
        then (taxYearEnd, totalDays + diffDays)
        else (taxYearEnd, totalDays + diffDays + 1)
      else (taxYearEnd, totalDays)
  end.

Definition calculateDaysInUSForYear (h : Host) (residencyInfo : ResidencyInfo)
    (year : Z) : Z :=
  snd (fold_left (visitStep h (taxYearStartOf year)) (visits residencyInfo)
         (taxYearEndOf year, 0)).

Definition hadDaysInUSForYear (h : Host) (residencyInfo : ResidencyInfo)
    (year : Z) : bool :=
  0 <? calculateDaysInUSForYear h residencyInfo year.

End Days.

(** ** PDF filler helpers (lib/form-generation/pdf-filler.ts) *)

Module PdfFiller.

(** One [setTextField(pdf, fieldName, value)] call.  A mapper is modelled
    by the sequence of its calls; whether a name exists in the external
    template is the template's matter. *)
Definition Write : Type := (string * string)%type.

(** The value a mapper assigns to [fieldName] (its last assignment). *)
Fixpoint written (fieldName : string) (ws : list Write) : option string :=
  match ws with
  | [] => None
  | (name, value) :: rest =>
      match written fieldName rest with
      | Some v => Some v
      | None => if name =? fieldName then Some value else None
      end
  end.

(** A field of a template as the filler reaches it through pdf-lib, which
    is not part of the sources: its name, whether it is a text field (the
    test ['setText' in field]), the values its [setText] takes without
    throwing (pdf-lib's [setText] throws, for one, on a value longer than
    the field's maximum length), and its text. *)
Record Field : Type := mkField {
  f_name : string;
  f_isText : bool;
  f_accepts : string -> bool;
  f_value : string
}.

Definition PDFDocument : Type := list Field.

(** [getFormField]: the first field of that name. *)
Fixpoint getFormField (form : PDFDocument) (fieldName : string) : option Field :=
  match form with
  | [] => None
  | field :: rest =>
      if f_name field =? fieldName then Some field else getFormField rest fieldName
  end.

(** [field.setText(value)]: the field with its new text, or [None] when the
    call throws; a call that throws is taken to leave the field as it
    was. *)
Definition setText (field : Field) (value : string) : option Field :=
  if f_accepts field value
  then Some (mkField (f_name field) (f_isText field) (f_accepts field) value)
  else None.

(** The document once the field that [getFormField] finds under
    [fieldName] has become [field']: [setText] changes the field object in
    place. *)
Fixpoint withField (form : PDFDocument) (fieldName : string) (field' : Field)
  : PDFDocument :=
  match form with
  | [] => []
  | field :: rest =>
      if f_name field =? fieldName then field' :: rest
      else field :: withField rest fieldName field'
  end.

(** [setTextField]: the field is set when the template has it, it is a text
    field and [setText] does not throw; otherwise the document is left
    alone, with a console warning. *)
Definition setTextField (form : PDFDocument) (fieldName value : string) : PDFDocument :=
  match getFormField form fieldName with
  | Some field =>
      if f_isText field then
        match setText field value with
        | Some field' => withField form fieldName field'
        | None => form
        end
      else form
  | None => form
  end.

Definition fill (form : PDFDocument) (ws : list Write) : PDFDocument :=
  fold_left (fun doc w => setTextField doc (fst w) (snd w)) ws form.

Definition formatCurrencyForPDFWholeOnly (amount : Q) : string :=
  String_of_Z (Math.floor amount).

Definition formatSSN (ssn : string) : string :=
  if ssn =? "" then ""
  else
    let cleaned := Str.digitsOnly ssn in
    if (String.length cleaned =? 9)%nat then
      Str.slice 0 3 cleaned ++ "-" ++ Str.slice 3 5 cleaned ++ "-" ++
      Str.sliceFrom 5 cleaned
    else cleaned.

End PdfFiller.

(** [formData.incomeInfo.ssn || ''] *)
Definition ssnOrEmpty (formData : FormData) : string :=
  match ssn (incomeInfo formData) with
  | Some s => s
  | None => ""
  end.

(** [`${firstName} ${lastName}`.trim()] *)
Definition fullNameOf (formData : FormData) : string :=
  Str.trim (firstName (personalInfo formData) ++ " " ++ lastName (personalInfo formData)).

(** ** Schedule IL-WIT (forms/formIL1040ScheduleILWIT.ts), all of its writes *)

Module ScheduleILWIT.

Import PdfFiller.

Definition MAX_W2_ROWS : nat := 5.

Definition rowWrites (i : nat) (w2 : W2Form) : list Write :=
  let n := String_of_Z (Z.of_nat (i + 1)) in
  let wages := orZero (wages w2) in
  let illinoisWithheld := orZero (stateTaxWithheld w2) in
  let illinoisWithheldFloored := Math.floor illinoisWithheld in
  let ein := Str.digitsOnly (ein w2) in
  [ ("Form type - " ++ n, "W");
    ("EIN - " ++ n, ein);
    ("Federal wages - " ++ n, formatCurrencyForPDFWholeOnly wages);
    ("Illinois wages - " ++ n, formatCurrencyForPDFWholeOnly wages);
    ("Illinois withheld - " ++ n, String_of_Z illinoisWithheldFloored) ].

(** One turn of the [for] loop: the state is [totalIllinoisWithheld]
    and the writes made so far. *)
Definition rowStep (st : Z * list Write) (row : nat * W2Form) : Z * list Write :=
  let '(totalIllinoisWithheld, ws) := st in
  let '(i, w2) := row in
  (totalIllinoisWithheld + Math.floor (orZero (stateTaxWithheld w2)),
   (ws ++ rowWrites i w2)%list).

(** [for (let i = 0; i < Math.min(w2Forms.length, MAX_W2_ROWS); i++)]
    with [w2 = w2Forms[i]]. *)
Definition rowLoop (w2Forms : list W2Form) : Z * list Write :=
  let bound := Nat.min (List.length w2Forms) MAX_W2_ROWS in
  fold_left rowStep (combine (seq 0 bound) w2Forms) (0%Z, []).

Definition totalIllinoisWithheld (formData : FormData) : Z :=
  fst (rowLoop (w2Forms (incomeInfo formData))).

Definition fillFormIL1040ScheduleILWIT (formData : FormData)
    (taxResult : TaxCalculationResult) : list Write :=
  let fullName := fullNameOf formData in
  let ssnDigits := Str.digitsOnly (ssnOrEmpty formData) in
  let ssn3 := if (3 <=? String.length ssnDigits)%nat
              then Str.slice 0 3 ssnDigits else ssnDigits in
  let ssn2 := if (5 <=? String.length ssnDigits)%nat
              then Str.slice 3 5 ssnDigits else "" in
  let ssn4 := if (9 <=? String.length ssnDigits)%nat
              then Str.slice 5 9 ssnDigits else "" in
  let '(totalIllinoisWithheld, rows) := rowLoop (w2Forms (incomeInfo formData)) in
  ([ ("Your name", fullName);
     ("Your SSN-3", ssn3);
     ("Your SSN-2", ssn2);
     ("Your SSN-4", ssn4) ]
   ++ rows
   ++ [ ("Total amount", String_of_Z totalIllinoisWithheld) ])%list.

End ScheduleILWIT.

(** ** Form IL-1040 (forms/formIL1040.ts)

    The writes that carry the filer's name, the SSN and the amounts derived
    from the income record; the address, contact, date and bank fields, the
    check boxes and the fields set to the constant ['0'] are left out. *)

Module FormIL1040.

Import PdfFiller.

Definition ZERO : string := "0".

Definition calculateGrossIncome (formData : FormData) : Q :=
  let total := 0%Q in
  let total := Double.forEach_add (fun w2 => orZero (wages w2))
                 (w2Forms (incomeInfo formData)) total in
  let total := Double.forEach_add (fun form => orZero (interestIncome form))
                 (form1099INT (incomeInfo formData)) total in
  let total := Double.forEach_add (fun form => orZero (otherIncome form))
                 (form1099MISC (incomeInfo formData)) total in
  total.

Definition calculateStateTaxWithheldForForms (formData : FormData) : Z :=
  let total := 0%Z in
  let total := forEach_addZ (fun w2 => Math.floor (orZero (stateTaxWithheld w2)))
                 (w2Forms (incomeInfo formData)) total in
  let total := forEach_addZ (fun form => Math.floor (orZero (int_stateTaxWithheld form)))
                 (form1099INT (incomeInfo formData)) total in
  let total := forEach_addZ (fun form => Math.floor (orZero (misc_stateTaxWithheld form)))
                 (form1099MISC (incomeInfo formData)) total in
  total.

Definition fillFormIL1040 (formData : FormData) (taxResult : TaxCalculationResult)
  : list Write :=
  let grossIncome := calculateGrossIncome formData in
  let stateTaxWithheld := calculateStateTaxWithheldForForms formData in
  let exemption := if negb (Qle_bool grossIncome 250000) then 0%Q else 2850%Q in
  let taxableIncome := Math.max 0 (Double.sub grossIncome exemption) in
  let taxOwed := st_taxOwed (stateTax taxResult) in
  let refund := st_refund (stateTax taxResult) in
  let amountOwed := st_amountOwed (stateTax taxResult) in
  let whole (z : Z) := formatCurrencyForPDFWholeOnly (inject_Z z) in
  [ ("step1-A-firstnamemi", firstName (personalInfo formData));
    ("step1-A-lastname", lastName (personalInfo formData));
    ("step1-A-ssn", formatSSN (ssnOrEmpty formData));
    ("Federally adjusted income", formatCurrencyForPDFWholeOnly grossIncome);
    ("Total income", formatCurrencyForPDFWholeOnly grossIncome);
    ("Illinois base income", formatCurrencyForPDFWholeOnly grossIncome);
    ("Exemption amount", formatCurrencyForPDFWholeOnly exemption);
    ("Exemption allowance", formatCurrencyForPDFWholeOnly exemption);
    ("Illinois net income from Schedule NR", formatCurrencyForPDFWholeOnly taxableIncome);
    ("Multiply residency rate", whole taxOwed);
    ("Income tax", whole taxOwed);
    ("Tax after nonrefundable credits", whole taxOwed);
    ("Total Tax", whole taxOwed);
    ("Total tax from Page 1", whole taxOwed);
    ("Illinois Income Tax withheld",
       formatCurrencyForPDFWholeOnly (inject_Z stateTaxWithheld));
    ("Total payments and refundable credit",
       formatCurrencyForPDFWholeOnly (inject_Z stateTaxWithheld));
    ("If Line 31 is greater", if (0 <? refund)%Z then whole refund else ZERO);
    ("If Line 24 is greater", if (0 <? amountOwed)%Z then whole amountOwed else ZERO);
    ("Overpayment amount", if (0 <? refund)%Z then whole refund else ZERO);
    ("Refunded to you", if (0 <? refund)%Z then whole refund else ZERO);
    ("Amount you owe", if (0 <? amountOwed)%Z then whole amountOwed else ZERO) ].

End FormIL1040.

(** ** The SSN and EIN writes of the other mappers

    Each definition is the write (or the local value) of the named mapper
    that carries the SSN or an EIN. *)

Module SsnFields.

Import PdfFiller.

(** forms/form8843.ts, [fillForm8843], field 6 *)
Definition fillForm8843_ssn (formData : FormData) : Write :=
  ("topmostSubform[0].Page1[0].f1_06[0]", formatSSN (ssnOrEmpty formData)).

(** forms/form843.ts, [fillForm843], field 47 *)
Definition fillForm843_ssn (formData : FormData) : Write :=
  ("topmostSubform[0].Page1[0].f1_3[0]", formatSSN (ssnOrEmpty formData)).

(** forms/form1040NRO.ts, [fillForm1040NRO], field 2 *)
Definition fillForm1040NRO_ssn (formData : FormData) : Write :=
  ("form1040-NR[0].Page1[0].f1_2[0]", formatSSN (ssnOrEmpty formData)).

(** forms/form1040NR.ts, [fillForm1040NR], field 16: the comment there
    says "without dashes, maxLength is 9". *)
Definition fillForm1040NR_ssn (formData : FormData) : Write :=
  let ssn := ssnOrEmpty formData in
  let ssnDigits := Str.digitsOnly ssn in
  ("topmostSubform[0].Page1[0].f1_16[0]", ssnDigits).

(** forms/form8316.ts, the [einFormatted] local of [fillForm8316]:
    [ein.length >= 2 ? `${ein.slice(0, 2)}-${ein.slice(2)}` : ein || 'See W-2'] *)
Definition einFormatted (w2 : W2Form) : string :=
  let ein := Str.digitsOnly (ein w2) in
  if (2 <=? String.length ein)%nat
  then Str.slice 0 2 ein ++ "-" ++ Str.sliceFrom 2 ein
  else if ein =? "" then "See W-2" else ein.

End SsnFields.

(** ** The result page (app/success/page.tsx) *)

Module SuccessPage.

(** The component state the render reads. *)
Record State : Type := mkState {
  isCalculating : bool;
  taxResult : option TaxCalculationResult;
  formData : option FormData;
  error : option string
}.

(** What a render shows.  [ResultView] carries the two conditional
    elements of the result page: the "Proceed to Payment" button and the
    refusal text. *)
Inductive View : Type :=
| Spinner
| ErrorView (message : string)
| NoIncomeView            (* Form 8843 only; always offers payment *)
| Null
| ResultView (proceedToPayment : bool) (refusal : bool).

Definition totalRefund (r : TaxCalculationResult) : Z :=
  fed_refund (federalTax r) + st_refund (stateTax r).

Definition totalOwed (r : TaxCalculationResult) : Z :=
  fed_amountOwed (federalTax r) + st_amountOwed (stateTax r).

Definition hasNetUnderpayment (r : TaxCalculationResult) : bool :=
  (totalRefund r <? totalOwed r)%Z.

Definition render (s : State) : View :=
  if isCalculating s then Spinner
  else
    match error s with
    | Some message => ErrorView message
    | None =>
        if negb match formData s with
                | Some fd => hadUSIncome (incomeInfo fd)
                | None => false
                end
        then NoIncomeView
        else
          match taxResult s with
          | None => Null
          | Some r =>
              ResultView (negb (hasNetUnderpayment r)) (hasNetUnderpayment r)
          end
    end.

(** [completeFormData]: the stored data with its defaults filled in
    ([country: ... || 'India']). *)
Definition completeFormData (parsedData : FormData) : FormData :=
  let p := personalInfo parsedData in
  {| personalInfo :=
       {| firstName := firstName p;
          lastName := lastName p;
          country := if country p =? "" then "India" else country p |};
     residencyInfo := residencyInfo parsedData;
     incomeInfo := incomeInfo parsedData |}.

(** The state once the effect that runs on mount has settled, given the
    form data found in session storage. *)
Definition settled (stored : option FormData) : State :=
  match stored with
  | None =>
      mkState false None None (Some "No form data found. Please start over.")
  | Some parsedData =>
      if negb (hadUSIncome (incomeInfo parsedData))
      then mkState false None (Some parsedData) None
      else
        match calculateTax (completeFormData parsedData) with
        | Ok result => mkState false (Some result) (Some parsedData) None
        | Throw message => mkState false None (Some parsedData) (Some message)
        end
  end.

Definition offersPayment (v : View) : bool :=
  match v with
  | ResultView proceed _ => proceed
  | NoIncomeView => true
  | _ => false
  end.

End SuccessPage.

(** ** Records used as examples *)

Definition incomeOnly (country : string) (i : IncomeInfo) : FormData :=
  mkFormData (mkPersonalInfo "Asha" "Rao" country) (mkResidencyInfo []) i.

(** A single W-2 with the given wages and federal and state withholding. *)
Definition oneW2 (w f s : Q) : FormData :=
  incomeOnly "India"
    (mkIncomeInfo true (Some Illinois) (Some "123-45-6789")
       [mkW2Form (Some w) (Some f) (Some s) None None "12-3456789"] [] []).

(** Scenario 1 of the specification. *)
Definition scenario1 : FormData := oneW2 30000 2000 1000.



(** Sum of a list of amounts, taken exactly. *)
Definition Qsum (l : list Q) : Q := fold_right Qplus 0%Q l.

(** The same amounts added up one after the other in double arithmetic,
    from 0. *)
Definition runningTotal (l : list Q) : Q := fold_left Double.add l 0%Q.


(** The federal withholding amounts of a record, in the same order. *)
Definition federalWithholdings (fd : FormData) : list Q :=
  (map (fun w2 => orZero (federalTaxWithheld w2)) (w2Forms (incomeInfo fd))
   ++ map (fun f => orZero (int_federalTaxWithheld f)) (form1099INT (incomeInfo fd))
   ++ map (fun f => orZero (misc_federalTaxWithheld f)) (form1099MISC (incomeInfo fd)))%list.

(** Every amount of the list is a whole number of dollars, none negative. *)
Definition wholeDollars (l : list Q) : Prop :=
  Forall (fun q => exists n : Z, 0 <= n /\ (q == inject_Z n)%Q) l.

(** One W-2 per entry, with the given wages and federal withholding and
    nothing else. *)
Definition w2sOf (entries : list (Q * Q)) : FormData :=
  incomeOnly "India"
    (mkIncomeInfo true (Some Illinois) (Some "123-45-6789")
       (map (fun e => mkW2Form (Some (fst e)) (Some (snd e)) None None None "12-3456789")
            entries)
       [] []).



(** Wages of 5000 each with 325.59, 193.25 and 67.16 withheld: 586.00 in
    all. *)
Definition withheld586 : FormData :=
  w2sOf [(5000, 32559 # 100); (5000, 19325 # 100); (5000, 6716 # 100)]%Q.

Definition Zsum (l : list Z) : Z := fold_right Z.add 0 l.

(** ** Vocabulary of the statements *)



(** A result with a federal refund of 200 and a state amount owed of 500
    (scenario 5 of the specification). *)
Definition scenario5 : TaxCalculationResult :=
  {| federalTax :=
       {| fed_taxOwed := 1800; fed_refund := 200; fed_amountOwed := 0;
          fed_forms := {| form8843 := true; fed_form1040 := true; form832 := false |} |};
     stateTax :=
       {| st_taxOwed := 1500; st_refund := 0; st_amountOwed := 500;
          st_form1040 := true |} |}.

(** The shape XXX-XX-XXXX. *)
Definition isDashedSSN (v : string) : bool :=
  match v with
  | String a (String b (String c (String "-" (String d (String e (String "-"
      (String f (String g (String h (String i EmptyString)))))))))) =>
      Str.isDigit a && Str.isDigit b && Str.isDigit c && Str.isDigit d &&
      Str.isDigit e && Str.isDigit f && Str.isDigit g && Str.isDigit h &&
      Str.isDigit i
  | _ => false
  end.

(** The shape XX-XXXXXXX. *)
Definition isDashedEIN (v : string) : bool :=
  match v with
  | String a (String b (String "-" (String c (String d (String e (String f
      (String g (String h (String i EmptyString))))))))) =>
      Str.isDigit a && Str.isDigit b && Str.isDigit c && Str.isDigit d &&
      Str.isDigit e && Str.isDigit f && Str.isDigit g && Str.isDigit h &&
      Str.isDigit i
  | _ => false
  end.

(** [fd] with its income documents replaced. *)
Definition withIncomeDocuments (fd : FormData) (w2s : list W2Form)
    (ints : list Form1099INT) (miscs : list Form1099MISC) : FormData :=
  {| personalInfo := personalInfo fd;
     residencyInfo := residencyInfo fd;
     incomeInfo :=
       {| hadUSIncome := hadUSIncome (incomeInfo fd);
          incomeState := incomeState (incomeInfo fd);
          ssn := ssn (incomeInfo fd);
          w2Forms := w2s;
          form1099INT := ints;
          form1099MISC := miscs |} |}.

Definition flooredStateWithheld (w2 : W2Form) : Z :=
  Qfloor (orZero (stateTaxWithheld w2)).

(** No W-2, one 1099-INT with 100 of Illinois tax withheld. *)
Definition interestWithholdingOnly : FormData :=
  incomeOnly "India"
    (mkIncomeInfo true (Some Illinois) (Some "123-45-6789") []
       [mkForm1099INT (Some 5000%Q) None (Some 100%Q)] []).

(** Six W-2s, each with 10 of Illinois tax withheld. *)
Definition sixW2s : FormData :=
  incomeOnly "India"
    (mkIncomeInfo true (Some Illinois) (Some "123-45-6789")
       (repeat (mkW2Form (Some 4000%Q) (Some 0%Q) (Some 10%Q) None None "12-3456789") 6)
       [] []).

(** [v'] is [v] with its exit date moved later (entry date held fixed). *)
Definition exitLater (v v' : Visit) : Prop :=
  entryDate v' = entryDate v /\
  match exitDate v, exitDate v' with
  | Some x, Some x' => (x <= x')%Z
  | None, None => True
  | _, _ => False
  end.

(** [v'] is [v] with its entry date moved later (exit date held fixed). *)
Definition entryLater (v v' : Visit) : Prop :=
  exitDate v' = exitDate v /\
  match entryDate v, entryDate v' with
  | Some e, Some e' => (e <= e')%Z
  | None, None => True
  | _, _ => False
  end.

(** Days of one visit that fall in the year from day [yearStart] to day
    [yearEnd], counted in whole days as the specification words it: the
    entry day counts; an exit within the year does not count; a visit that
    runs past the year's end counts through [yearEnd]; an open visit counts
    through today or [yearEnd], whichever is earlier. *)
Definition daysPresent (today yearStart yearEnd : Z) (v : Visit) : Z :=
  match entryDate v with
  | None => 0
  | Some e =>
      let first := Z.max e yearStart in
      match exitDate v with
      | Some x =>
          if (yearStart <=? x)%Z && (x <=? yearEnd)%Z then Z.max 0 (x - first)
          else if (yearEnd <? x)%Z then Z.max 0 (yearEnd + 1 - first)
          else 0
      | None => Z.max 0 (Z.min today yearEnd + 1 - first)
      end
  end%Z.

(** A browser in US Central Standard Time, and one on UTC, both on
    2026-02-01 at 17:00 UTC. *)
Definition centralTime : Days.Host :=
  Days.mkHost (Days.dateOfDay (Days.daysFromCivil 2026 2 1) + 17 * Days.hour)
    (- 6 * Days.hour).

Definition utcTime : Days.Host :=
  Days.mkHost (Days.dateOfDay (Days.daysFromCivil 2026 2 1) + 17 * Days.hour) 0.

(** Entry on 2025-01-01, exit on 2025-01-02: the example of the source's
    own comment. *)
Definition newYearVisit : ResidencyInfo :=
  mkResidencyInfo
    [mkVisit (Some (Days.daysFromCivil 2025 1 1)) (Some (Days.daysFromCivil 2025 1 2))].

(** Entry on 2024-08-15 and still present. *)
Definition openVisit : ResidencyInfo :=
  mkResidencyInfo [mkVisit (Some (Days.daysFromCivil 2024 8 15)) None].

(** The [exit] date of a visit and the [taxYearEnd] it leaves behind. *)
Definition exitOf (h : Days.Host) (taxYearEnd : Z) (v : Visit) : Z * Z :=
  match exitDate v with
  | Some x => (Days.setHours0 h (Days.dateOfDay x), taxYearEnd)
  | None =>
      if (Days.now h <? taxYearEnd)%Z
      then (Days.setHours0 h (Days.now h), taxYearEnd)
      else (Days.setHours0 h taxYearEnd, Days.setHours0 h taxYearEnd)
  end.

(** What one visit adds to [totalDays]. *)
Definition added (taxYearStart taxYearEnd entry exit : Z) (hasExit : bool) : Z :=
  (let startDate := if taxYearStart <? entry then entry else taxYearStart in
   let endDate := if exit <? taxYearEnd then exit else taxYearEnd in
   if startDate <=? endDate then
     if hasExit && (exit <=? taxYearEnd) && (taxYearStart <=? exit)
     then (endDate - startDate) / Days.msPerDay
     else (endDate - startDate) / Days.msPerDay + 1
   else 0)%Z.

Definition hasExit (v : Visit) : bool :=
  match exitDate v with Some _ => true | None => false end.

(** ** Further code: the mappers' amounts and the cover pages *)

(** forms/form1040NR.ts, [fillForm1040NR]: the writes that carry amounts.
    (Names, address, bank and contact fields are left out; the SSN write is
    [SsnFields.fillForm1040NR_ssn].) *)
Module Form1040NR.

Import PdfFiller.

Definition calculateGrossIncome (formData : FormData) : Q :=
  let total := 0%Q in
  let total := Double.forEach_add (fun w2 => orZero (wages w2))
                 (w2Forms (incomeInfo formData)) total in
  let total := Double.forEach_add (fun form => orZero (interestIncome form))
                 (form1099INT (incomeInfo formData)) total in
  let total := Double.forEach_add (fun form => orZero (otherIncome form))
                 (form1099MISC (incomeInfo formData)) total in
  total.

Definition calculateFederalTaxWithheld (formData : FormData) : Q :=
  let total := 0%Q in
  let total := Double.forEach_add (fun w2 => orZero (federalTaxWithheld w2))
                 (w2Forms (incomeInfo formData)) total in
  let total := Double.forEach_add (fun form => orZero (int_federalTaxWithheld form))
                 (form1099INT (incomeInfo formData)) total in
  let total := Double.forEach_add (fun form => orZero (misc_federalTaxWithheld form))
                 (form1099MISC (incomeInfo formData)) total in
  total.

Definition fillForm1040NR (formData : FormData) (taxResult : TaxCalculationResult)
  : list Write :=
  let grossIncome := calculateGrossIncome formData in
  let standardDeduction := 15750%Q in
  let taxableIncome := Math.max 0 (Double.sub grossIncome standardDeduction) in
  let federalTaxWithheld := calculateFederalTaxWithheld formData in
  let taxOwed := inject_Z (fed_taxOwed (federalTax taxResult)) in
  let overpaid := Math.max 0 (Double.sub federalTaxWithheld taxOwed) in
  let refund := if (0 <? fed_refund (federalTax taxResult))%Z
                then inject_Z (fed_refund (federalTax taxResult))
                else overpaid in
  [ ("topmostSubform[0].Page1[0].f1_42[0]", formatCurrencyForPDFWholeOnly grossIncome);
    ("topmostSubform[0].Page1[0].f1_54[0]", formatCurrencyForPDFWholeOnly grossIncome);
    ("topmostSubform[0].Page1[0].f1_56[0]", "0");
    ("topmostSubform[0].Page1[0].f1_68[0]", "0");
    ("topmostSubform[0].Page1[0].f1_69[0]", formatCurrencyForPDFWholeOnly grossIncome);
    ("topmostSubform[0].Page1[0].f1_71[0]", formatCurrencyForPDFWholeOnly grossIncome);
    ("topmostSubform[0].Page2[0].f2_01[0]", formatCurrencyForPDFWholeOnly grossIncome);
    ("topmostSubform[0].Page2[0].f2_02[0]", formatCurrencyForPDFWholeOnly standardDeduction);
    ("topmostSubform[0].Page2[0].f2_06[0]", formatCurrencyForPDFWholeOnly standardDeduction);
    ("topmostSubform[0].Page2[0].f2_07[0]", formatCurrencyForPDFWholeOnly taxableIncome);
    ("topmostSubform[0].Page2[0].f2_09[0]", formatCurrencyForPDFWholeOnly taxOwed);
    ("topmostSubform[0].Page2[0].f2_11[0]", formatCurrencyForPDFWholeOnly taxOwed);
    ("topmostSubform[0].Page2[0].f2_15[0]", formatCurrencyForPDFWholeOnly taxOwed);
    ("topmostSubform[0].Page2[0].f2_20[0]", formatCurrencyForPDFWholeOnly taxOwed);
    ("topmostSubform[0].Page2[0].Line25_ReadOrder[0].f2_21[0]",
       formatCurrencyForPDFWholeOnly federalTaxWithheld);
    ("topmostSubform[0].Page2[0].f2_24[0]", formatCurrencyForPDFWholeOnly federalTaxWithheld);
    ("topmostSubform[0].Page2[0].f2_35[0]", formatCurrencyForPDFWholeOnly federalTaxWithheld);
    ("topmostSubform[0].Page2[0].f2_36[0]", formatCurrencyForPDFWholeOnly overpaid);
    ("topmostSubform[0].Page2[0].f2_37[0]", formatCurrencyForPDFWholeOnly refund) ].

End Form1040NR.

(** package-illinois.ts: the figures of the Illinois cover letter's tax
    summary ([addIllinoisExplanationPages]). *)
Module PackageIllinois.

Definition ILLINOIS_EXEMPTION_SINGLE : Q := 2850.
Definition ILLINOIS_HIGH_INCOME : Q := 250000.

Definition illinoisGrossIncome (formData : FormData) : Q :=
  let total := 0%Q in
  let total := Double.forEach_add (fun w2 => orZero (wages w2))
                 (w2Forms (incomeInfo formData)) total in
  let total := Double.forEach_add (fun f => orZero (interestIncome f))
                 (form1099INT (incomeInfo formData)) total in
  let total := Double.forEach_add (fun f => orZero (otherIncome f))
                 (form1099MISC (incomeInfo formData)) total in
  total.

Definition netIncome (formData : FormData) : Z :=
  let grossIncome := illinoisGrossIncome formData in
  let exemption := if negb (Qle_bool grossIncome ILLINOIS_HIGH_INCOME)
                   then 0%Q else ILLINOIS_EXEMPTION_SINGLE in
  Math.floor (Math.max 0 (Double.sub grossIncome exemption)).

(** [taxOwed + refund - amountOwed] *)
Definition totalPayments (taxResult : TaxCalculationResult) : Z :=
  (st_taxOwed (stateTax taxResult) + st_refund (stateTax taxResult)
   - st_amountOwed (stateTax taxResult))%Z.

End PackageIllinois.

(** Tax of a whole taxable income under [India.TAX_BRACKETS], in cents. *)
Definition taxCents (ti : Z) : Z :=
  (if ti <=? 0 then 0
   else if ti <=? 11925 then 10 * ti
   else if ti <=? 48475 then 119250 + 12 * (ti - 11926)
   else if ti <=? 103350 then 557850 + 22 * (ti - 48476)
   else if ti <=? 197300 then 1765100 + 24 * (ti - 103351)
   else if ti <=? 250525 then 4019900 + 32 * (ti - 197301)
   else if ti <=? 626350 then 5723100 + 35 * (ti - 250526)
   else 18876975 + 37 * (ti - 626351))%Z.

(** ** Further code: pdf-filler.ts *)

Module PdfFiller2.

Import PdfFiller.

(** [setTextFieldWithAlternateNames]: the first of [fieldNames] that names
    a text field whose [setText] does not throw is set; with none, the
    document is left alone. *)
Fixpoint setTextFieldWithAlternateNames (form : PDFDocument)
    (fieldNames : list string) (value : string) : PDFDocument :=
  match fieldNames with
  | [] => form
  | name :: rest =>
      match getFormField form name with
      | Some field =>
          if f_isText field then
            match setText field value with
            | Some field' => withField form name field'
            | None => setTextFieldWithAlternateNames form rest value
            end
          else setTextFieldWithAlternateNames form rest value
      | None => setTextFieldWithAlternateNames form rest value
      end
  end.

(** [formatPhoneForPDF]: [(areaCode, number)]. *)
Definition formatPhoneForPDF (phone : string) : string * string :=
  if phone =? "" then ("", "")
  else
    let cleaned := Str.digitsOnly phone in
    if (10 <=? String.length cleaned)%nat
    then (Str.slice 0 3 cleaned, Str.sliceFrom 3 cleaned)
    else ("", cleaned).

(** The host's calendar: year, month (1 to 12) and day of the day number
    [z] counted from 1970-01-01. *)
Definition civilFromDays (z : Z) : Z * Z * Z :=
  (let z := z + 719468 in
   let era := z / 146097 in
   let doe := z - era * 146097 in
   let yoe := (doe - doe / 1460 + doe / 36524 - doe / 146096) / 365 in
   let y := yoe + era * 400 in
   let doy := doe - (365 * yoe + yoe / 4 - yoe / 100) in
   let mp := (5 * doy + 2) / 153 in
   let d := doy - (153 * mp + 2) / 5 + 1 in
   let m := if mp <? 10 then mp + 3 else mp - 9 in
   (if m <=? 2 then y + 1 else y, m, d))%Z.

(** [civilFromDays z] is a valid date and names day [z]. *)
Definition civilOk (z : Z) : bool :=
  let '(y, m, d) := civilFromDays z in
  ((Days.daysFromCivil y m d =? z) && (1 <=? m) && (m <=? 12)
   && (1 <=? d) && (d <=? 31))%Z.

(** [date.getFullYear()], [date.getMonth() + 1] and [date.getDate()]: the
    calendar date of the time value [t] in local time. *)
Definition localDate (h : Days.Host) (t : Z) : Z * Z * Z :=
  civilFromDays ((t + Days.utcOffset h) / Days.msPerDay).

(** [s.padStart(2, '0')] *)
Definition padStart2 (s : string) : string :=
  match String.length s with
  | O => "00"
  | S O => "0" ++ s
  | _ => s
  end.

(** [s.slice(-2)] *)
Definition sliceLast2 (s : string) : string :=
  substring (String.length s - 2) 2 s.

(** The date formatters take the stored date string, kept as its day
    number ([None] for the empty string), and read it back in local time. *)
Definition formatDateForPDF (h : Days.Host) (dateString : option Z) : string :=
  match dateString with
  | None => ""
  | Some day =>
      let '(year, month, d) := localDate h (Days.dateOfDay day) in
      padStart2 (String_of_Z month) ++ "/" ++ padStart2 (String_of_Z d) ++ "/" ++
      String_of_Z year
  end.

Definition formatDateForPDFShortYear (h : Days.Host) (dateString : option Z) : string :=
  match dateString with
  | None => ""
  | Some day =>
      let '(year, month, d) := localDate h (Days.dateOfDay day) in
      padStart2 (String_of_Z month) ++ "/" ++ padStart2 (String_of_Z d) ++ "/" ++
      sliceLast2 (String_of_Z year)
  end.

Definition formatDateForPDFDashes (h : Days.Host) (dateString : option Z) : string :=
  match dateString with
  | None => ""
  | Some day =>
      let '(year, month, d) := localDate h (Days.dateOfDay day) in
      padStart2 (String_of_Z month) ++ "-" ++ padStart2 (String_of_Z d) ++ "-" ++
      String_of_Z year
  end.

Definition extractYear (h : Days.Host) (dateString : option Z) : string :=
  match dateString with
  | None => ""
  | Some day =>
      let '(year, _, _) := localDate h (Days.dateOfDay day) in String_of_Z year
  end.

End PdfFiller2.

(** The text of the field a name reaches, if any. *)
Definition textOf (form : PdfFiller.PDFDocument) (fieldName : string) : option string :=
  option_map PdfFiller.f_value (PdfFiller.getFormField form fieldName).

(** The name reaches a text field that takes [value]. *)
Definition takes (form : PdfFiller.PDFDocument) (value fieldName : string) : bool :=
  match PdfFiller.getFormField form fieldName with
  | Some field => PdfFiller.f_isText field && PdfFiller.f_accepts field value
  | None => false
  end.

(** A template with a check box, a text field of at most two characters and
    two free text fields. *)
Definition countyTemplate : PdfFiller.PDFDocument :=
  [ PdfFiller.mkField "step1-A-county" false (fun _ => true) "";
    PdfFiller.mkField "County" true (fun v => (String.length v <=? 2)%nat) "";
    PdfFiller.mkField "county" true (fun _ => true) "";
    PdfFiller.mkField "Name" true (fun _ => true) "x" ].

(** ** Further code: the input formatters of the income step
    (components/forms/Step4IncomeInfo.tsx) and of the review page *)

Module IncomeStep.

Definition formatSSN (value : string) : string :=
  let digits := Str.digitsOnly value in
  let limited := Str.slice 0 9 digits in
  if (String.length limited <=? 3)%nat then limited
  else if (String.length limited <=? 5)%nat
  then Str.slice 0 3 limited ++ "-" ++ Str.sliceFrom 3 limited
  else Str.slice 0 3 limited ++ "-" ++ Str.slice 3 5 limited ++ "-" ++
       Str.sliceFrom 5 limited.

Definition getSSNWithoutDashes (ssn : string) : string := Str.digitsOnly ssn.

Definition formatEIN (value : string) : string :=
  let digits := Str.digitsOnly value in
  let limited := Str.slice 0 9 digits in
  if (String.length limited <=? 2)%nat then limited
  else Str.slice 0 2 limited ++ "-" ++ Str.sliceFrom 2 limited.

Definition isValidEIN (ein : string) : bool :=
  let digits := Str.digitsOnly ein in
  (String.length digits =? 9)%nat.

End IncomeStep.

Module ReviewPage.

(** [formatPhone] of the review step. *)
Definition formatPhone (phone : string) : string :=
  let d := Str.digitsOnly phone in
  if (String.length d =? 10)%nat
  then "(" ++ Str.slice 0 3 d ++ ") " ++ Str.slice 3 6 d ++ "-" ++ Str.sliceFrom 6 d
  else phone.

End ReviewPage.

(** The layouts of the income step's formatters, as functions of the
    (at most nine) digits kept. *)
Definition ssnLayout (limited : string) : string :=
  if (String.length limited <=? 3)%nat then limited
  else if (String.length limited <=? 5)%nat
  then Str.slice 0 3 limited ++ "-" ++ Str.sliceFrom 3 limited
  else Str.slice 0 3 limited ++ "-" ++ Str.slice 3 5 limited ++ "-" ++
       Str.sliceFrom 5 limited.

Definition einLayout (limited : string) : string :=
  if (String.length limited <=? 2)%nat then limited
  else Str.slice 0 2 limited ++ "-" ++ Str.sliceFrom 2 limited.

(** A W-2 whose EIN is what the income step stored for the typed [value]. *)
Definition w2WithTypedEIN (value : string) : W2Form :=
  mkW2Form None None None None None (IncomeStep.formatEIN value).

(** ** Further code: products, FICA figures and the checkout *)

(** lib/products.ts *)
Module Products.

Inductive FormProductId : Type := form8843 | federal | illinois | fica.

Definition eqb (a b : FormProductId) : bool :=
  match a, b with
  | form8843, form8843 | federal, federal | illinois, illinois | fica, fica => true
  | _, _ => false
  end.

Record ProductOption : Type := mkProductOption {
  id : FormProductId;
  label : string;
  description : string;
  price : Q
}.

Module FORM_PRODUCTS.
Definition form8843 : ProductOption :=
  mkProductOption Products.form8843 "Form 8843 only"
    "Statement for Exempt Individuals" (499 # 100).
Definition federal : ProductOption :=
  mkProductOption Products.federal "Federal only"
    "Form 1040-NR - U.S. Individual Income Tax Return" (999 # 100).
Definition illinois : ProductOption :=
  mkProductOption Products.illinois "Illinois only"
    "Form IL-1040 - Illinois Individual Income Tax Return" (1499 # 100).
Definition fica : ProductOption :=
  mkProductOption Products.fica "FICA only"
    "Form 843 + Form 8316 - FICA Tax Refund Request" (2599 # 100).
End FORM_PRODUCTS.

(** [(w2?.socialSecurityWithheld || 0) + (w2?.medicareWithheld || 0) > 0] *)
Definition w2HasFica (w2 : W2Form) : bool :=
  negb (Qle_bool (Double.add (orZero (socialSecurityWithheld w2))
                             (orZero (medicareWithheld w2))) 0).

Definition getApplicableProducts (formData : option FormData) : list ProductOption :=
  match formData with
  | None => []
  | Some formData =>
      let hadUSIncome := hadUSIncome (incomeInfo formData) in
      let incomeStateIsIllinois :=
        match incomeState (incomeInfo formData) with
        | Some Illinois => true
        | _ => false
        end in
      if negb hadUSIncome then [FORM_PRODUCTS.form8843]
      else
        let options := [FORM_PRODUCTS.federal] in
        let options :=
          if incomeStateIsIllinois && hadUSIncome
          then (options ++ [FORM_PRODUCTS.illinois])%list else options in
        let hasFICAWithheld :=
          if hadUSIncome && negb (Nat.eqb (List.length (w2Forms (incomeInfo formData))) 0)
          then existsb w2HasFica (w2Forms (incomeInfo formData))
          else false in
        if hasFICAWithheld then (options ++ [FORM_PRODUCTS.fica])%list else options
  end.

(** The partial record [getRefundByProduct] returns; the key [form8843] is
    never set. *)
Record RefundByProduct : Type := mkRefundByProduct {
  rb_federal : option Z;
  rb_illinois : option Z;
  rb_fica : option Q
}.

Definition ficaTotal (formData : FormData) : Q :=
  Double.forEach_add
    (fun w2 => Double.add (orZero (socialSecurityWithheld w2))
                          (orZero (medicareWithheld w2)))
    (w2Forms (incomeInfo formData)) 0.

Definition getRefundByProduct (formData : option FormData)
    (taxResult : option TaxCalculationResult) : RefundByProduct :=
  match formData with
  | None => mkRefundByProduct None None None
  | Some formData =>
      let out_federal :=
        match taxResult with
        | Some r => if (0 <? fed_refund (federalTax r))%Z
                    then Some (fed_refund (federalTax r)) else None
        | None => None
        end in
      let out_illinois :=
        match taxResult with
        | Some r => if (0 <? st_refund (stateTax r))%Z
                    then Some (st_refund (stateTax r)) else None
        | None => None
        end in
      let ficaTotal := ficaTotal formData in
      let out_fica := if negb (Qle_bool ficaTotal 0) then Some ficaTotal else None in
      mkRefundByProduct out_federal out_illinois out_fica
  end.

End Products.

(** forms/form843.ts, [fillForm843]: the FICA figures and the writes that
    carry them. *)
Module Form843.

Import PdfFiller.

Definition w2WithFica (formData : FormData) : list W2Form :=
  filter Products.w2HasFica (w2Forms (incomeInfo formData)).

Definition totalSS (formData : FormData) : Q :=
  Double.forEach_add (fun w2 => orZero (socialSecurityWithheld w2)) (w2WithFica formData) 0.

Definition totalMedicare (formData : FormData) : Q :=
  Double.forEach_add (fun w2 => orZero (medicareWithheld w2)) (w2WithFica formData) 0.

Definition totalFICAFloor (formData : FormData) : Z :=
  Math.floor (Double.add (totalSS formData) (totalMedicare formData)).

Definition ssFloor (formData : FormData) : Z := Math.floor (totalSS formData).

Definition medicareFloor (formData : FormData) : Z := Math.floor (totalMedicare formData).

(** Line 2 (amount to be refunded) and line 3a. *)
Definition fillForm843_amounts (formData : FormData) : list Write :=
  ([ ("topmostSubform[0].Page1[0].f1_19[0]", String_of_Z (totalFICAFloor formData)) ]
   ++ (if (0 <? totalFICAFloor formData)%Z
       then [ ("topmostSubform[0].Page1[0].f1_20[0]", "See attached") ]
       else []))%list.

End Form843.

(** package-fica.ts: the figures of the FICA cover pages. *)
Module PackageFica.

Definition getFicaRefundAmount (formData : FormData) : Z :=
  Math.floor
    (Double.forEach_add
       (fun w2 => Double.add (orZero (socialSecurityWithheld w2))
                             (orZero (medicareWithheld w2)))
       (w2Forms (incomeInfo formData)) 0).

(** [(ss, med)] *)
Definition getFicaBreakdown (formData : FormData) : Z * Z :=
  let ss := Double.forEach_add (fun w2 => orZero (socialSecurityWithheld w2))
              (w2Forms (incomeInfo formData)) 0 in
  let med := Double.forEach_add (fun w2 => orZero (medicareWithheld w2))
               (w2Forms (incomeInfo formData)) 0 in
  (Math.floor ss, Math.floor med).

End PackageFica.

(** app/payment/page.tsx and app/api/create-payment-intent/route.ts *)
Module Checkout.

Local Open Scope char_scope.

Definition isLower (c : ascii) : bool :=
  (97 <=? nat_of_ascii c)%nat && (nat_of_ascii c <=? 122)%nat.

Definition upperChar (c : ascii) : ascii :=
  if isLower c then ascii_of_nat (nat_of_ascii c - 32) else c.

Local Open Scope string_scope.

(** [s.toUpperCase()] *)
Fixpoint toUpperCase (s : string) : string :=
  match s with
  | EmptyString => EmptyString
  | String c s' => String (upperChar c) (toUpperCase s')
  end.

(** [Math.round] *)
Definition round (x : Q) : Z := Qfloor (x + (1 # 2)).

(** The [total] of the payment page: the prices of the applicable products
    that are selected. *)
Definition total (applicableProducts : list Products.ProductOption)
    (selectedIds : Products.FormProductId -> bool) : Q :=
  forEach_add
    (fun p => if selectedIds (Products.id p) then Products.price p else 0%Q)
    applicableProducts 0.

(** [handleApplyPromo]: the discount applied, or the error shown. *)
Definition handleApplyPromo (promoCode : string) (total : Q) : Q + string :=
  let code := toUpperCase (Str.trim promoCode) in
  if code =? "" then inr "Enter a promo code"
  else if code =? "SAVE10OVER50" then
    if negb (Qle_bool total 50) then inl (total * (1 # 10))%Q
    else inr "This promo code requires a total greater than $50"
  else if code =? "GUNTURKIMIRCHI" then inl total
  else if code =? "SAVE10" then inl (total * (1 # 10))%Q
  else if code =? "SAVE5" then inl 5%Q
  else if code =? "F1TAX" then inl (299 # 100)%Q
  else inr "Invalid or expired promo code".

(** [Math.max(0, total - (appliedPromo?.discount ?? 0))] *)
Definition finalTotal (total : Q) (appliedPromo : option Q) : Q :=
  Math.max 0 (total - match appliedPromo with Some d => d | None => 0%Q end).

(** What the payment page shows under the total. *)
Inductive PayView : Type :=
| NoPaymentRequired
| MinimumChargeNotice
| CheckoutForm (total : Q).

Definition payView (finalTotal : Q) : PayView :=
  if Qeq_bool finalTotal 0 then NoPaymentRequired
  else if negb (Qle_bool (1 # 2) finalTotal) then MinimumChargeNotice
  else CheckoutForm finalTotal.

(** [Math.round(total * 100)], the [amountCents] the form posts. *)
Definition amountCents (total : Q) : Z := round (total * 100).

Definition MIN_AMOUNT_CENTS : Z := 50.

(** The route's validation of the posted amount, for a configured server:
    the amount handed to Stripe, or the status of the error response. *)
Definition POST_amount (bodyAmountCents : Z) : Z + Z :=
  let amountCents := round (inject_Z bodyAmountCents) in
  if (amountCents <? MIN_AMOUNT_CENTS)%Z then inr 400%Z else inl amountCents.

End Checkout.


(** app/payment/page.tsx: the payment page. *)
Module PaymentPage.

(** The component state the render reads. *)
Record State : Type := mkState {
  formData : option FormData;
  taxResult : option TaxCalculationResult;
  selectedIds : list Products.FormProductId;
  mounted : bool;
  paymentSuccess : bool;
  appliedPromo : option Q
}.

(** What a render shows. *)
Inductive View : Type :=
| Spinner
| NoFormDataFound
| NoFormsAvailable
| PaymentSuccessScreen (paidProductIds : list Products.FormProductId)
    (taxResult : option TaxCalculationResult)
| SelectAtLeastOne (applicableProducts : list Products.ProductOption)
| SelectAndPay (applicableProducts : list Products.ProductOption)
    (pay : Checkout.PayView).

(** [selectedIds.has(id)] *)
Definition has (selectedIds : list Products.FormProductId)
    (id : Products.FormProductId) : bool :=
  existsb (Products.eqb id) selectedIds.

Definition render (s : State) : View :=
  let applicableProducts := Products.getApplicableProducts (formData s) in
  let total := Checkout.total applicableProducts (has (selectedIds s)) in
  let finalTotal := Checkout.finalTotal total (appliedPromo s) in
  if negb (mounted s) then Spinner
  else
    match formData s with
    | None => NoFormDataFound
    | Some _ =>
        if (List.length applicableProducts =? 0)%nat then NoFormsAvailable
        else if paymentSuccess s
        then PaymentSuccessScreen (selectedIds s) (taxResult s)
        else if (List.length (selectedIds s) =? 0)%nat
        then SelectAtLeastOne applicableProducts
        else SelectAndPay applicableProducts (Checkout.payView finalTotal)
    end.

(** The state once the effect that runs on mount has settled, given what
    session storage holds under [formData] and [taxResult]. *)
Definition settled (storedFormData : option FormData)
    (storedTaxResult : option TaxCalculationResult) : State :=
  match storedFormData with
  | None => mkState None None [] true false None
  | Some parsed =>
      let products := Products.getApplicableProducts (Some parsed) in
      mkState (Some parsed) storedTaxResult (map Products.id products) true false None
  end.




End PaymentPage.


(** Every W-2 of the record has non-negative Social Security and Medicare
    withholding. *)
Definition ficaNonneg (fd : FormData) : Prop :=
  Forall (fun w2 => (0 <= orZero (socialSecurityWithheld w2))%Q /\
                    (0 <= orZero (medicareWithheld w2))%Q)
    (w2Forms (incomeInfo fd)).

Definition offersFica (products : list Products.ProductOption) : bool :=
  existsb (fun p => Products.eqb (Products.id p) Products.fica) products.

(** Two W-2s, one with FICA withheld, Illinois income. *)
Definition withFica : FormData :=
  incomeOnly "India"
    (mkIncomeInfo true (Some Illinois) (Some "123-45-6789")
       [ mkW2Form (Some 20000%Q) (Some 900%Q) (Some 700%Q)
           (Some (124050 # 100)) (Some (29025 # 100)) "12-3456789";
         mkW2Form (Some 5000%Q) (Some 100%Q) (Some 50%Q) None None "98-7654321" ]
       [] []).


(** FICA withheld on one W-2. *)
Definition ficaOf (w2 : W2Form) : Q :=
  Double.add (orZero (socialSecurityWithheld w2)) (orZero (medicareWithheld w2)).

(** The Social Security amounts of the W-2s, then their Medicare amounts. *)
Definition ficaAmounts (fd : FormData) : list Q :=
  (map (fun w2 => orZero (socialSecurityWithheld w2)) (w2Forms (incomeInfo fd))
   ++ map (fun w2 => orZero (medicareWithheld w2)) (w2Forms (incomeInfo fd)))%list.

(** Two W-2s with 627.05 and 190.64, and 1772.10 and 0.21, of Social
    Security and Medicare withheld: 2590.00 in all. *)
Definition ficaCents : FormData :=
  incomeOnly "India"
    (mkIncomeInfo true (Some Illinois) (Some "123-45-6789")
       [ mkW2Form (Some 20000%Q) (Some 900%Q) (Some 700%Q)
           (Some (62705 # 100)) (Some (19064 # 100)) "12-3456789";
         mkW2Form (Some 30000%Q) (Some 100%Q) (Some 50%Q)
           (Some (177210 # 100)) (Some (21 # 100)) "98-7654321" ]
       [] []).

(** Two W-2s with whole dollar amounts of FICA withheld. *)
Definition ficaWhole : FormData :=
  incomeOnly "India"
    (mkIncomeInfo true (Some Illinois) (Some "123-45-6789")
       [ mkW2Form (Some 20000%Q) (Some 900%Q) (Some 700%Q)
           (Some 1240%Q) (Some 290%Q) "12-3456789";
         mkW2Form (Some 5000%Q) (Some 100%Q) (Some 50%Q) None None "98-7654321" ]
       [] []).

(** One W-2 whose Social Security amount is 2^53 dollars. *)
Definition ficaHuge : FormData :=
  incomeOnly "India"
    (mkIncomeInfo true (Some Illinois) (Some "123-45-6789")
       [ mkW2Form (Some 20000%Q) (Some 900%Q) (Some 700%Q)
           (Some (inject_Z (2 ^ 53))) (Some 1%Q) "12-3456789" ]
       [] []).

(** * Properties *)

(** ** Arithmetic of doubles

    [Double.round] is monotone, keeps the sign, fixes the whole numbers of
    at most 53 bits and is idempotent; sums and differences inherit what
    follows from that. *)

Section PowersOfTwo.

Local Open Scope Q_scope.

Lemma two_neq0 : ~ 2 == 0.
Proof. discriminate. Qed.

Lemma pow2_pos (k : Z) : 0 < 2 ^ k.
Proof. apply Qpower_0_lt. reflexivity. Qed.

Lemma pow2_add (a b : Z) : 2 ^ (a + b) == 2 ^ a * 2 ^ b.
Proof. apply Qpower_plus, two_neq0. Qed.

Lemma pow2_cancel (a b : Z) : 2 ^ a * 2 ^ (b - a) == 2 ^ b.
Proof. rewrite <- pow2_add. now replace (a + (b - a))%Z with b by lia. Qed.

Lemma pow2_le (n m : Z) : (n <= m)%Z -> 2 ^ n <= 2 ^ m.
Proof. intro H. apply Qpower_le_compat_l; [exact H | discriminate]. Qed.

Lemma pow2_lt (n m : Z) : (n < m)%Z -> 2 ^ n < 2 ^ m.
Proof. intro H. apply Qpower_lt_compat_l; [exact H | reflexivity]. Qed.

Lemma pow2_lt_inv (n m : Z) : 2 ^ n < 2 ^ m -> (n < m)%Z.
Proof. intro H. apply (Qpower_lt_compat_l_inv 2); [exact H | reflexivity]. Qed.

Lemma pow2_Z (n : Z) : (0 <= n)%Z -> inject_Z (2 ^ n) == 2 ^ n.
Proof. intro H. now rewrite Zpower_Qpower. Qed.

End PowersOfTwo.

Section RoundToInteger.

Local Open Scope Q_scope.

Lemma rne_Z (n : Z) : Double.rne (inject_Z n) = n.
Proof.
  unfold Double.rne. rewrite Qfloor_Z.
  replace (inject_Z n - inject_Z n ?= 1 # 2) with Lt; [reflexivity|].
  symmetry. apply (proj1 (Qlt_alt _ _)). generalize (inject_Z n). intro x. lra.
Qed.

Lemma rne_mono (q q' : Q) : q <= q' -> (Double.rne q <= Double.rne q')%Z.
Proof.
  intro H. unfold Double.rne.
  pose proof (Qfloor_resp_le _ _ H) as Hf.
  pose proof (Qfloor_le q) as L. pose proof (Qlt_floor q) as U.
  pose proof (Qfloor_le q') as L'. pose proof (Qlt_floor q') as U'.
  rewrite inject_Z_plus in U, U'. change (inject_Z 1) with 1 in U, U'.
  destruct (Z.eq_dec (Qfloor q) (Qfloor q')) as [E|E].
  - rewrite <- E in *. revert L U L' U'. generalize (inject_Z (Qfloor q)). intros x L U L' U'.
    destruct (Qcompare_spec (q - x) (1 # 2)) as [C|C|C];
      destruct (Qcompare_spec (q' - x) (1 # 2)) as [C'|C'|C'];
      try lia; try (exfalso; lra); destruct (Z.even (Qfloor q)); lia.
  - assert (Hlt : (Qfloor q + 1 <= Qfloor q')%Z) by lia.
    destruct (q - inject_Z (Qfloor q) ?= 1 # 2);
      destruct (q' - inject_Z (Qfloor q') ?= 1 # 2);
      try destruct (Z.even (Qfloor q)); try destruct (Z.even (Qfloor q')); lia.
Qed.

Lemma rne_comp (q q' : Q) : q == q' -> Double.rne q = Double.rne q'.
Proof.
  intro H. apply Z.le_antisymm; apply rne_mono; rewrite H; apply Qle_refl.
Qed.

End RoundToInteger.

Section Binade.

Local Open Scope Q_scope.

Lemma ilog2_spec (q : Q) :
  0 < q -> 2 ^ Double.ilog2 q <= q /\ q < 2 ^ (Double.ilog2 q + 1).
Proof.
  intro Hq. destruct q as [n d]. unfold Double.ilog2. cbn [Qnum Qden].
  assert (Hn : (0 < n)%Z).
  { unfold Qlt in Hq. cbn in Hq. lia. }
  set (ln := Z.log2 n). set (ld := Z.log2 (Z.pos d)).
  assert (Sn : (2 ^ ln <= n < 2 ^ (ln + 1))%Z).
  { pose proof (Z.log2_spec n Hn). unfold ln. now rewrite <- Z.add_1_r in H. }
  assert (Sd : (2 ^ ld <= Z.pos d < 2 ^ (ld + 1))%Z).
  { pose proof (Z.log2_spec (Z.pos d) (Pos2Z.is_pos d)). unfold ld.
    now rewrite <- Z.add_1_r in H. }
  assert (Hln : (0 <= ln)%Z) by apply Z.log2_nonneg.
  assert (Hld : (0 <= ld)%Z) by apply Z.log2_nonneg.
  assert (Qn : 2 ^ ln <= inject_Z n /\ inject_Z n < 2 ^ (ln + 1)).
  { rewrite <- !pow2_Z by lia. rewrite <- Zle_Qle, <- Zlt_Qlt. exact Sn. }
  assert (Qd : 2 ^ ld <= inject_Z (Z.pos d) /\ inject_Z (Z.pos d) < 2 ^ (ld + 1)).
  { rewrite <- !pow2_Z by lia. rewrite <- Zle_Qle, <- Zlt_Qlt. exact Sd. }
  assert (Hd : 0 < inject_Z (Z.pos d)) by reflexivity.
  assert (E : (n # d) * inject_Z (Z.pos d) == inject_Z n).
  { rewrite (Qmake_Qdiv n d). field. discriminate. }
  assert (Up : n # d < 2 ^ (ln - ld + 1)).
  { apply (Qmult_lt_r _ _ (inject_Z (Z.pos d)) Hd). rewrite E.
    apply Qlt_le_trans with (2 ^ (ln + 1)); [apply Qn|].
    rewrite <- (pow2_cancel (ln - ld + 1) (ln + 1)).
    replace (ln + 1 - (ln - ld + 1))%Z with ld by lia.
    apply Qmult_le_l; [apply pow2_pos | apply Qd]. }
  assert (Lo : 2 ^ (ln - ld - 1) <= n # d).
  { apply (Qmult_le_r _ _ (inject_Z (Z.pos d)) Hd). rewrite E.
    apply Qle_trans with (2 ^ ln); [|apply Qn].
    rewrite <- (pow2_cancel (ln - ld - 1) ln).
    replace (ln - (ln - ld - 1))%Z with (ld + 1)%Z by lia.
    apply Qmult_le_l; [apply pow2_pos | apply Qlt_le_weak, Qd]. }
  destruct (Qle_bool (2 ^ (ln - ld)) (n # d)) eqn:B.
  - apply Qle_bool_iff in B. split; assumption.
  - split; [exact Lo|].
    replace (ln - ld - 1 + 1)%Z with (ln - ld)%Z by lia.
    apply Qnot_le_lt. intro H. apply Qle_bool_iff in H. congruence.
Qed.

Lemma ilog2_unique (q : Q) (j : Z) :
  2 ^ j <= q -> q < 2 ^ (j + 1) -> Double.ilog2 q = j.
Proof.
  intros L U.
  assert (Hq : 0 < q) by (apply Qlt_le_trans with (2 ^ j); [apply pow2_pos | exact L]).
  destruct (ilog2_spec q Hq) as [L' U'].
  assert (j < Double.ilog2 q + 1)%Z.
  { apply pow2_lt_inv. apply Qle_lt_trans with q; assumption. }
  assert (Double.ilog2 q < j + 1)%Z.
  { apply pow2_lt_inv. apply Qle_lt_trans with q; assumption. }
  lia.
Qed.

Lemma ilog2_mono (q q' : Q) : 0 < q -> q <= q' -> (Double.ilog2 q <= Double.ilog2 q')%Z.
Proof.
  intros Hq H.
  assert (Hq' : 0 < q') by (apply Qlt_le_trans with q; assumption).
  destruct (ilog2_spec q Hq) as [L _]. destruct (ilog2_spec q' Hq') as [_ U'].
  assert (Double.ilog2 q < Double.ilog2 q' + 1)%Z.
  { apply pow2_lt_inv. apply Qle_lt_trans with q; [exact L|].
    apply Qle_lt_trans with q'; assumption. }
  lia.
Qed.

End Binade.

Section Rounding.

Local Open Scope Q_scope.

(** The significand of a rounded positive number. *)
Lemma roundPos_significand (q : Q) :
  0 < q ->
  (2 ^ 52 <= Double.rne (q * 2 ^ (52 - Double.ilog2 q)) <= 2 ^ 53)%Z.
Proof.
  intro Hq. destruct (ilog2_spec q Hq) as [L U].
  set (k := Double.ilog2 q) in *.
  assert (P : 0 < 2 ^ (52 - k)) by apply pow2_pos.
  split.
  - rewrite <- (rne_Z (2 ^ 52)). apply rne_mono.
    rewrite pow2_Z by lia. rewrite <- (pow2_cancel k 52).
    apply Qmult_le_compat_r; [exact L | apply Qlt_le_weak, P].
  - rewrite <- (rne_Z (2 ^ 53)). apply rne_mono.
    rewrite pow2_Z by lia. rewrite <- (pow2_cancel (k + 1) 53).
    replace (53 - (k + 1))%Z with (52 - k)%Z by lia.
    apply Qmult_le_compat_r; [apply Qlt_le_weak, U | apply Qlt_le_weak, P].
Qed.

Lemma roundPos_range (q : Q) :
  0 < q ->
  2 ^ Double.ilog2 q <= Double.roundPos q /\
  Double.roundPos q <= 2 ^ (Double.ilog2 q + 1).
Proof.
  intro Hq. destruct (roundPos_significand q Hq) as [L U].
  unfold Double.roundPos. cbv zeta.
  set (k := Double.ilog2 q) in *.
  set (m := Double.rne (q * 2 ^ (52 - k))) in *.
  assert (P : 0 < 2 ^ (k - 52)) by apply pow2_pos.
  split.
  - rewrite <- (pow2_cancel 52 k).
    apply Qmult_le_compat_r; [|apply Qlt_le_weak, P].
    rewrite <- pow2_Z by lia. now rewrite <- Zle_Qle.
  - rewrite <- (pow2_cancel 53 (k + 1)).
    replace (k + 1 - 53)%Z with (k - 52)%Z by lia.
    apply Qmult_le_compat_r; [|apply Qlt_le_weak, P].
    rewrite <- pow2_Z by lia. now rewrite <- Zle_Qle.
Qed.

Lemma roundPos_pos (q : Q) : 0 < q -> 0 < Double.roundPos q.
Proof.
  intro Hq. destruct (roundPos_range q Hq) as [L _].
  apply Qlt_le_trans with (2 ^ Double.ilog2 q); [apply pow2_pos | exact L].
Qed.

Lemma roundPos_mono (q q' : Q) :
  0 < q -> q <= q' -> Double.roundPos q <= Double.roundPos q'.
Proof.
  intros Hq H.
  assert (Hq' : 0 < q') by (apply Qlt_le_trans with q; assumption).
  pose proof (ilog2_mono q q' Hq H) as Hk.
  destruct (Z.eq_dec (Double.ilog2 q) (Double.ilog2 q')) as [E|E].
  - unfold Double.roundPos. cbv zeta. rewrite <- E.
    apply Qmult_le_compat_r; [|apply Qlt_le_weak, pow2_pos].
    rewrite <- Zle_Qle. apply rne_mono.
    apply Qmult_le_compat_r; [exact H | apply Qlt_le_weak, pow2_pos].
  - destruct (roundPos_range q Hq) as [_ U]. destruct (roundPos_range q' Hq') as [L' _].
    apply Qle_trans with (2 ^ (Double.ilog2 q + 1)); [exact U|].
    apply Qle_trans with (2 ^ Double.ilog2 q'); [|exact L'].
    apply pow2_le. lia.
Qed.

Lemma roundPos_comp (q q' : Q) : 0 < q -> q == q' -> Double.roundPos q == Double.roundPos q'.
Proof.
  intros Hq H. apply Qle_antisym; apply roundPos_mono;
    try (rewrite H; apply Qle_refl); try exact Hq.
  now rewrite <- H.
Qed.

(** A number with a significand of at most 53 bits rounds to itself. *)
Lemma roundPos_exact (m k : Z) :
  (2 ^ 52 <= m <= 2 ^ 53)%Z ->
  Double.roundPos (inject_Z m * 2 ^ (k - 52)) == inject_Z m * 2 ^ (k - 52).
Proof.
  intros [L U].
  assert (Lq : 2 ^ 52 <= inject_Z m).
  { rewrite <- pow2_Z by lia. now rewrite <- Zle_Qle. }
  assert (Uq : inject_Z m <= 2 ^ 53).
  { rewrite <- pow2_Z by lia. now rewrite <- Zle_Qle. }
  assert (P : 0 < 2 ^ (k - 52)) by apply pow2_pos.
  destruct (Z.eq_dec m (2 ^ 53)) as [E|E].
  - assert (V : inject_Z m * 2 ^ (k - 52) == 2 ^ (k + 1)).
    { rewrite E, pow2_Z by lia. rewrite <- (pow2_cancel 53 (k + 1)).
      now replace (k + 1 - 53)%Z with (k - 52)%Z by lia. }
    assert (K : Double.ilog2 (inject_Z m * 2 ^ (k - 52)) = (k + 1)%Z).
    { apply ilog2_unique; rewrite V; [apply Qle_refl | apply pow2_lt; lia]. }
    unfold Double.roundPos. cbv zeta. rewrite K.
    rewrite (rne_comp _ (inject_Z (2 ^ 52))).
    + rewrite rne_Z, V, pow2_Z by lia. rewrite <- (pow2_cancel 52 (k + 1)). reflexivity.
    + rewrite V, pow2_Z by lia. rewrite <- pow2_add. now replace (k + 1 + (52 - (k + 1)))%Z with 52%Z by lia.
  - assert (K : Double.ilog2 (inject_Z m * 2 ^ (k - 52)) = k).
    { apply ilog2_unique.
      - rewrite <- (pow2_cancel 52 k).
        apply Qmult_le_compat_r; [exact Lq | apply Qlt_le_weak, P].
      - rewrite <- (pow2_cancel 53 (k + 1)).
        replace (k + 1 - 53)%Z with (k - 52)%Z by lia.
        apply Qmult_lt_compat_r; [exact P|].
        rewrite <- pow2_Z by lia. rewrite <- Zlt_Qlt. lia. }
    unfold Double.roundPos. cbv zeta. rewrite K.
    rewrite (rne_comp _ (inject_Z m)).
    + now rewrite rne_Z.
    + rewrite <- Qmult_assoc, <- pow2_add.
      replace (k - 52 + (52 - k))%Z with 0%Z by lia. apply Qmult_1_r.
Qed.

Lemma roundPos_idem (q : Q) : 0 < q -> Double.roundPos (Double.roundPos q) == Double.roundPos q.
Proof.
  intro Hq. unfold Double.roundPos at 2 3. cbv zeta.
  apply roundPos_exact, roundPos_significand, Hq.
Qed.

Lemma roundPos_Z (n : Z) :
  (0 < n <= 2 ^ 53)%Z -> Double.roundPos (inject_Z n) == inject_Z n.
Proof.
  intros [Hn Hb].
  assert (Hq : 0 < inject_Z n) by (change 0 with (inject_Z 0); now rewrite <- Zlt_Qlt).
  destruct (ilog2_spec _ Hq) as [L U].
  set (k := Double.ilog2 (inject_Z n)) in *.
  assert (Hk : (k <= 53)%Z).
  { assert (k < 54)%Z; [|lia].
    apply pow2_lt_inv. apply Qle_lt_trans with (inject_Z n); [exact L|].
    apply Qle_lt_trans with (2 ^ 53); [|apply pow2_lt; lia].
    rewrite <- pow2_Z by lia. now rewrite <- Zle_Qle. }
  destruct (Z.eq_dec k 53) as [E|E].
  - assert (n = 2 ^ 53)%Z.
    { apply Z.le_antisymm; [exact Hb|]. rewrite Zle_Qle, pow2_Z by lia.
      now rewrite <- E. }
    subst n. vm_compute. reflexivity.
  - assert (V : inject_Z n == inject_Z (n * 2 ^ (52 - k)) * 2 ^ (k - 52)).
    { rewrite inject_Z_mult, pow2_Z by lia. rewrite <- Qmult_assoc, <- pow2_add.
      replace (52 - k + (k - 52))%Z with 0%Z by lia. symmetry. apply Qmult_1_r. }
    rewrite (roundPos_comp _ _ Hq V).
    transitivity (inject_Z (n * 2 ^ (52 - k)) * 2 ^ (k - 52)); [|symmetry; exact V].
    apply roundPos_exact.
    split.
    + rewrite Zle_Qle, inject_Z_mult, !pow2_Z by lia.
      rewrite <- (pow2_cancel k 52).
      apply Qmult_le_compat_r; [exact L | apply Qlt_le_weak, pow2_pos].
    + apply Z.lt_le_incl. rewrite Zlt_Qlt, inject_Z_mult, !pow2_Z by lia.
      rewrite <- (pow2_cancel (k + 1) 53).
      replace (53 - (k + 1))%Z with (52 - k)%Z by lia.
      apply Qmult_lt_compat_r; [apply pow2_pos | exact U].
Qed.

End Rounding.

Section RoundingSigned.

Local Open Scope Q_scope.

Lemma round_of_pos (q : Q) : 0 < q -> Double.round q = Double.roundPos q.
Proof.
  intro H. unfold Double.round.
  now replace (q ?= 0) with Gt by (symmetry; apply (proj1 (Qgt_alt _ _)); exact H).
Qed.

Lemma round_of_neg (q : Q) : q < 0 -> Double.round q = - Double.roundPos (- q).
Proof.
  intro H. unfold Double.round.
  now replace (q ?= 0) with Lt by (symmetry; apply (proj1 (Qlt_alt _ _)); exact H).
Qed.

Lemma round_of_zero (q : Q) : q == 0 -> Double.round q = 0.
Proof.
  intro H. unfold Double.round.
  now replace (q ?= 0) with Eq by (symmetry; apply (proj1 (Qeq_alt _ _)); exact H).
Qed.

Lemma round_pos (q : Q) : 0 < q -> 0 < Double.round q.
Proof. intro H. rewrite (round_of_pos q H). now apply roundPos_pos. Qed.

Lemma round_neg (q : Q) : q < 0 -> Double.round q < 0.
Proof.
  intro H. rewrite (round_of_neg q H).
  assert (0 < Double.roundPos (- q)) by (apply roundPos_pos; lra). lra.
Qed.

Lemma round_nonneg (q : Q) : 0 <= q -> 0 <= Double.round q.
Proof.
  intro H. destruct (Qcompare_spec q 0) as [E|L|G].
  - rewrite (round_of_zero q E). apply Qle_refl.
  - exfalso. lra.
  - apply Qlt_le_weak, round_pos, G.
Qed.

Lemma round_nonpos (q : Q) : q <= 0 -> Double.round q <= 0.
Proof.
  intro H. destruct (Qcompare_spec q 0) as [E|L|G].
  - rewrite (round_of_zero q E). apply Qle_refl.
  - apply Qlt_le_weak, round_neg, L.
  - exfalso. lra.
Qed.

Lemma round_pos_iff (q : Q) : 0 < Double.round q <-> 0 < q.
Proof.
  split; [|apply round_pos].
  intro H. apply Qnot_le_lt. intro Hq. pose proof (round_nonpos q Hq). lra.
Qed.

Lemma round_mono (q q' : Q) : q <= q' -> Double.round q <= Double.round q'.
Proof.
  intro H.
  destruct (Qcompare_spec q 0) as [E|L|G];
    destruct (Qcompare_spec q' 0) as [E'|L'|G'].
  - rewrite (round_of_zero q E), (round_of_zero q' E'). apply Qle_refl.
  - exfalso. lra.
  - rewrite (round_of_zero q E). apply Qlt_le_weak, round_pos, G'.
  - rewrite (round_of_zero q' E'). apply Qlt_le_weak, round_neg, L.
  - rewrite (round_of_neg q L), (round_of_neg q' L').
    assert (Double.roundPos (- q') <= Double.roundPos (- q)) by (apply roundPos_mono; lra).
    lra.
  - apply Qle_trans with 0; [apply Qlt_le_weak, round_neg, L | apply Qlt_le_weak, round_pos, G'].
  - exfalso. lra.
  - exfalso. lra.
  - rewrite (round_of_pos q G), (round_of_pos q' G'). now apply roundPos_mono.
Qed.

Lemma round_comp (q q' : Q) : q == q' -> Double.round q == Double.round q'.
Proof.
  intro H. apply Qle_antisym; apply round_mono; rewrite H; apply Qle_refl.
Qed.

Lemma round_opp (q : Q) : Double.round (- q) == - Double.round q.
Proof.
  destruct (Qcompare_spec q 0) as [E|L|G].
  - rewrite (round_of_zero q E), (round_of_zero (- q)); [reflexivity | lra].
  - rewrite (round_of_neg q L), (round_of_pos (- q)) by lra. ring.
  - rewrite (round_of_pos q G), (round_of_neg (- q)) by lra.
    rewrite (roundPos_comp (- - q) q); [reflexivity | lra | ring].
Qed.

Lemma round_idem (q : Q) : Double.round (Double.round q) == Double.round q.
Proof.
  destruct (Qcompare_spec q 0) as [E|L|G].
  - rewrite (round_of_zero q E). reflexivity.
  - rewrite (round_of_neg q L).
    assert (P : 0 < Double.roundPos (- q)) by (apply roundPos_pos; lra).
    rewrite round_opp, (round_of_pos _ P), roundPos_idem by lra. reflexivity.
  - rewrite (round_of_pos q G).
    rewrite (round_of_pos _ (roundPos_pos q G)). now apply roundPos_idem.
Qed.

(** Whole numbers of at most 53 bits are doubles. *)
Lemma round_Z (n : Z) :
  (- 2 ^ 53 <= n <= 2 ^ 53)%Z -> Double.round (inject_Z n) == inject_Z n.
Proof.
  intros [L U]. destruct (Z.lt_trichotomy n 0) as [N|[N|N]].
  - assert (Hq : inject_Z n < 0) by (change 0 with (inject_Z 0); now rewrite <- Zlt_Qlt).
    rewrite (round_of_neg _ Hq).
    rewrite (roundPos_comp (- inject_Z n) (inject_Z (- n))).
    + rewrite roundPos_Z by lia. rewrite inject_Z_opp. ring.
    + lra.
    + now rewrite inject_Z_opp.
  - subst n. reflexivity.
  - assert (Hq : 0 < inject_Z n) by (change 0 with (inject_Z 0); now rewrite <- Zlt_Qlt).
    rewrite (round_of_pos _ Hq). apply roundPos_Z. lia.
Qed.

End RoundingSigned.

#[export] Instance round_Proper : Proper (Qeq ==> Qeq) Double.round.
Proof. intros q q' H. now apply round_comp. Qed.

Section DoubleArithmetic.

Local Open Scope Q_scope.

Lemma add_mono (a a' b b' : Q) :
  a <= a' -> b <= b' -> Double.add a b <= Double.add a' b'.
Proof.
  intros Ha Hb. unfold Double.add. apply round_mono.
  pose proof (round_mono _ _ Ha). pose proof (round_mono _ _ Hb). lra.
Qed.

Lemma sub_mono (a a' b b' : Q) :
  a <= a' -> b' <= b -> Double.sub a b <= Double.sub a' b'.
Proof.
  intros Ha Hb. unfold Double.sub. apply round_mono.
  pose proof (round_mono _ _ Ha). pose proof (round_mono _ _ Hb). lra.
Qed.

#[export] Instance add_Proper : Proper (Qeq ==> Qeq ==> Qeq) Double.add.
Proof.
  intros a a' Ha b b' Hb.
  apply Qle_antisym; apply add_mono; rewrite ?Ha, ?Hb; apply Qle_refl.
Qed.

#[export] Instance sub_Proper : Proper (Qeq ==> Qeq ==> Qeq) Double.sub.
Proof.
  intros a a' Ha b b' Hb.
  apply Qle_antisym; apply sub_mono; rewrite ?Ha, ?Hb; apply Qle_refl.
Qed.

Lemma add_nonneg (a b : Q) : 0 <= a -> 0 <= b -> 0 <= Double.add a b.
Proof.
  intros Ha Hb. unfold Double.add. apply round_nonneg.
  pose proof (round_nonneg _ Ha). pose proof (round_nonneg _ Hb). lra.
Qed.

Lemma add_pos_iff (a b : Q) :
  0 <= a -> 0 <= b -> (0 < Double.add a b <-> 0 < a \/ 0 < b).
Proof.
  intros Ha Hb. unfold Double.add. rewrite round_pos_iff.
  pose proof (round_nonneg _ Ha) as Ra. pose proof (round_nonneg _ Hb) as Rb.
  pose proof (round_pos_iff a) as Pa. pose proof (round_pos_iff b) as Pb.
  split.
  - intro H. destruct (Qlt_le_dec 0 (Double.round a)) as [A|A].
    + left. now apply Pa.
    + right. apply Pb. lra.
  - intros [H|H]; [apply Pa in H | apply Pb in H]; lra.
Qed.

Lemma sub_pos_iff (a b : Q) : 0 < Double.sub a b <-> Double.round b < Double.round a.
Proof. unfold Double.sub. rewrite round_pos_iff. split; intro; lra. Qed.

Lemma add_double (a b : Q) : Double.round (Double.add a b) == Double.add a b.
Proof. unfold Double.add. apply round_idem. Qed.

Lemma sub_double (a b : Q) : Double.round (Double.sub a b) == Double.sub a b.
Proof. unfold Double.sub. apply round_idem. Qed.

Lemma add_0_r (a : Q) : Double.add a 0 == Double.round a.
Proof.
  unfold Double.add. rewrite (round_of_zero 0) by reflexivity.
  rewrite Qplus_0_r. apply round_idem.
Qed.

Lemma add_0_l (a : Q) : Double.add 0 a == Double.round a.
Proof.
  unfold Double.add. rewrite (round_of_zero 0) by reflexivity.
  rewrite Qplus_0_l. apply round_idem.
Qed.

Lemma sub_0_r (a : Q) : Double.sub a 0 == Double.round a.
Proof.
  unfold Double.sub. rewrite (round_of_zero 0) by reflexivity.
  unfold Qminus. rewrite Qplus_0_r. apply round_idem.
Qed.

(** Sums and differences of whole numbers are exact up to 2^53. *)
Lemma add_Z (a b : Z) :
  (- 2 ^ 53 <= a <= 2 ^ 53)%Z -> (- 2 ^ 53 <= b <= 2 ^ 53)%Z ->
  (- 2 ^ 53 <= a + b <= 2 ^ 53)%Z ->
  Double.add (inject_Z a) (inject_Z b) == inject_Z (a + b).
Proof.
  intros Ha Hb Hs. unfold Double.add.
  rewrite (round_Z a Ha), (round_Z b Hb), <- inject_Z_plus. now apply round_Z.
Qed.

End DoubleArithmetic.

Section Representation.

Local Open Scope Q_scope.

(** A positive double is a significand of 53 bits times a power of two. *)
Lemma double_significand (x : Q) :
  0 < x -> Double.round x == x ->
  exists m k : Z, (2 ^ 52 <= m < 2 ^ 53)%Z /\ x == inject_Z m * 2 ^ (k - 52).
Proof.
  intros Hx Hd. rewrite (round_of_pos x Hx) in Hd.
  destruct (roundPos_significand x Hx) as [L U].
  destruct (ilog2_spec x Hx) as [_ Ux].
  unfold Double.roundPos in Hd. cbv zeta in Hd.
  set (k := Double.ilog2 x) in *.
  set (m := Double.rne (x * 2 ^ (52 - k))) in *.
  exists m, k. split; [|symmetry; exact Hd]. split; [exact L|].
  destruct (Z.eq_dec m (2 ^ 53)) as [E|E]; [|lia].
  exfalso. rewrite <- Hd, E, pow2_Z in Ux by lia.
  rewrite <- (pow2_cancel 53 (k + 1)) in Ux.
  replace (k + 1 - 53)%Z with (k - 52)%Z in Ux by lia.
  apply (Qlt_irrefl _ Ux).
Qed.



Lemma rne_upper (q : Q) : inject_Z (Double.rne q) <= q + (1 # 2).
Proof.
  unfold Double.rne.
  pose proof (Qfloor_le q) as L.
  revert L. generalize (Qfloor q). intros f L.
  destruct (Qcompare_spec (q - inject_Z f) (1 # 2)) as [C|C|C].
  - destruct (Z.even f); [lra|]. rewrite inject_Z_plus. change (inject_Z 1) with 1. lra.
  - lra.
  - rewrite inject_Z_plus. change (inject_Z 1) with 1. lra.
Qed.

(** Rounding raises a positive number by at most one part in 2^53. *)
Lemma round_upper (s : Q) : 0 < s -> Double.round s <= s * (1 + 2 ^ (-53)).
Proof.
  intro Hs. rewrite (round_of_pos s Hs).
  destruct (ilog2_spec s Hs) as [L _].
  unfold Double.roundPos. cbv zeta. set (k := Double.ilog2 s) in *.
  assert (P : 0 < 2 ^ (k - 52)) by apply pow2_pos.
  assert (Y : 2 ^ 52 <= s * 2 ^ (52 - k)).
  { rewrite <- (pow2_cancel k 52).
    apply Qmult_le_compat_r; [exact L | apply Qlt_le_weak, pow2_pos]. }
  pose proof (rne_upper (s * 2 ^ (52 - k))) as R.
  assert (H : inject_Z (Double.rne (s * 2 ^ (52 - k)))
              <= s * 2 ^ (52 - k) * (1 + 2 ^ (-53))).
  { apply Qle_trans with (s * 2 ^ (52 - k) + (1 # 2)); [exact R|].
    assert (1 # 2 <= s * 2 ^ (52 - k) * 2 ^ (-53)).
    { setoid_replace (1 # 2) with (2 ^ 52 * 2 ^ (-53)) by reflexivity.
      apply Qmult_le_compat_r; [exact Y | discriminate]. }
    lra. }
  apply (Qmult_le_compat_r _ _ (2 ^ (k - 52))) in H; [|apply Qlt_le_weak, P].
  eapply Qle_trans; [exact H|].
  setoid_replace (s * 2 ^ (52 - k) * (1 + 2 ^ (-53)) * 2 ^ (k - 52))
    with (s * (1 + 2 ^ (-53)) * (2 ^ (52 - k) * 2 ^ (k - 52))) by ring.
  rewrite <- pow2_add. replace (52 - k + (k - 52))%Z with 0%Z by lia.
  change (2 ^ 0) with 1. rewrite Qmult_1_r. apply Qle_refl.
Qed.

(** A double below a whole number stays below it by more than one part in
    2^53. *)
Lemma double_below_whole (x : Q) (M : Z) :
  Double.round x == x -> 0 <= x -> x < inject_Z M -> x < inject_Z (2 ^ 53) ->
  x * (1 + 2 ^ (-53)) < inject_Z M.
Proof.
  intros Hd H0 HM Hb.
  destruct (Qlt_le_dec 0 x) as [Hx|Hx].
  - destruct (double_significand x Hx Hd) as (m & k & [Lm Um] & Ex).
    assert (S : x * 2 ^ (-53) < 2 ^ (k - 52)).
    { rewrite Ex.
      setoid_replace (inject_Z m * 2 ^ (k - 52) * 2 ^ (-53))
        with (inject_Z m * 2 ^ (-53) * 2 ^ (k - 52)) by ring.
      rewrite <- (Qmult_1_l (2 ^ (k - 52))) at 2.
      apply Qmult_lt_compat_r; [apply pow2_pos|].
      setoid_replace 1 with (2 ^ 53 * 2 ^ (-53)) by reflexivity.
      apply Qmult_lt_compat_r; [reflexivity|].
      rewrite <- pow2_Z by lia. now rewrite <- Zlt_Qlt. }
    destruct (Z.le_gt_cases 52 k) as [K|K].
    + assert (E : x == inject_Z (m * 2 ^ (k - 52))).
      { rewrite Ex, inject_Z_mult, pow2_Z by lia. reflexivity. }
      assert (W : (m * 2 ^ (k - 52) + 1 <= M)%Z).
      { rewrite E, <- Zlt_Qlt in HM. lia. }
      rewrite Zle_Qle, inject_Z_plus, <- E in W. change (inject_Z 1) with 1 in W.
      assert (x * 2 ^ (-53) < 1).
      { setoid_replace 1 with (inject_Z (2 ^ 53) * 2 ^ (-53)) by reflexivity.
        apply Qmult_lt_compat_r; [reflexivity | exact Hb]. }
      lra.
    + assert (W : (m + 1 <= M * 2 ^ (52 - k))%Z).
      { assert (m < M * 2 ^ (52 - k))%Z; [|lia].
        rewrite Zlt_Qlt, inject_Z_mult, pow2_Z by lia.
        apply (Qmult_lt_r _ _ (2 ^ (k - 52))); [apply pow2_pos|].
        rewrite <- Ex, <- Qmult_assoc, <- pow2_add.
        replace (52 - k + (k - 52))%Z with 0%Z by lia.
        change (2 ^ 0) with 1. now rewrite Qmult_1_r. }
      rewrite Zle_Qle, inject_Z_plus, inject_Z_mult, pow2_Z in W by lia.
      change (inject_Z 1) with 1 in W.
      apply (Qmult_le_compat_r _ _ (2 ^ (k - 52))) in W; [|apply Qlt_le_weak, pow2_pos].
      rewrite <- Qmult_assoc, <- pow2_add in W.
      replace (52 - k + (k - 52))%Z with 0%Z in W by lia.
      change (2 ^ 0) with 1 in W. rewrite Qmult_1_r in W.
      rewrite Qmult_plus_distr_l, <- Ex, Qmult_1_l in W.
      lra.
  - assert (x == 0) by (apply Qle_antisym; assumption).
    rewrite H in HM |- *. rewrite Qmult_0_l. exact HM.
Qed.

Lemma rne_lower (q : Q) : q - (1 # 2) <= inject_Z (Double.rne q).
Proof.
  unfold Double.rne.
  pose proof (Qlt_floor q) as U. rewrite inject_Z_plus in U.
  change (inject_Z 1) with 1 in U.
  revert U. generalize (Qfloor q). intros f U.
  destruct (Qcompare_spec (q - inject_Z f) (1 # 2)) as [C|C|C].
  - destruct (Z.even f); [lra|]. rewrite inject_Z_plus. change (inject_Z 1) with 1. lra.
  - lra.
  - rewrite inject_Z_plus. change (inject_Z 1) with 1. lra.
Qed.

(** Rounding lowers a positive number by at most one part in 2^53. *)
Lemma round_lower (s : Q) : 0 < s -> s * (1 - 2 ^ (-53)) <= Double.round s.
Proof.
  intro Hs. rewrite (round_of_pos s Hs).
  destruct (ilog2_spec s Hs) as [L _].
  unfold Double.roundPos. cbv zeta. set (k := Double.ilog2 s) in *.
  assert (P : 0 < 2 ^ (k - 52)) by apply pow2_pos.
  assert (Y : 2 ^ 52 <= s * 2 ^ (52 - k)).
  { rewrite <- (pow2_cancel k 52).
    apply Qmult_le_compat_r; [exact L | apply Qlt_le_weak, pow2_pos]. }
  pose proof (rne_lower (s * 2 ^ (52 - k))) as R.
  assert (H : s * 2 ^ (52 - k) * (1 - 2 ^ (-53))
              <= inject_Z (Double.rne (s * 2 ^ (52 - k)))).
  { apply Qle_trans with (s * 2 ^ (52 - k) - (1 # 2)); [|exact R].
    assert (1 # 2 <= s * 2 ^ (52 - k) * 2 ^ (-53)).
    { setoid_replace (1 # 2) with (2 ^ 52 * 2 ^ (-53)) by reflexivity.
      apply Qmult_le_compat_r; [exact Y | discriminate]. }
    lra. }
  apply (Qmult_le_compat_r _ _ (2 ^ (k - 52))) in H; [|apply Qlt_le_weak, P].
  eapply Qle_trans; [|exact H].
  setoid_replace (s * 2 ^ (52 - k) * (1 - 2 ^ (-53)) * 2 ^ (k - 52))
    with (s * (1 - 2 ^ (-53)) * (2 ^ (52 - k) * 2 ^ (k - 52))) by ring.
  rewrite <- pow2_add. replace (52 - k + (k - 52))%Z with 0%Z by lia.
  change (2 ^ 0) with 1. rewrite Qmult_1_r. apply Qle_refl.
Qed.

Lemma round_upper_neg (s : Q) : s < 0 -> Double.round s <= s * (1 - 2 ^ (-53)).
Proof.
  intro Hs. assert (P : 0 < - s) by lra.
  pose proof (round_lower (- s) P) as L. rewrite round_opp in L. lra.
Qed.

(** A double above a whole number stays above it by more than one part in
    2^53. *)
Lemma double_above_whole (y : Q) (N : Z) :
  Double.round y == y -> 0 <= y -> inject_Z N < y -> y < inject_Z (2 ^ 53) ->
  inject_Z N < y * (1 - 2 ^ (-53)).
Proof.
  intros Hd H0 HN Hb.
  assert (U : 0 < 1 - 2 ^ (-53)) by reflexivity.
  destruct (Qlt_le_dec 0 y) as [Hy|Hy].
  - destruct (Z.le_gt_cases N 0) as [Nn|Np].
    + apply Qle_lt_trans with 0.
      * change 0 with (inject_Z 0). now rewrite <- Zle_Qle.
      * now apply Qmult_lt_0_compat.
    + destruct (double_significand y Hy Hd) as (m & k & [Lm Um] & Ey).
      assert (S : y * 2 ^ (-53) < 2 ^ (k - 52)).
      { rewrite Ey.
        setoid_replace (inject_Z m * 2 ^ (k - 52) * 2 ^ (-53))
          with (inject_Z m * 2 ^ (-53) * 2 ^ (k - 52)) by ring.
        rewrite <- (Qmult_1_l (2 ^ (k - 52))) at 2.
        apply Qmult_lt_compat_r; [apply pow2_pos|].
        setoid_replace 1 with (2 ^ 53 * 2 ^ (-53)) by reflexivity.
        apply Qmult_lt_compat_r; [reflexivity|].
        rewrite <- pow2_Z by lia. now rewrite <- Zlt_Qlt. }
      destruct (Z.le_gt_cases 52 k) as [K|K].
      * assert (E : y == inject_Z (m * 2 ^ (k - 52))).
        { rewrite Ey, inject_Z_mult, pow2_Z by lia. reflexivity. }
        assert (W : (N + 1 <= m * 2 ^ (k - 52))%Z).
        { rewrite E, <- Zlt_Qlt in HN. lia. }
        rewrite Zle_Qle, inject_Z_plus, <- E in W. change (inject_Z 1) with 1 in W.
        assert (y * 2 ^ (-53) < 1).
        { setoid_replace 1 with (inject_Z (2 ^ 53) * 2 ^ (-53)) by reflexivity.
          apply Qmult_lt_compat_r; [reflexivity | exact Hb]. }
        lra.
      * assert (W : (N * 2 ^ (52 - k) + 1 <= m)%Z).
        { assert (N * 2 ^ (52 - k) < m)%Z; [|lia].
          rewrite Zlt_Qlt, inject_Z_mult, pow2_Z by lia.
          apply (Qmult_lt_r _ _ (2 ^ (k - 52))); [apply pow2_pos|].
          rewrite <- Ey, <- Qmult_assoc, <- pow2_add.
          replace (52 - k + (k - 52))%Z with 0%Z by lia.
          change (2 ^ 0) with 1. now rewrite Qmult_1_r. }
        rewrite Zle_Qle, inject_Z_plus, inject_Z_mult, pow2_Z in W by lia.
        change (inject_Z 1) with 1 in W.
        apply (Qmult_le_compat_r _ _ (2 ^ (k - 52))) in W; [|apply Qlt_le_weak, pow2_pos].
        rewrite Qmult_plus_distr_l, <- Qmult_assoc, <- pow2_add in W.
        replace (52 - k + (k - 52))%Z with 0%Z in W by lia.
        change (2 ^ 0) with 1 in W. rewrite Qmult_1_r, Qmult_1_l, <- Ey in W.
        lra.
  - assert (y == 0) by (apply Qle_antisym; assumption).
    rewrite H in HN |- *. rewrite Qmult_0_l. exact HN.
Qed.

(** A double below a whole number, of either sign: scaled towards the
    whole number by one part in 2^53 it is still below. *)
Lemma double_below_whole_neg (x : Q) (M : Z) :
  Double.round x == x -> x <= 0 -> x < inject_Z M -> inject_Z (- 2 ^ 53) < x ->
  x * (1 - 2 ^ (-53)) < inject_Z M.
Proof.
  intros Hd H0 HM Hb.
  assert (D : Double.round (- x) == - x) by (rewrite round_opp, Hd; reflexivity).
  assert (HN : inject_Z (- M) < - x) by (rewrite inject_Z_opp; lra).
  assert (B : - x < inject_Z (2 ^ 53)).
  { rewrite inject_Z_opp in Hb. lra. }
  pose proof (double_above_whole (- x) (- M) D ltac:(lra) HN B) as G.
  rewrite inject_Z_opp in G. lra.
Qed.

(** The floor of the double sum of two doubles is the sum of their floors
    or one more, as long as neither exceeds 2^52 in size. *)
Lemma floor_add_bounds (a b : Q) :
  Double.round a == a -> Double.round b == b ->
  inject_Z (- 2 ^ 52) <= a <= inject_Z (2 ^ 52) ->
  inject_Z (- 2 ^ 52) <= b <= inject_Z (2 ^ 52) ->
  (Qfloor a + Qfloor b <= Qfloor (Double.add a b) <= Qfloor a + Qfloor b + 1)%Z.
Proof.
  intros Da Db [La' Ua'] [Lb' Ub'].
  pose proof (Qfloor_le a) as La. pose proof (Qlt_floor a) as Ua.
  pose proof (Qfloor_le b) as Lb. pose proof (Qlt_floor b) as Ub.
  assert (Fa : (- 2 ^ 52 <= Qfloor a <= 2 ^ 52)%Z).
  { split.
    - rewrite <- (Qfloor_Z (- 2 ^ 52)). now apply Qfloor_resp_le.
    - rewrite <- (Qfloor_Z (2 ^ 52)). now apply Qfloor_resp_le. }
  assert (Fb : (- 2 ^ 52 <= Qfloor b <= 2 ^ 52)%Z).
  { split.
    - rewrite <- (Qfloor_Z (- 2 ^ 52)). now apply Qfloor_resp_le.
    - rewrite <- (Qfloor_Z (2 ^ 52)). now apply Qfloor_resp_le. }
  assert (Ba : inject_Z (- 2 ^ 53) < a /\ a < inject_Z (2 ^ 53)).
  { split; [apply Qlt_le_trans with (inject_Z (- 2 ^ 52)) | apply Qle_lt_trans with (inject_Z (2 ^ 52))];
      try assumption; reflexivity. }
  assert (Bb : inject_Z (- 2 ^ 53) < b /\ b < inject_Z (2 ^ 53)).
  { split; [apply Qlt_le_trans with (inject_Z (- 2 ^ 52)) | apply Qle_lt_trans with (inject_Z (2 ^ 52))];
      try assumption; reflexivity. }
  unfold Double.add. rewrite Da, Db.
  split.
  - rewrite <- (Qfloor_Z (Qfloor a + Qfloor b)). apply Qfloor_resp_le.
    rewrite <- (round_Z (Qfloor a + Qfloor b)) by lia.
    apply round_mono. rewrite inject_Z_plus. lra.
  - apply Z.lt_succ_r. rewrite <- Z.add_1_r.
    rewrite Zlt_Qlt. apply Qle_lt_trans with (Double.round (a + b)); [apply Qfloor_le|].
    replace (Qfloor a + Qfloor b + 1 + 1)%Z with ((Qfloor a + 1) + (Qfloor b + 1))%Z by lia.
    rewrite inject_Z_plus.
    assert (U : 0 < 2 ^ (-53)) by reflexivity.
    revert Ua Ub. generalize (Qfloor a + 1)%Z, (Qfloor b + 1)%Z. intros A B Ua Ub.
    assert (Gp : forall x M, Double.round x == x -> x < inject_Z M ->
                 inject_Z (- 2 ^ 53) < x /\ x < inject_Z (2 ^ 53) ->
                 x * (1 + 2 ^ (-53)) < inject_Z M).
    { intros x M Dx HM [Bl Bu]. destruct (Qlt_le_dec x 0) as [N|N].
      - assert (x * 2 ^ (-53) < 0); [|lra].
        setoid_replace (x * 2 ^ (-53)) with (- (- x * 2 ^ (-53))) by ring.
        assert (0 < - x * 2 ^ (-53)); [apply Qmult_lt_0_compat|]; lra.
      - now apply double_below_whole. }
    assert (Gn : forall x M, Double.round x == x -> x < inject_Z M ->
                 inject_Z (- 2 ^ 53) < x /\ x < inject_Z (2 ^ 53) ->
                 x * (1 - 2 ^ (-53)) < inject_Z M).
    { intros x M Dx HM [Bl Bu]. destruct (Qlt_le_dec 0 x) as [N|N].
      - assert (0 < x * 2 ^ (-53)); [apply Qmult_lt_0_compat|]; lra.
      - now apply double_below_whole_neg. }
    destruct (Qcompare_spec (a + b) 0) as [E|L|G].
    + rewrite (round_of_zero (a + b) E). lra.
    + pose proof (round_upper_neg (a + b) L).
      pose proof (Gn a A Da Ua Ba). pose proof (Gn b B Db Ub Bb). lra.
    + pose proof (round_upper (a + b) G).
      pose proof (Gp a A Da Ua Ba). pose proof (Gp b B Db Ub Bb). lra.
Qed.

End Representation.

(** ** Arithmetic of [Math.floor] and [Math.max] *)

Section FloorMax.

Local Open Scope Z_scope.

Lemma Qle_bool_inject_Z (a b : Z) :
  Qle_bool (inject_Z a) (inject_Z b) = (a <=? b).
Proof.
  unfold Qle_bool; simpl. now rewrite !Z.mul_1_r.
Qed.

Lemma floor_max0 (x : Q) : Math.floor (Math.max 0 x) = Z.max 0 (Qfloor x).
Proof.
  unfold Math.floor, Math.max.
  destruct (Qle_bool 0 x) eqn:E.
  - apply Qle_bool_iff in E. apply Qfloor_resp_le in E.
    change (Qfloor 0) with 0 in E. lia.
  - assert (H : (x <= 0)%Q).
    { apply Qlt_le_weak, Qnot_le_lt. intro H. apply Qle_bool_iff in H. congruence. }
    apply Qfloor_resp_le in H. change (Qfloor 0) with 0 in *. lia.
Qed.

Lemma Qfloor_sub_Z (q : Q) (z : Z) : Qfloor (q - inject_Z z) = Qfloor q - z.
Proof.
  destruct q as [n d]. unfold Qminus, Qplus, Qopp, inject_Z, Qfloor; simpl.
  rewrite Pos.mul_1_r, Z.mul_1_r.
  replace (n + - z * Z.pos d) with (n + (- z) * Z.pos d) by ring.
  rewrite Z.div_add by discriminate. lia.
Qed.

Lemma Qfloor_Z_sub (z : Z) (q : Q) : Qfloor (inject_Z z - q) = z - Qceiling q.
Proof.
  destruct q as [n d]. unfold Qceiling, Qminus, Qplus, Qopp, inject_Z, Qfloor; simpl.
  rewrite Z.mul_1_r.
  replace (z * Z.pos d + - n) with (- n + z * Z.pos d) by ring.
  rewrite Z.div_add by discriminate. lia.
Qed.


Lemma forEach_add_sum {A : Type} (f : A -> Q) (xs : list A) (total : Q) :
  (forEach_add f xs total == total + Qsum (map f xs))%Q.
Proof.
  unfold forEach_add. revert total.
  induction xs as [|x xs IH]; intro total; simpl.
  - ring.
  - rewrite IH. ring.
Qed.

Lemma forEach_addZ_sum {A : Type} (f : A -> Z) (xs : list A) (total : Z) :
  forEach_addZ f xs total = total + Zsum (map f xs).
Proof.
  unfold forEach_addZ. revert total.
  induction xs as [|x xs IH]; intro total; simpl.
  - lia.
  - rewrite IH. lia.
Qed.

End FloorMax.

(** ** Running totals *)

Section RunningTotals.

Local Open Scope Q_scope.

Lemma forEach_add_fold {A : Type} (f : A -> Q) (xs : list A) (total : Q) :
  Double.forEach_add f xs total = fold_left Double.add (map f xs) total.
Proof.
  unfold Double.forEach_add. revert total.
  induction xs as [|x xs IH]; intro total; cbn [map fold_left]; [reflexivity | apply IH].
Qed.



Lemma federal_withheld_runningTotal (fd : FormData) :
  India.calculateTotalTaxWithheld fd = runningTotal (federalWithholdings fd).
Proof.
  unfold India.calculateTotalTaxWithheld, runningTotal, federalWithholdings. cbv zeta.
  now rewrite !forEach_add_fold, !fold_left_app.
Qed.

Lemma fold_add_comp (l : list Q) (t t' : Q) :
  t == t' -> fold_left Double.add l t == fold_left Double.add l t'.
Proof.
  revert t t'. induction l as [|q l IH]; intros t t' H; cbn [fold_left]; [exact H|].
  apply IH. now rewrite H.
Qed.

(** A running total is a double. *)
Lemma fold_add_double (l : list Q) (t : Q) :
  Double.round t == t -> Double.round (fold_left Double.add l t) == fold_left Double.add l t.
Proof.
  revert t. induction l as [|q l IH]; intros t H; cbn [fold_left]; [exact H|].
  apply IH, add_double.
Qed.

Lemma runningTotal_double (l : list Q) : Double.round (runningTotal l) == runningTotal l.
Proof. apply fold_add_double. reflexivity. Qed.

Lemma fold_add_nonneg (l : list Q) (t : Q) :
  0 <= t -> Forall (fun q => 0 <= q) l -> 0 <= fold_left Double.add l t.
Proof.
  revert t. induction l as [|q l IH]; intros t Ht Hl; cbn [fold_left]; [exact Ht|].
  inversion Hl; subst. apply IH; [now apply add_nonneg | assumption].
Qed.

Lemma Qsum_whole (l : list Q) :
  wholeDollars l -> exists N : Z, (0 <= N)%Z /\ Qsum l == inject_Z N.
Proof.
  induction 1 as [|q l (n & Hn & Hq) _ (N & HN & IH)]; unfold Qsum; cbn [fold_right].
  - exists 0%Z. split; [lia | reflexivity].
  - exists (n + N)%Z. split; [lia|].
    fold (Qsum l). now rewrite Hq, IH, inject_Z_plus.
Qed.

(** Whole dollar amounts add up exactly as long as the total stays within
    53 bits. *)
Lemma fold_add_whole (l : list Q) (a : Z) :
  (0 <= a)%Z -> wholeDollars l ->
  inject_Z a + Qsum l <= inject_Z (2 ^ 53) ->
  fold_left Double.add l (inject_Z a) == inject_Z a + Qsum l.
Proof.
  intros Ha Hl. revert a Ha. induction Hl as [|q l (n & Hn & Hq) Hl IH]; intros a Ha Hb.
  - unfold Qsum; cbn [fold_left fold_right]. ring.
  - destruct (Qsum_whole l Hl) as (N & HN & EN).
    unfold Qsum in Hb |- *; cbn [fold_left fold_right] in Hb |- *. fold (Qsum l) in Hb |- *.
    rewrite Hq, EN, <- !inject_Z_plus, <- Zle_Qle in Hb.
    rewrite (fold_add_comp l _ (inject_Z (a + n))).
    + rewrite IH; [rewrite Hq, inject_Z_plus; ring | lia |].
      rewrite EN, <- inject_Z_plus, <- Zle_Qle. lia.
    + rewrite Hq. apply add_Z; lia.
Qed.

Lemma runningTotal_whole (l : list Q) :
  wholeDollars l -> Qsum l <= inject_Z (2 ^ 53) -> runningTotal l == Qsum l.
Proof.
  intros Hl Hb. unfold runningTotal. change 0 with (inject_Z 0).
  rewrite (fold_add_whole l 0); [ring | lia | exact Hl |].
  now rewrite Qplus_0_l.
Qed.


End RunningTotals.

(** ** Refund and amount owed *)

Section RefundOwed.

Local Open Scope Z_scope.






(** The same pair from an integral withholding, as in the state rule. *)
Lemma refund_owed_of_Z (withheld taxOwed : Z) :
  let refund := Math.floor (Math.max 0 (inject_Z withheld - inject_Z taxOwed)) in
  let amountOwed := Math.floor (Math.max 0 (inject_Z taxOwed - inject_Z withheld)) in
  refund = Z.max 0 (withheld - taxOwed) /\
  amountOwed = Z.max 0 (taxOwed - withheld) /\
  0 <= refund /\ 0 <= amountOwed /\ (refund = 0 \/ amountOwed = 0).
Proof.
  cbv zeta. rewrite !floor_max0, !Qfloor_sub_Z, !Qfloor_Z. lia.
Qed.

End RefundOwed.




(** ** The federal rule *)

Section FederalRule.

Local Open Scope Z_scope.






End FederalRule.




(** ** The Illinois rule *)




(** ** The net-underpayment gate *)

Section UnderpaymentGate.

Import SuccessPage.

Lemma settled_result (stored : option FormData) (r : TaxCalculationResult) :
  taxResult (settled stored) = Some r ->
  exists fd, stored = Some fd /\ hadUSIncome (incomeInfo fd) = true /\
             calculateTax (completeFormData fd) = Ok r /\
             settled stored = mkState false (Some r) (Some fd) None.
Proof.
  destruct stored as [fd|]; cbn [settled]; [|discriminate].
  destruct (hadUSIncome (incomeInfo fd)) eqn:Hinc; cbn [negb]; [|discriminate].
  destruct (calculateTax (completeFormData fd)) as [r'|m] eqn:Hc;
    cbn [taxResult]; [|discriminate].
  intro H. injection H as ->. exists fd. auto.
Qed.

Lemma render_result (fd : FormData) (r : TaxCalculationResult) :
  hadUSIncome (incomeInfo fd) = true ->
  render (mkState false (Some r) (Some fd) None)
  = ResultView (negb (hasNetUnderpayment r)) (hasNetUnderpayment r).
Proof.
  intro H. unfold render. cbn [isCalculating error formData taxResult].
  now rewrite H.
Qed.

End UnderpaymentGate.

(** X27. The gate of the result page.  Once the calculation has delivered a
    result (and only then: the page shows nothing of the result while there
    is none), the page decides on the combined totals: "Proceed to Payment"
    is withheld, and the refusal shown, exactly when federal amount owed +
    state amount owed exceeds federal refund + state refund.  A federal
    refund of 200 with a state amount owed of 500 is refused. *)
Theorem success_page_gate (stored : option FormData) (r : TaxCalculationResult) :
  SuccessPage.taxResult (SuccessPage.settled stored) = Some r ->
  let owed := (fed_amountOwed (federalTax r) + st_amountOwed (stateTax r))%Z in
  let refund := (fed_refund (federalTax r) + st_refund (stateTax r))%Z in
  let view := SuccessPage.render (SuccessPage.settled stored) in
  (SuccessPage.offersPayment view = false <-> (refund < owed)%Z)
  /\ (view = SuccessPage.ResultView false true <-> (refund < owed)%Z)
  /\ (view = SuccessPage.ResultView true false <-> (owed <= refund)%Z)
  /\ (forall fd, hadUSIncome (incomeInfo fd) = true ->
        SuccessPage.render (SuccessPage.mkState false None (Some fd) None)
        = SuccessPage.Null)
  /\ (forall fd, hadUSIncome (incomeInfo fd) = true ->
        SuccessPage.render (SuccessPage.mkState false (Some scenario5) (Some fd) None)
        = SuccessPage.ResultView false true).
Proof.
  intro H. cbv zeta.
  destruct (settled_result stored r H) as (fd & -> & Hinc & _ & Hs).
  rewrite Hs, (render_result fd r Hinc).
  unfold SuccessPage.hasNetUnderpayment, SuccessPage.totalRefund, SuccessPage.totalOwed.
  destruct (Z.ltb_spec (fed_refund (federalTax r) + st_refund (stateTax r))
              (fed_amountOwed (federalTax r) + st_amountOwed (stateTax r)));
    cbn [negb SuccessPage.offersPayment].
  - repeat split; auto; try (intro; lia); try discriminate.
    + intros fd' Hfd'. unfold SuccessPage.render; cbn. now rewrite Hfd'.
    + intros fd' Hfd'. now rewrite (render_result fd' scenario5 Hfd').
  - repeat split; auto; try (intro; lia); try discriminate.
    + intros fd' Hfd'. unfold SuccessPage.render; cbn. now rewrite Hfd'.
    + intros fd' Hfd'. now rewrite (render_result fd' scenario5 Hfd').
Qed.

Lemma success_page_gate_witness :
  exists r, SuccessPage.taxResult (SuccessPage.settled (Some scenario1)) = Some r /\
            (SuccessPage.offersPayment
               (SuccessPage.render (SuccessPage.settled (Some scenario1))) = false
             <-> (fed_refund (federalTax r) + st_refund (stateTax r)
                  < fed_amountOwed (federalTax r) + st_amountOwed (stateTax r))%Z).
Proof.
  exists {| federalTax := India.calculateFederalTax (SuccessPage.completeFormData scenario1);
            stateTax := IllinoisTax.calculateStateTax (SuccessPage.completeFormData scenario1) |}.
  split; [reflexivity|].
  destruct (success_page_gate (Some scenario1) _ eq_refl) as [H _]. exact H.
Defined.


(** ** Dispatch by country *)




(** X25. The other direction: a missing country and the accepted spellings take
    the India rule, and the state rule runs only for Illinois income. *)
Lemma india_spellings_use_india_rule (fd : FormData) :
  let raw := country (personalInfo fd) in
  let c := Str.trim (Str.toLowerCase raw) in
  raw = "" \/ c = "india" \/ c = "indian" \/ c = "" \/ c = "foreign country" ->
  exists r, calculateTax fd = Ok r /\
            federalTax r = India.calculateFederalTax fd /\
            stateTax r = match incomeState (incomeInfo fd) with
                         | Some Illinois => IllinoisTax.calculateStateTax fd
                         | _ => zeroStateTax
                         end.
Proof.
  cbv zeta. intro H. unfold calculateTax.
  assert (Hu : usesIndiaRule fd = true).
  { unfold usesIndiaRule.
    destruct (String.eqb_spec (country (personalInfo fd)) "") as [E|E].
    - rewrite !orb_true_r. reflexivity.
    - destruct H as [H|[H|[H|[H|H]]]]; [contradiction| | | |];
        rewrite H; reflexivity. }
  rewrite Hu. eexists. split; [reflexivity|]. split; [reflexivity|].
  cbn [stateTax]. destruct (incomeState (incomeInfo fd)) as [[|]|]; reflexivity.
Qed.

(** ** SSN and EIN rendering *)

Section SsnRendering.

Import PdfFiller.

Lemma allDigits_digitsOnly (s : string) : Str.allDigits (Str.digitsOnly s) = true.
Proof.
  induction s as [|c s IH]; cbn -[Str.isDigit]; [reflexivity|].
  destruct (Str.isDigit c) eqn:E; cbn -[Str.isDigit]; [|exact IH].
  now rewrite E, IH.
Qed.

Ltac nine_digits d H L :=
  do 10 (destruct d as [|? d]; try discriminate L);
  cbn -[Str.isDigit] in H;
  repeat (apply andb_true_iff in H; destruct H as [? H]).

Ltac use_digits :=
  repeat match goal with
  | E : Str.isDigit ?c = true |- _ => rewrite E; clear E
  end.

Lemma dashed_ssn_of_nine (d : string) :
  Str.allDigits d = true -> String.length d = 9%nat ->
  let v := Str.slice 0 3 d ++ "-" ++ Str.slice 3 5 d ++ "-" ++ Str.sliceFrom 5 d in
  isDashedSSN v = true /\ Str.digitsOnly v = d.
Proof.
  intros H L. nine_digits d H L.
  cbn -[Str.isDigit]. change (Str.isDigit "-") with false.
  use_digits. split; reflexivity.
Qed.

Lemma dashed_ein_of_nine (d : string) :
  Str.allDigits d = true -> String.length d = 9%nat ->
  let v := Str.slice 0 2 d ++ "-" ++ Str.sliceFrom 2 d in
  isDashedEIN v = true /\ Str.digitsOnly v = d.
Proof.
  intros H L. nine_digits d H L.
  cbn -[Str.isDigit]. change (Str.isDigit "-") with false.
  use_digits. split; reflexivity.
Qed.

(** What [formatSSN] returns in terms of the cleaned digits. *)
Lemma formatSSN_cases (s : string) :
  let d := Str.digitsOnly s in
  if (String.length d =? 9)%nat
  then isDashedSSN (formatSSN s) = true /\ Str.digitsOnly (formatSSN s) = d
  else formatSSN s = d.
Proof.
  cbv zeta. unfold formatSSN.
  destruct (String.eqb_spec s "") as [->|Hne]; [reflexivity|].
  destruct (Nat.eqb_spec (String.length (Str.digitsOnly s)) 9) as [L|L];
    [|reflexivity].
  exact (dashed_ssn_of_nine _ (allDigits_digitsOnly s) L).
Qed.

Lemma einFormatted_cases (w2 : W2Form) :
  let d := Str.digitsOnly (ein w2) in
  if (String.length d =? 9)%nat
  then isDashedEIN (SsnFields.einFormatted w2) = true /\
       Str.digitsOnly (SsnFields.einFormatted w2) = d
  else True.
Proof.
  cbv zeta. unfold SsnFields.einFormatted.
  destruct (Nat.eqb_spec (String.length (Str.digitsOnly (ein w2))) 9) as [L|L];
    [|exact I].
  rewrite L. cbn [Nat.leb].
  exact (dashed_ein_of_nine _ (allDigits_digitsOnly (ein w2)) L).
Qed.

End SsnRendering.

(** C9, as stated, fails: with the full SSN 123-45-6789 on record, Form
    1040-NR receives the nine digits without dashes, and Schedule IL-WIT
    receives the EIN 12-3456789 as nine digits without the dash. *)
Lemma ssn_not_dashed_everywhere :
  snd (SsnFields.fillForm1040NR_ssn scenario1) = "123456789"
  /\ isDashedSSN (snd (SsnFields.fillForm1040NR_ssn scenario1)) = false
  /\ PdfFiller.written "EIN - 1"
       (ScheduleILWIT.fillFormIL1040ScheduleILWIT scenario1 getMinimalTaxResultFor8843)
     = Some "123456789".
Proof. repeat split; reflexivity. Qed.

(** C9, amended: the SSN field of Form 8843, Form 843, Form 1040-NR
    Schedule O and Form IL-1040 (the mappers that go through [formatSSN])
    holds the SSN as XXX-XX-XXXX when the cleaned value has exactly nine
    digits, and the raw cleaned digit string otherwise (fewer or more than
    nine digits).  Form 1040-NR always receives the cleaned digits without
    dashes.  Form 8316 renders a nine-digit EIN as XX-XXXXXXX. *)
Theorem ssn_ein_rendering (fd : FormData) (taxResult : TaxCalculationResult) (w2 : W2Form) :
  let d := Str.digitsOnly (ssnOrEmpty fd) in
  Forall (fun v =>
            if (String.length d =? 9)%nat
            then isDashedSSN v = true /\ Str.digitsOnly v = d
            else v = d)
    [ snd (SsnFields.fillForm8843_ssn fd);
      snd (SsnFields.fillForm843_ssn fd);
      snd (SsnFields.fillForm1040NRO_ssn fd) ]
  /\ (exists v, PdfFiller.written "step1-A-ssn" (FormIL1040.fillFormIL1040 fd taxResult)
                = Some v /\
                if (String.length d =? 9)%nat
                then isDashedSSN v = true /\ Str.digitsOnly v = d
                else v = d)
  /\ snd (SsnFields.fillForm1040NR_ssn fd) = d
  /\ (let e := Str.digitsOnly (ein w2) in
      if (String.length e =? 9)%nat
      then isDashedEIN (SsnFields.einFormatted w2) = true /\
           Str.digitsOnly (SsnFields.einFormatted w2) = e
      else True).
Proof.
  cbv zeta. pose proof (formatSSN_cases (ssnOrEmpty fd)) as Hs. cbv zeta in Hs.
  split; [|split; [|split]].
  - repeat constructor; exact Hs.
  - exists (PdfFiller.formatSSN (ssnOrEmpty fd)). split; [reflexivity | exact Hs].
  - reflexivity.
  - exact (einFormatted_cases w2).
Qed.

(** ** Illinois withholding across the return and its schedule *)

Section Withholding.

Import PdfFiller ScheduleILWIT.

Lemma written_last (name value : string) (ws : list Write) :
  written name (ws ++ [(name, value)]) = Some value.
Proof.
  induction ws as [|[n v] ws IH]; cbn [app written].
  - now rewrite String.eqb_refl.
  - now rewrite IH.
Qed.

Lemma rowLoop_fold (s : list nat) :
  forall (l : list W2Form) (t : Z) (ws : list Write),
    let r := fold_left rowStep (combine s l) (t, ws) in
    fst r = (t + Zsum (map flooredStateWithheld (firstn (List.length s) l)))%Z /\
    List.length (snd r) = (List.length ws + 5 * List.length (combine s l))%nat.
Proof.
  induction s as [|i s IH]; intros l t ws; cbn [combine List.length firstn].
  - cbn. split; lia.
  - destruct l as [|w2 l]; cbn [fold_left map Zsum fold_right List.length].
    + cbn. split; lia.
    + cbn [rowStep]. destruct (IH l (t + Math.floor (orZero (stateTaxWithheld w2)))%Z
                                 (ws ++ rowWrites i w2)%list) as [H1 H2].
      cbv zeta in H1, H2. rewrite H1, H2.
      rewrite length_app. cbn [rowWrites List.length].
      unfold flooredStateWithheld, Math.floor, Zsum. split; lia.
Qed.

Lemma firstn_min {A : Type} (n : nat) (l : list A) :
  firstn (Nat.min (List.length l) n) l = firstn n l.
Proof.
  destruct (Nat.le_gt_cases (List.length l) n) as [H|H].
  - rewrite Nat.min_l by exact H. now rewrite firstn_all, firstn_all2.
  - now rewrite Nat.min_r by lia.
Qed.

Lemma rowLoop_firstn (l : list W2Form) :
  rowLoop (firstn MAX_W2_ROWS l) = rowLoop l.
Proof.
  unfold rowLoop.
  rewrite (combine_firstn_l (seq 0 (Nat.min (List.length l) MAX_W2_ROWS)) l).
  rewrite length_seq, firstn_min, length_firstn.
  replace (Nat.min (Nat.min MAX_W2_ROWS (List.length l)) MAX_W2_ROWS)
    with (Nat.min (List.length l) MAX_W2_ROWS) by lia.
  reflexivity.
Qed.

Lemma rowLoop_total (l : list W2Form) :
  fst (rowLoop l) = Zsum (map flooredStateWithheld (firstn MAX_W2_ROWS l)) /\
  List.length (snd (rowLoop l)) = (5 * Nat.min (List.length l) MAX_W2_ROWS)%nat.
Proof.
  unfold rowLoop.
  destruct (rowLoop_fold (seq 0 (Nat.min (List.length l) MAX_W2_ROWS)) l 0%Z [])
    as [H1 H2].
  cbv zeta in H1, H2. rewrite H1, H2.
  rewrite length_combine, length_seq, firstn_min. cbn [List.length]. split; lia.
Qed.

(** The aggregate of the state rule and the aggregate of Form IL-1040 are
    one quantity, the sum over all documents of the floored withholding. *)
Lemma state_withholding_shared (fd : FormData) (taxResult : TaxCalculationResult) :
  let total :=
    (Zsum (map flooredStateWithheld (w2Forms (incomeInfo fd)))
     + Zsum (map (fun f => Qfloor (orZero (int_stateTaxWithheld f)))
               (form1099INT (incomeInfo fd)))
     + Zsum (map (fun f => Qfloor (orZero (misc_stateTaxWithheld f)))
               (form1099MISC (incomeInfo fd))))%Z in
  IllinoisTax.calculateStateTaxWithheld fd = total /\
  FormIL1040.calculateStateTaxWithheldForForms fd = total /\
  written "Illinois Income Tax withheld" (FormIL1040.fillFormIL1040 fd taxResult)
  = Some (String_of_Z total).
Proof.
  cbv zeta.
  assert (H : FormIL1040.calculateStateTaxWithheldForForms fd
              = (Zsum (map flooredStateWithheld (w2Forms (incomeInfo fd)))
                 + Zsum (map (fun f => Qfloor (orZero (int_stateTaxWithheld f)))
                      (form1099INT (incomeInfo fd)))
                 + Zsum (map (fun f => Qfloor (orZero (misc_stateTaxWithheld f)))
                      (form1099MISC (incomeInfo fd))))%Z).
  { unfold FormIL1040.calculateStateTaxWithheldForForms.
    rewrite !forEach_addZ_sum. reflexivity. }
  split; [exact H|]. split; [exact H|].
  transitivity (Some (formatCurrencyForPDFWholeOnly
                        (inject_Z (FormIL1040.calculateStateTaxWithheldForForms fd)))).
  - reflexivity.
  - unfold formatCurrencyForPDFWholeOnly, Math.floor. now rewrite Qfloor_Z, H.
Qed.

(** The schedule in terms of the first five W-2s. *)
Lemma schedule_writes (fd : FormData) (taxResult : TaxCalculationResult) :
  let ws := fillFormIL1040ScheduleILWIT fd taxResult in
  let firstFive := firstn 5 (w2Forms (incomeInfo fd)) in
  written "Total amount" ws
  = Some (String_of_Z (Zsum (map flooredStateWithheld firstFive)))
  /\ ws = fillFormIL1040ScheduleILWIT (withIncomeDocuments fd firstFive [] []) taxResult
  /\ List.length ws = (5 + 5 * Nat.min (List.length (w2Forms (incomeInfo fd))) 5)%nat.
Proof.
  cbv zeta. unfold fillFormIL1040ScheduleILWIT.
  cbn [withIncomeDocuments incomeInfo w2Forms].
  change 5%nat with MAX_W2_ROWS at 2.
  rewrite rowLoop_firstn.
  destruct (rowLoop_total (w2Forms (incomeInfo fd))) as [H1 H2].
  destruct (rowLoop (w2Forms (incomeInfo fd))) as [total rows].
  cbn [fst snd] in H1, H2. subst total.
  split; [|split].
  - rewrite app_assoc. apply written_last.
  - reflexivity.
  - rewrite !length_app, H2. cbn [List.length]. unfold MAX_W2_ROWS. lia.
Qed.

End Withholding.

(** C10: Schedule IL-WIT lists at most five W-2 rows.  Its "Total amount"
    is the sum of floor(stateTaxWithheld) over the first five W-2 entries
    only; the schedule written for a record is the schedule written for the
    same record cut down to its first five W-2s and stripped of every
    1099-INT and 1099-MISC, so the later W-2s and all 1099 withholding are
    left out of the rows and of the total alike; and it has five writes for
    each of the min(n, 5) rows, next to the four header fields and the
    total. *)
Theorem schedule_il_wit_first_five (fd : FormData) (taxResult : TaxCalculationResult) :
  let ws := ScheduleILWIT.fillFormIL1040ScheduleILWIT fd taxResult in
  let firstFive := firstn 5 (w2Forms (incomeInfo fd)) in
  PdfFiller.written "Total amount" ws
  = Some (String_of_Z (Zsum (map flooredStateWithheld firstFive)))
  /\ ws = ScheduleILWIT.fillFormIL1040ScheduleILWIT
            (withIncomeDocuments fd firstFive [] []) taxResult
  /\ List.length ws = (5 + 5 * Nat.min (List.length (w2Forms (incomeInfo fd))) 5)%nat.
Proof. exact (schedule_writes fd taxResult). Qed.

(** C1 at two records.  With a single 1099-INT carrying 100 of Illinois
    withholding, the state rule and Form IL-1040 both report 100 while
    Schedule IL-WIT totals 0; with six W-2s of 10 each, they report 60 while
    the schedule totals 50. *)
Theorem withholding_total_diverges :
  (IllinoisTax.calculateStateTaxWithheld interestWithholdingOnly = 100%Z /\
   PdfFiller.written "Illinois Income Tax withheld"
     (FormIL1040.fillFormIL1040 interestWithholdingOnly getMinimalTaxResultFor8843)
   = Some "100" /\
   PdfFiller.written "Total amount"
     (ScheduleILWIT.fillFormIL1040ScheduleILWIT interestWithholdingOnly
        getMinimalTaxResultFor8843)
   = Some "0")
  /\
  (IllinoisTax.calculateStateTaxWithheld sixW2s = 60%Z /\
   PdfFiller.written "Illinois Income Tax withheld"
     (FormIL1040.fillFormIL1040 sixW2s getMinimalTaxResultFor8843)
   = Some "60" /\
   PdfFiller.written "Total amount"
     (ScheduleILWIT.fillFormIL1040ScheduleILWIT sixW2s getMinimalTaxResultFor8843)
   = Some "50").
Proof. repeat split; vm_compute; reflexivity. Qed.

(** X26. Where the three do agree: at most five W-2s and no 1099 entries. *)
Lemma withholding_total_agrees (fd : FormData) (taxResult : TaxCalculationResult) :
  (List.length (w2Forms (incomeInfo fd)) <= 5)%nat ->
  form1099INT (incomeInfo fd) = [] ->
  form1099MISC (incomeInfo fd) = [] ->
  PdfFiller.written "Total amount"
    (ScheduleILWIT.fillFormIL1040ScheduleILWIT fd taxResult)
  = Some (String_of_Z (IllinoisTax.calculateStateTaxWithheld fd))
  /\ PdfFiller.written "Illinois Income Tax withheld"
       (FormIL1040.fillFormIL1040 fd taxResult)
     = Some (String_of_Z (IllinoisTax.calculateStateTaxWithheld fd)).
Proof.
  intros Hlen Hint Hmisc.
  destruct (state_withholding_shared fd taxResult) as (H1 & _ & H3).
  destruct (schedule_writes fd taxResult) as [H4 _]. cbv zeta in H4.
  rewrite H3, H4, H1, Hint, Hmisc, firstn_all2 by exact Hlen.
  cbn [map Zsum fold_right]. rewrite !Z.add_0_r. split; reflexivity.
Qed.

(** ** Day counting *)

(** The calendar: the epoch, the first day of 2025, the lengths of a common
    and of a leap year, and the leap day of 2000. *)
Lemma daysFromCivil_examples :
  Days.daysFromCivil 1970 1 1 = 0%Z
  /\ Days.daysFromCivil 2025 1 1 = 20089%Z
  /\ (Days.daysFromCivil 2025 12 31 - Days.daysFromCivil 2025 1 1 = 364)%Z
  /\ (Days.daysFromCivil 2024 12 31 - Days.daysFromCivil 2024 1 1 = 365)%Z
  /\ (Days.daysFromCivil 2000 3 1 - Days.daysFromCivil 2000 2 28 = 2)%Z
  /\ (Days.daysFromCivil 2026 1 1 - Days.daysFromCivil 2025 12 31 = 1)%Z.
Proof. repeat split; reflexivity. Qed.

Section DayCounting.

Import Days.
Local Open Scope Z_scope.

Variable h : Host.
Variable taxYearStart : Z.

Lemma visitStep_added (taxYearEnd totalDays : Z) (v : Visit) :
  visitStep h taxYearStart (taxYearEnd, totalDays) v
  = match entryDate v with
    | None => (taxYearEnd, totalDays)
    | Some e =>
        (snd (exitOf h taxYearEnd v),
         totalDays + added taxYearStart (snd (exitOf h taxYearEnd v))
                       (setHours0 h (dateOfDay e)) (fst (exitOf h taxYearEnd v))
                       (hasExit v))
    end.
Proof.
  unfold visitStep, exitOf, added, hasExit.
  destruct (entryDate v) as [e|]; [|reflexivity].
  destruct (exitDate v) as [x|]; [|destruct (now h <? taxYearEnd)];
    cbn [fst snd];
    repeat match goal with
    | |- context [if ?b then _ else _] => destruct b eqn:?
    end; f_equal; lia.
Qed.

Lemma setHours0_mono (a b : Z) : a <= b -> setHours0 h a <= setHours0 h b.
Proof.
  intro H. unfold setHours0.
  assert (H' : (a + utcOffset h) / msPerDay <= (b + utcOffset h) / msPerDay)
    by (apply Z.div_le_mono; [reflexivity | lia]).
  unfold msPerDay in *. lia.
Qed.

Lemma added_nonneg (y1 e x : Z) (b : bool) : 0 <= added taxYearStart y1 e x b.
Proof.
  unfold added.
  repeat match goal with
  | |- context [if ?c then _ else _] => destruct c eqn:?
  end; try lia;
  match goal with
  | |- context [?n / msPerDay] =>
      assert (0 <= n / msPerDay) by (apply Z.div_pos; [lia | reflexivity]); lia
  end.
Qed.

Ltac split_tests :=
  repeat match goal with
  | |- context [Z.ltb ?a ?b] => destruct (Z.ltb_spec a b)
  | |- context [Z.leb ?a ?b] => destruct (Z.leb_spec a b)
  end; cbn [andb].

Lemma added_exit_later (y1 e x x' : Z) :
  x <= x' -> added taxYearStart y1 e x true <= added taxYearStart y1 e x' true.
Proof.
  intro H. unfold added. split_tests; try lia;
    unfold msPerDay; Z.to_euclidean_division_equations; lia.
Qed.

Lemma added_entry_later (y1 e e' x : Z) (b : bool) :
  e <= e' -> added taxYearStart y1 e' x b <= added taxYearStart y1 e x b.
Proof.
  intro H. unfold added. destruct b; split_tests; try lia;
    unfold msPerDay; Z.to_euclidean_division_equations; lia.
Qed.


(** One visit replaced by a later-exit or later-entry variant: the
    [taxYearEnd] left behind is the same, and the total moves one way. *)
Lemma visitStep_exit_later (y1 t t' : Z) (v v' : Visit) :
  exitLater v v' -> t <= t' ->
  fst (visitStep h taxYearStart (y1, t) v)
  = fst (visitStep h taxYearStart (y1, t') v') /\
  snd (visitStep h taxYearStart (y1, t) v)
  <= snd (visitStep h taxYearStart (y1, t') v').
Proof.
  intros [He Hx] Ht. rewrite !visitStep_added, He.
  destruct (entryDate v) as [e|]; cbn [fst snd]; [|split; [reflexivity | exact Ht]].
  unfold exitOf, hasExit.
  destruct (exitDate v) as [x|], (exitDate v') as [x'|]; try contradiction.
  - cbn [fst snd]. split; [reflexivity|].
    pose proof (added_exit_later y1 (setHours0 h (dateOfDay e))
                  (setHours0 h (dateOfDay x)) (setHours0 h (dateOfDay x'))) as Hm.
    assert (setHours0 h (dateOfDay x) <= setHours0 h (dateOfDay x')).
    { apply setHours0_mono. unfold dateOfDay, msPerDay. lia. }
    lia.
  - split; [reflexivity | lia].
Qed.

Lemma visitStep_entry_later (y1 t t' : Z) (v v' : Visit) :
  entryLater v v' -> t' <= t ->
  fst (visitStep h taxYearStart (y1, t') v')
  = fst (visitStep h taxYearStart (y1, t) v) /\
  snd (visitStep h taxYearStart (y1, t') v')
  <= snd (visitStep h taxYearStart (y1, t) v).
Proof.
  intros [Hx He] Ht. rewrite !visitStep_added.
  assert (Hexit : forall y, exitOf h y v' = exitOf h y v)
    by (intro y; unfold exitOf; now rewrite Hx).
  assert (Hhas : hasExit v' = hasExit v) by (unfold hasExit; now rewrite Hx).
  rewrite !Hexit, Hhas.
  destruct (entryDate v) as [e|], (entryDate v') as [e'|]; try contradiction;
    cbn [fst snd]; [|split; [reflexivity | exact Ht]].
  split; [reflexivity|].
  pose proof (added_entry_later (snd (exitOf h y1 v)) (setHours0 h (dateOfDay e))
                (setHours0 h (dateOfDay e')) (fst (exitOf h y1 v)) (hasExit v)) as Hm.
  assert (setHours0 h (dateOfDay e) <= setHours0 h (dateOfDay e')).
  { apply setHours0_mono. unfold dateOfDay, msPerDay. lia. }
  lia.
Qed.

Lemma fold_exit_later (vs vs' : list Visit) :
  Forall2 exitLater vs vs' ->
  forall y1 t t', t <= t' ->
    snd (fold_left (visitStep h taxYearStart) vs (y1, t))
    <= snd (fold_left (visitStep h taxYearStart) vs' (y1, t')).
Proof.
  induction 1 as [|v v' vs vs' Hv _ IH]; intros y1 t t' Ht; cbn [fold_left].
  - exact Ht.
  - destruct (visitStep_exit_later y1 t t' v v' Hv Ht) as [Hy Hle].
    destruct (visitStep h taxYearStart (y1, t) v) as [a b],
             (visitStep h taxYearStart (y1, t') v') as [a' b'].
    cbn [fst snd] in Hy, Hle. subst a'. now apply IH.
Qed.

Lemma fold_entry_later (vs vs' : list Visit) :
  Forall2 entryLater vs vs' ->
  forall y1 t t', t' <= t ->
    snd (fold_left (visitStep h taxYearStart) vs' (y1, t'))
    <= snd (fold_left (visitStep h taxYearStart) vs (y1, t)).
Proof.
  induction 1 as [|v v' vs vs' Hv _ IH]; intros y1 t t' Ht; cbn [fold_left].
  - exact Ht.
  - destruct (visitStep_entry_later y1 t t' v v' Hv Ht) as [Hy Hle].
    destruct (visitStep h taxYearStart (y1, t) v) as [a b],
             (visitStep h taxYearStart (y1, t') v') as [a' b'].
    cbn [fst snd] in Hy, Hle. subst a'. now apply IH.
Qed.

End DayCounting.

(** C7: for every host, year and visit list, moving exit dates later (entry
    dates held fixed) never decreases [calculateDaysInUSForYear], and moving
    entry dates later (exit dates held fixed) never increases it. *)
Theorem days_monotone (h : Days.Host) (year : Z) (vs laterExit laterEntry : list Visit) :
  Forall2 exitLater vs laterExit ->
  Forall2 entryLater vs laterEntry ->
  (Days.calculateDaysInUSForYear h (mkResidencyInfo vs) year
   <= Days.calculateDaysInUSForYear h (mkResidencyInfo laterExit) year)%Z
  /\
  (Days.calculateDaysInUSForYear h (mkResidencyInfo laterEntry) year
   <= Days.calculateDaysInUSForYear h (mkResidencyInfo vs) year)%Z.
Proof.
  intros Hx He. unfold Days.calculateDaysInUSForYear. cbn [visits]. split.
  - apply fold_exit_later; [exact Hx | reflexivity].
  - apply fold_entry_later; [exact He | reflexivity].
Qed.

Lemma days_monotone_witness :
  let d := Days.daysFromCivil in
  let vs := [mkVisit (Some (d 2024 8 15)) (Some (d 2025 5 20)); mkVisit (Some (d 2025 8 1)) None] in
  let laterExit := [mkVisit (Some (d 2024 8 15)) (Some (d 2025 6 30)); mkVisit (Some (d 2025 8 1)) None] in
  let laterEntry := [mkVisit (Some (d 2025 2 1)) (Some (d 2025 5 20)); mkVisit (Some (d 2025 9 1)) None] in
  (Days.calculateDaysInUSForYear centralTime (mkResidencyInfo vs) 2025
   <= Days.calculateDaysInUSForYear centralTime (mkResidencyInfo laterExit) 2025)%Z
  /\
  (Days.calculateDaysInUSForYear centralTime (mkResidencyInfo laterEntry) 2025
   <= Days.calculateDaysInUSForYear centralTime (mkResidencyInfo vs) 2025)%Z.
Proof.
  cbv zeta. apply days_monotone.
  - repeat constructor; vm_compute; discriminate.
  - repeat constructor; vm_compute; discriminate.
Defined.

Section DayCountingUTC.

Import Days.
Local Open Scope Z_scope.

Variable h : Host.
Hypothesis onUTC : utcOffset h = 0.

Lemma setHours0_utc_day (d : Z) : setHours0 h (dateOfDay d) = dateOfDay d.
Proof.
  unfold setHours0, dateOfDay. rewrite onUTC, Z.add_0_r, Z.sub_0_r.
  now rewrite Z.div_mul by discriminate.
Qed.

Lemma setHours0_utc_now : setHours0 h (now h) = dateOfDay (now h / msPerDay).
Proof.
  unfold setHours0, dateOfDay. now rewrite onUTC, Z.add_0_r, Z.sub_0_r.
Qed.

Lemma visitStep_utc (y0 y1 t : Z) (v : Visit) :
  visitStep h (dateOfDay y0) (dateOfDay y1, t) v
  = (dateOfDay y1, t + daysPresent (now h / msPerDay) y0 y1 v).
Proof.
  unfold visitStep, daysPresent.
  destruct (entryDate v) as [e|]; [|f_equal; lia].
  destruct (exitDate v) as [x|].
  - rewrite !setHours0_utc_day. unfold dateOfDay, msPerDay.
    repeat match goal with
    | |- context [Z.ltb ?a ?b] => destruct (Z.ltb_spec a b)
    | |- context [Z.leb ?a ?b] => destruct (Z.leb_spec a b)
    end; cbn [andb]; f_equal; try lia;
    Z.to_euclidean_division_equations; lia.
  - rewrite !setHours0_utc_day.
    destruct (Z.ltb_spec (now h) (dateOfDay y1)) as [Hn|Hn].
    + rewrite setHours0_utc_now.
      assert (Ht : now h / msPerDay < y1).
      { apply Z.div_lt_upper_bound; [reflexivity|].
        unfold dateOfDay in Hn. lia. }
      unfold dateOfDay, msPerDay in *.
      repeat match goal with
      | |- context [Z.ltb ?a ?b] => destruct (Z.ltb_spec a b)
      | |- context [Z.leb ?a ?b] => destruct (Z.leb_spec a b)
      end; cbn [andb]; f_equal; try lia;
      Z.to_euclidean_division_equations; lia.
    + assert (Ht : y1 <= now h / msPerDay).
      { apply Z.div_le_lower_bound; [reflexivity|].
        unfold dateOfDay in Hn. lia. }
      unfold dateOfDay, msPerDay in *.
      repeat match goal with
      | |- context [Z.ltb ?a ?b] => destruct (Z.ltb_spec a b)
      | |- context [Z.leb ?a ?b] => destruct (Z.leb_spec a b)
      end; cbn [andb]; f_equal; try lia;
      Z.to_euclidean_division_equations; lia.
Qed.

Lemma fold_visitStep_utc (y0 y1 : Z) (vs : list Visit) :
  forall t,
    fold_left (visitStep h (dateOfDay y0)) vs (dateOfDay y1, t)
    = (dateOfDay y1, t + Zsum (map (daysPresent (now h / msPerDay) y0 y1) vs)).
Proof.
  induction vs as [|v vs IH]; intro t; cbn [fold_left map Zsum fold_right].
  - f_equal. lia.
  - rewrite visitStep_utc, IH. unfold Zsum. f_equal. lia.
Qed.

(** X8. On a host whose local time is UTC the function returns the sum,
    visit by visit, of [daysPresent]: nothing for a visit without entry
    date or with an exit before January 1; for an exit on a day of the year,
    the days from max(entry, January 1) up to but leaving out the exit day;
    for an exit after December 31, the days from max(entry, January 1)
    through December 31; for a visit without exit date, the days from
    max(entry, January 1) through today or December 31, whichever is
    earlier; never less than 0 for a visit. *)
Lemma calculateDaysInUSForYear_utc (residencyInfo : ResidencyInfo) (year : Z) :
  calculateDaysInUSForYear h residencyInfo year
  = Zsum (map (daysPresent (now h / msPerDay)
                 (daysFromCivil year 1 1) (daysFromCivil year 12 31))
            (visits residencyInfo)).
Proof.
  unfold calculateDaysInUSForYear, taxYearStartOf, taxYearEndOf.
  rewrite fold_visitStep_utc. cbn [snd]. lia.
Qed.

End DayCountingUTC.

(** C6 at two visit lists, on a browser in US Central Time.  A visit
    entered on 2025-01-01 and left on 2025-01-02 counts 0 days in 2025, so
    the entry day is not counted; a visit entered on 2024-08-15 and still
    open counts 364 days in 2025, so one day of the year is lost.  On a
    UTC host the same calls give 1 and 365. *)
Theorem days_lost_off_utc :
  Days.calculateDaysInUSForYear centralTime newYearVisit 2025 = 0%Z
  /\ Days.calculateDaysInUSForYear centralTime openVisit 2025 = 364%Z
  /\ Days.calculateDaysInUSForYear utcTime newYearVisit 2025 = 1%Z
  /\ Days.calculateDaysInUSForYear utcTime openVisit 2025 = 365%Z.
Proof. repeat split; vm_compute; reflexivity. Qed.

(** * Further properties of the code *)

(** ** Shape of the federal and Illinois tax *)

Section TaxShape.

Local Open Scope Z_scope.

Ltac settle_tests :=
  repeat match goal with
  | |- context [Z.leb ?a ?b] =>
      first [ replace (Z.leb a b) with true by (symmetry; apply Z.leb_le; lia)
            | replace (Z.leb a b) with false by (symmetry; apply Z.leb_gt; lia) ]
  end.

Ltac by_range t :=
  let C := fresh "C" in
  assert (C : t <= 0 \/ 1 <= t <= 11925 \/ 11926 <= t <= 48475 \/
              48476 <= t <= 103350 \/ 103351 <= t <= 197300 \/
              197301 <= t <= 250525 \/ 250526 <= t <= 626350 \/ 626351 <= t) by lia;
  destruct C as [C|[C|[C|[C|[C|[C|[C|C]]]]]]].

Lemma progressive_tax_cents (ti : Z) :
  (India.calculateProgressiveTax (inject_Z ti) == taxCents ti # 100)%Q.
Proof.
  unfold India.calculateProgressiveTax, taxCents.
  change 0%Q with (inject_Z 0). rewrite Qle_bool_inject_Z.
  destruct (Z.leb_spec ti 0) as [H0|H0]; [reflexivity|].
  unfold India.TAX_BRACKETS, India.inBracket, find; cbn [India.b_min India.b_max].
  repeat match goal with
  | |- context [Qle_bool ?x ?y] =>
      match x with
      | inject_Z _ => change y with (inject_Z (Qnum y))
      | _ => change x with (inject_Z (Qnum x))
      end;
      rewrite (Qle_bool_inject_Z)
  end.
  cbn [Qnum andb].
  by_range ti; try lia; settle_tests;
    cbn [andb India.base India.b_min India.rate];
    cbv - [Z.mul Z.add Z.sub Z.opp]; lia.
Qed.

Lemma taxCents_mono (a b : Z) : a <= b -> taxCents a <= taxCents b.
Proof.
  intro H. unfold taxCents.
  by_range a; by_range b; try lia; settle_tests; lia.
Qed.


Lemma fed_taxOwed_cents (fd : FormData) :
  India.taxOwed fd = taxCents (India.taxableIncome fd) / 100.
Proof.
  unfold India.taxOwed, Math.floor. rewrite progressive_tax_cents. reflexivity.
Qed.

Lemma fed_taxableIncome_mono (fd fd' : FormData) :
  (India.calculateGrossIncome fd <= India.calculateGrossIncome fd')%Q ->
  India.taxableIncome fd <= India.taxableIncome fd'.
Proof.
  intro H. unfold India.taxableIncome. rewrite !floor_max0.
  assert (Qfloor (Double.sub (India.calculateGrossIncome fd) India.STANDARD_DEDUCTION)
          <= Qfloor (Double.sub (India.calculateGrossIncome fd') India.STANDARD_DEDUCTION)).
  { apply Qfloor_resp_le. apply sub_mono; [exact H | apply Qle_refl]. }
  lia.
Qed.

Lemma il_taxOwed_div (fd : FormData) :
  IllinoisTax.taxOwed fd = IllinoisTax.taxableIncome fd * 495 / 10000.
Proof.
  unfold IllinoisTax.taxOwed, IllinoisTax.ILLINOIS_TAX_RATE, Math.floor, Qfloor.
  cbn [Qmult inject_Z Qnum Qden]. reflexivity.
Qed.


Lemma il_exemption_cases (fd : FormData) :
  let g := IllinoisTax.calculateGrossIncome fd in
  ((g <= 250000)%Q /\ IllinoisTax.exemption fd = 2850%Q) \/
  ((250000 < g)%Q /\ IllinoisTax.exemption fd = 0%Q).
Proof.
  cbv zeta. unfold IllinoisTax.exemption, IllinoisTax.HIGH_INCOME_THRESHOLD.
  destruct (Qle_bool (IllinoisTax.calculateGrossIncome fd) 250000) eqn:E; cbn [negb].
  - left. split; [now apply Qle_bool_iff | reflexivity].
  - right. split; [|reflexivity].
    apply Qnot_le_lt. intro H. apply Qle_bool_iff in H. congruence.
Qed.

Lemma il_taxableIncome_mono (fd fd' : FormData) :
  (IllinoisTax.calculateGrossIncome fd <= IllinoisTax.calculateGrossIncome fd')%Q ->
  IllinoisTax.taxableIncome fd <= IllinoisTax.taxableIncome fd'.
Proof.
  intro H. unfold IllinoisTax.taxableIncome. rewrite !floor_max0.
  assert (Qfloor (Double.sub (IllinoisTax.calculateGrossIncome fd) (IllinoisTax.exemption fd))
          <= Qfloor (Double.sub (IllinoisTax.calculateGrossIncome fd')
                                (IllinoisTax.exemption fd'))).
  { apply Qfloor_resp_le.
    destruct (il_exemption_cases fd) as [[G E]|[G E]],
             (il_exemption_cases fd') as [[G' E']|[G' E']];
      cbv zeta in *; rewrite E, E'.
    - apply sub_mono; [exact H | apply Qle_refl].
    - apply sub_mono; [exact H | discriminate].
    - exfalso. apply (Qlt_irrefl 250000).
      apply Qlt_le_trans with (IllinoisTax.calculateGrossIncome fd); [exact G|].
      apply Qle_trans with (IllinoisTax.calculateGrossIncome fd'); [exact H | exact G'].
    - apply sub_mono; [exact H | apply Qle_refl]. }
  lia.
Qed.

End TaxShape.

(** X1. the federal tax owed never falls when the gross income, as the
    rule totals it in double arithmetic, rises: the bracket table has no
    downward step at any boundary. *)
Theorem federal_tax_monotone (fd fd' : FormData) :
  (India.calculateGrossIncome fd <= India.calculateGrossIncome fd')%Q ->
  (fed_taxOwed (India.calculateFederalTax fd)
   <= fed_taxOwed (India.calculateFederalTax fd'))%Z.
Proof.
  intro H. cbn [India.calculateFederalTax fed_taxOwed].
  rewrite !fed_taxOwed_cents.
  apply Z.div_le_mono; [reflexivity|].
  apply taxCents_mono, fed_taxableIncome_mono, H.
Qed.

Lemma federal_tax_monotone_witness :
  (fed_taxOwed (India.calculateFederalTax (oneW2 48475 0 0))
   <= fed_taxOwed (India.calculateFederalTax (oneW2 64226 0 0)))%Z.
Proof.
  apply (federal_tax_monotone (oneW2 48475 0 0) (oneW2 64226 0 0)).
  vm_compute. discriminate.
Defined.


(** X3. when the gross income as the rule totals it is at most the
    treaty deduction of 15750, no federal tax is owed, and a non-negative
    withholding total comes back whole dollars down: refund =
    floor(withheld), amount owed = 0, where withheld is the total as the
    rule adds it up in double arithmetic. *)
Theorem no_federal_tax_below_deduction (fd : FormData) :
  (India.calculateGrossIncome fd <= 15750)%Q ->
  (0 <= India.calculateTotalTaxWithheld fd)%Q ->
  fed_taxOwed (India.calculateFederalTax fd) = 0%Z
  /\ fed_refund (India.calculateFederalTax fd)
     = Qfloor (India.calculateTotalTaxWithheld fd)
  /\ fed_amountOwed (India.calculateFederalTax fd) = 0%Z.
Proof.
  intros Hg Hw.
  assert (Hti : India.taxableIncome fd = 0%Z).
  { unfold India.taxableIncome. rewrite floor_max0.
    assert (Qfloor (Double.sub (India.calculateGrossIncome fd) India.STANDARD_DEDUCTION)
            <= 0)%Z.
    { change 0%Z with (Qfloor 0). apply Qfloor_resp_le.
      unfold Double.sub. apply round_nonpos.
      pose proof (round_mono _ _ Hg) as Hr.
      change 15750%Q with (inject_Z 15750) in Hr. rewrite round_Z in Hr by lia.
      unfold India.STANDARD_DEDUCTION.
      change 15750%Q with (inject_Z 15750). rewrite (round_Z 15750) by lia.
      lra. }
    lia. }
  assert (Ht : India.taxOwed fd = 0%Z).
  { rewrite fed_taxOwed_cents, Hti. reflexivity. }
  assert (Hd : (Double.round (India.calculateTotalTaxWithheld fd)
                == India.calculateTotalTaxWithheld fd)%Q).
  { rewrite federal_withheld_runningTotal. apply runningTotal_double. }
  cbn [India.calculateFederalTax fed_taxOwed fed_refund fed_amountOwed].
  rewrite Ht, !floor_max0. change (inject_Z 0) with 0%Q.
  assert (Er : (Double.sub (India.calculateTotalTaxWithheld fd) 0
                == India.calculateTotalTaxWithheld fd)%Q).
  { now rewrite sub_0_r. }
  assert (Eo : (Double.sub 0 (India.calculateTotalTaxWithheld fd) <= 0)%Q).
  { unfold Double.sub. apply round_nonpos.
    pose proof (round_nonneg _ Hw). rewrite (round_of_zero 0) by reflexivity. lra. }
  rewrite Er.
  assert (0 <= Qfloor (India.calculateTotalTaxWithheld fd))%Z.
  { change 0%Z with (Qfloor 0). now apply Qfloor_resp_le. }
  apply Qfloor_resp_le in Eo. change (Qfloor 0) with 0%Z in Eo.
  repeat split; lia.
Qed.

Lemma no_federal_tax_below_deduction_witness :
  fed_taxOwed (India.calculateFederalTax withheld586) = 0%Z
  /\ fed_refund (India.calculateFederalTax withheld586)
     = Qfloor (India.calculateTotalTaxWithheld withheld586)
  /\ fed_amountOwed (India.calculateFederalTax withheld586) = 0%Z.
Proof.
  apply (no_federal_tax_below_deduction withheld586);
    vm_compute; discriminate.
Defined.

(** X4. the Illinois tax owed never falls when the gross income, as the
    rule totals it in double arithmetic, rises, the loss of the exemption
    above 250000 included. *)
Theorem illinois_tax_monotone (fd fd' : FormData) :
  (IllinoisTax.calculateGrossIncome fd <= IllinoisTax.calculateGrossIncome fd')%Q ->
  (st_taxOwed (IllinoisTax.calculateStateTax fd)
   <= st_taxOwed (IllinoisTax.calculateStateTax fd'))%Z.
Proof.
  intro H. cbn [IllinoisTax.calculateStateTax st_taxOwed].
  rewrite !il_taxOwed_div.
  apply Z.div_le_mono; [reflexivity|].
  pose proof (il_taxableIncome_mono fd fd' H). lia.
Qed.

Lemma illinois_tax_monotone_witness :
  (st_taxOwed (IllinoisTax.calculateStateTax (oneW2 250000 0 0))
   <= st_taxOwed (IllinoisTax.calculateStateTax (oneW2 250001 0 0)))%Z.
Proof.
  apply (illinois_tax_monotone (oneW2 250000 0 0) (oneW2 250001 0 0)).
  vm_compute. discriminate.
Defined.

(** ** The Illinois return and its cover letter; Form 1040-NR *)

Section ReturnsBalance.

Import PdfFiller.
Local Open Scope Z_scope.

Lemma whole_inject_Z (z : Z) : formatCurrencyForPDFWholeOnly (inject_Z z) = String_of_Z z.
Proof. unfold formatCurrencyForPDFWholeOnly, Math.floor. now rewrite Qfloor_Z. Qed.

Lemma positive_or_zero (z : Z) :
  0 <= z ->
  (if 0 <? z then formatCurrencyForPDFWholeOnly (inject_Z z) else FormIL1040.ZERO)
  = String_of_Z z.
Proof.
  intro H. destruct (Z.ltb_spec 0 z) as [Hp|Hp].
  - apply whole_inject_Z.
  - assert (z = 0) by lia. subst z. reflexivity.
Qed.

Lemma calculateTax_illinois (fd : FormData) (r : TaxCalculationResult) :
  calculateTax fd = Ok r ->
  incomeState (incomeInfo fd) = Some Illinois ->
  federalTax r = India.calculateFederalTax fd /\
  stateTax r = IllinoisTax.calculateStateTax fd.
Proof.
  unfold calculateTax. intros H Hs. rewrite Hs in H.
  destruct (usesIndiaRule fd); [|discriminate].
  injection H as <-. split; reflexivity.
Qed.

End ReturnsBalance.

(** X5. for Illinois income, the figures of the state return agree with
    each other and with the cover letter.  The cover letter's "Total
    Payments" (taxOwed + refund - amountOwed) is the withholding total of the
    state rule and the amount on IL-1040 "Illinois Income Tax withheld"; its
    "Net Income" is the taxable income of the state rule and the amount on
    "Illinois net income"; and the return shows the computed tax, refund and
    amount owed, so that withheld - tax = refund - owed on the form. *)
Theorem illinois_return_balances (fd : FormData) (r : TaxCalculationResult) :
  calculateTax fd = Ok r ->
  incomeState (incomeInfo fd) = Some Illinois ->
  let ws := FormIL1040.fillFormIL1040 fd r in
  let withheld := IllinoisTax.calculateStateTaxWithheld fd in
  PackageIllinois.totalPayments r = withheld
  /\ PackageIllinois.netIncome fd = IllinoisTax.taxableIncome fd
  /\ PdfFiller.written "Illinois Income Tax withheld" ws = Some (String_of_Z withheld)
  /\ PdfFiller.written "Illinois net income from Schedule NR" ws
     = Some (String_of_Z (IllinoisTax.taxableIncome fd))
  /\ PdfFiller.written "Total Tax" ws = Some (String_of_Z (st_taxOwed (stateTax r)))
  /\ PdfFiller.written "Overpayment amount" ws = Some (String_of_Z (st_refund (stateTax r)))
  /\ PdfFiller.written "Amount you owe" ws = Some (String_of_Z (st_amountOwed (stateTax r)))
  /\ (withheld - st_taxOwed (stateTax r)
      = st_refund (stateTax r) - st_amountOwed (stateTax r))%Z.
Proof.
  intros Hc Hs. cbv zeta.
  destruct (calculateTax_illinois fd r Hc Hs) as [_ Hst].
  destruct (refund_owed_of_Z (IllinoisTax.calculateStateTaxWithheld fd)
              (IllinoisTax.taxOwed fd)) as (Hr & Ho & Hr0 & Ho0 & _).
  cbv zeta in Hr, Ho, Hr0, Ho0.
  assert (Er : st_refund (stateTax r)
               = Z.max 0 (IllinoisTax.calculateStateTaxWithheld fd - IllinoisTax.taxOwed fd))
    by (rewrite Hst; exact Hr).
  assert (Eo : st_amountOwed (stateTax r)
               = Z.max 0 (IllinoisTax.taxOwed fd - IllinoisTax.calculateStateTaxWithheld fd))
    by (rewrite Hst; exact Ho).
  assert (Et : st_taxOwed (stateTax r) = IllinoisTax.taxOwed fd)
    by (rewrite Hst; reflexivity).
  split; [unfold PackageIllinois.totalPayments; lia|].
  split; [reflexivity|].
  split.
  { transitivity (Some (PdfFiller.formatCurrencyForPDFWholeOnly
                          (inject_Z (FormIL1040.calculateStateTaxWithheldForForms fd))));
      [reflexivity|]. now rewrite whole_inject_Z. }
  split; [reflexivity|].
  split.
  { transitivity (Some (PdfFiller.formatCurrencyForPDFWholeOnly
                          (inject_Z (st_taxOwed (stateTax r))))); [reflexivity|].
    now rewrite whole_inject_Z. }
  split.
  { transitivity (Some (if (0 <? st_refund (stateTax r))%Z
                        then PdfFiller.formatCurrencyForPDFWholeOnly
                               (inject_Z (st_refund (stateTax r)))
                        else FormIL1040.ZERO)); [reflexivity|].
    rewrite positive_or_zero; [reflexivity | lia]. }
  split.
  { transitivity (Some (if (0 <? st_amountOwed (stateTax r))%Z
                        then PdfFiller.formatCurrencyForPDFWholeOnly
                               (inject_Z (st_amountOwed (stateTax r)))
                        else FormIL1040.ZERO)); [reflexivity|].
    rewrite positive_or_zero; [reflexivity | lia]. }
  lia.
Qed.

Lemma illinois_return_balances_witness :
  PackageIllinois.totalPayments
    {| federalTax := India.calculateFederalTax scenario1;
       stateTax := IllinoisTax.calculateStateTax scenario1 |}
  = IllinoisTax.calculateStateTaxWithheld scenario1.
Proof.
  exact (proj1 (illinois_return_balances scenario1 _ eq_refl eq_refl)).
Defined.

(** X6. on Form 1040-NR filled from the result of the federal rule, the
    "overpaid" line and the "refund" line both show the computed refund, the
    taxable-income line shows the taxable income of the rule, and the
    withholding lines show the floored withholding total. *)
Theorem form_1040nr_refund_lines (fd : FormData) (r : TaxCalculationResult) :
  federalTax r = India.calculateFederalTax fd ->
  let ws := Form1040NR.fillForm1040NR fd r in
  PdfFiller.written "topmostSubform[0].Page2[0].f2_36[0]" ws
  = Some (String_of_Z (fed_refund (federalTax r)))
  /\ PdfFiller.written "topmostSubform[0].Page2[0].f2_37[0]" ws
     = Some (String_of_Z (fed_refund (federalTax r)))
  /\ PdfFiller.written "topmostSubform[0].Page2[0].f2_07[0]" ws
     = Some (String_of_Z (India.taxableIncome fd))
  /\ PdfFiller.written "topmostSubform[0].Page2[0].f2_09[0]" ws
     = Some (String_of_Z (fed_taxOwed (federalTax r)))
  /\ PdfFiller.written "topmostSubform[0].Page2[0].f2_35[0]" ws
     = Some (String_of_Z (Qfloor (India.calculateTotalTaxWithheld fd))).
Proof.
  intro Hf. cbv zeta.
  assert (Er : fed_refund (federalTax r)
               = Math.floor (Math.max 0 (Double.sub (India.calculateTotalTaxWithheld fd)
                                          (inject_Z (fed_taxOwed (federalTax r))))))
    by (rewrite Hf; reflexivity).
  assert (Hr0 : (0 <= fed_refund (federalTax r))%Z)
    by (rewrite Er, floor_max0; lia).
  split.
  { transitivity (Some (PdfFiller.formatCurrencyForPDFWholeOnly
                          (Math.max 0 (Double.sub (Form1040NR.calculateFederalTaxWithheld fd)
                                         (inject_Z (fed_taxOwed (federalTax r)))))));
      [reflexivity|].
    unfold PdfFiller.formatCurrencyForPDFWholeOnly. now rewrite Er. }
  split.
  { transitivity
      (Some (PdfFiller.formatCurrencyForPDFWholeOnly
               (if (0 <? fed_refund (federalTax r))%Z
                then inject_Z (fed_refund (federalTax r))
                else Math.max 0 (Double.sub (Form1040NR.calculateFederalTaxWithheld fd)
                                   (inject_Z (fed_taxOwed (federalTax r)))))));
      [reflexivity|].
    destruct (Z.ltb_spec 0 (fed_refund (federalTax r))) as [Hp|Hp].
    - now rewrite whole_inject_Z.
    - unfold PdfFiller.formatCurrencyForPDFWholeOnly. now rewrite Er. }
  split; [reflexivity|].
  split.
  { transitivity (Some (PdfFiller.formatCurrencyForPDFWholeOnly
                          (inject_Z (fed_taxOwed (federalTax r))))); [reflexivity|].
    now rewrite whole_inject_Z. }
  reflexivity.
Qed.

Lemma form_1040nr_refund_lines_witness :
  PdfFiller.written "topmostSubform[0].Page2[0].f2_36[0]"
    (Form1040NR.fillForm1040NR scenario1
       {| federalTax := India.calculateFederalTax scenario1;
          stateTax := IllinoisTax.calculateStateTax scenario1 |})
  = Some "529".
Proof.
  exact (proj1 (form_1040nr_refund_lines scenario1
                  {| federalTax := India.calculateFederalTax scenario1;
                     stateTax := IllinoisTax.calculateStateTax scenario1 |} eq_refl)).
Defined.

(** ** Bounds and order-freedom of the day count; dates on the forms *)

Section DayBounds.

Import Days.
Local Open Scope Z_scope.

Lemma dfc_jan1 (y : Z) :
  daysFromCivil y 1 1
  = (y - 1) / 400 * 146097
    + ((y - 1 - (y - 1) / 400 * 400) * 365 + (y - 1 - (y - 1) / 400 * 400) / 4
       - (y - 1 - (y - 1) / 400 * 400) / 100 + 306) - 719468.
Proof. reflexivity. Qed.

Lemma dfc_dec31 (y : Z) :
  daysFromCivil y 12 31
  = y / 400 * 146097
    + ((y - y / 400 * 400) * 365 + (y - y / 400 * 400) / 4
       - (y - y / 400 * 400) / 100 + 305) - 719468.
Proof. reflexivity. Qed.

(** Dec 31 is day 365 or day 366 of its year. *)
Lemma year_length (year : Z) :
  364 <= daysFromCivil year 12 31 - daysFromCivil year 1 1 <= 365.
Proof.
  rewrite dfc_jan1, dfc_dec31.
  pose proof (Z.div_mod (year - 1) 400 ltac:(lia)) as E.
  pose proof (Z.mod_pos_bound (year - 1) 400 ltac:(lia)) as B.
  set (q := (year - 1) / 400) in *. set (r := (year - 1) mod 400) in *.
  assert (Hy : year = 400 * q + r + 1) by lia.
  replace (year - 1 - q * 400) with r by lia.
  destruct (Z.eq_dec r 399) as [Hr|Hr].
  - assert (H : year / 400 = q + 1)
      by (symmetry; apply Z.div_unique with 0; lia).
    rewrite H. replace (year - (q + 1) * 400) with 0 by lia. subst r. rewrite Hr.
    change (399 / 4) with 99. change (399 / 100) with 3.
    change (0 / 4) with 0. change (0 / 100) with 0. lia.
  - assert (H : year / 400 = q)
      by (symmetry; apply Z.div_unique with (r + 1); lia).
    rewrite H. replace (year - q * 400) with (r + 1) by lia.
    Z.to_euclidean_division_equations. lia.
Qed.

Variable h : Host.

Lemma setHours0_le (t : Z) : setHours0 h t <= t.
Proof.
  unfold setHours0, msPerDay. Z.to_euclidean_division_equations. lia.
Qed.

Lemma exitOf_le (y1 : Z) (v : Visit) : snd (exitOf h y1 v) <= y1.
Proof.
  unfold exitOf. destruct (exitDate v); [cbn; lia|].
  destruct (now h <? y1); cbn [snd]; [lia | apply setHours0_le].
Qed.

Lemma added_le (y0d y1d y1 e x : Z) (b : bool) :
  0 <= y1d - y0d + 1 ->
  y1 <= dateOfDay y1d ->
  added (dateOfDay y0d) y1 e x b <= y1d - y0d + 1.
Proof.
  intros Hlen H. unfold added, dateOfDay, msPerDay in *.
  repeat match goal with
  | |- context [Z.ltb ?a ?b] => destruct (Z.ltb_spec a b)
  | |- context [Z.leb ?a ?b] => destruct (Z.leb_spec a b)
  end; destruct b; cbn [andb]; try lia;
  Z.to_euclidean_division_equations; lia.
Qed.

Lemma fold_bounds (y0d y1d : Z) (vs : list Visit) :
  0 <= y1d - y0d + 1 ->
  forall y1 t, y1 <= dateOfDay y1d ->
    t <= snd (fold_left (visitStep h (dateOfDay y0d)) vs (y1, t))
      <= t + Z.of_nat (List.length vs) * (y1d - y0d + 1).
Proof.
  intro Hlen. induction vs as [|v vs IH]; intros y1 t Hy; cbn [fold_left List.length].
  - cbn. lia.
  - rewrite visitStep_added.
    destruct (entryDate v) as [e|].
    + pose proof (exitOf_le y1 v) as Hx.
      pose proof (added_nonneg (dateOfDay y0d) (snd (exitOf h y1 v))
                    (setHours0 h (dateOfDay e)) (fst (exitOf h y1 v)) (hasExit v)) as Ha.
      pose proof (added_le y0d y1d (snd (exitOf h y1 v))
                    (setHours0 h (dateOfDay e)) (fst (exitOf h y1 v)) (hasExit v)
                    Hlen ltac:(lia)) as Hb.
      specialize (IH (snd (exitOf h y1 v))
                     (t + added (dateOfDay y0d) (snd (exitOf h y1 v))
                            (setHours0 h (dateOfDay e)) (fst (exitOf h y1 v))
                            (hasExit v)) ltac:(lia)).
      lia.
    + specialize (IH y1 t Hy). lia.
Qed.

End DayBounds.

(** X7. on every host, for every visit list and year, the day count is
    never negative and never more than 366 days per visit. *)
Theorem days_count_bounds (h : Days.Host) (residencyInfo : ResidencyInfo) (year : Z) :
  (0 <= Days.calculateDaysInUSForYear h residencyInfo year
     <= 366 * Z.of_nat (List.length (visits residencyInfo)))%Z.
Proof.
  unfold Days.calculateDaysInUSForYear, Days.taxYearStartOf, Days.taxYearEndOf.
  pose proof (year_length year) as Hy.
  pose proof (fold_bounds h (Days.daysFromCivil year 1 1) (Days.daysFromCivil year 12 31)
                (visits residencyInfo) ltac:(lia)
                (Days.dateOfDay (Days.daysFromCivil year 12 31)) 0%Z ltac:(lia)) as Hb.
  nia.
Qed.

Lemma calculateDaysInUSForYear_utc_witness :
  Days.calculateDaysInUSForYear utcTime openVisit 2025
  = Zsum (map (daysPresent (Days.now utcTime / Days.msPerDay)
                 (Days.daysFromCivil 2025 1 1) (Days.daysFromCivil 2025 12 31))
            (visits openVisit)).
Proof.
  apply (calculateDaysInUSForYear_utc utcTime); reflexivity.
Defined.

Section DayOrder.

Local Open Scope Z_scope.

Lemma Zsum_app (a b : list Z) : Zsum (a ++ b) = Zsum a + Zsum b.
Proof.
  unfold Zsum. induction a as [|x a IH]; cbn [app fold_right]; lia.
Qed.

Lemma Zsum_perm (a b : list Z) : Permutation a b -> Zsum a = Zsum b.
Proof.
  unfold Zsum. induction 1; cbn [fold_right]; lia.
Qed.

End DayOrder.

(** X9. on a host whose local time is UTC the day count is additive and
    does not depend on the order of the visits: the count of any
    rearrangement of [a ++ b] is the count of [a] plus the count of [b].
    Overlapping visits are therefore counted twice. *)
Theorem days_utc_additive (h : Days.Host) (year : Z) (a b p : list Visit) :
  Days.utcOffset h = 0%Z ->
  Permutation (a ++ b) p ->
  Days.calculateDaysInUSForYear h (mkResidencyInfo p) year
  = (Days.calculateDaysInUSForYear h (mkResidencyInfo a) year
     + Days.calculateDaysInUSForYear h (mkResidencyInfo b) year)%Z.
Proof.
  intros Hu Hp. unfold Days.calculateDaysInUSForYear, Days.taxYearStartOf, Days.taxYearEndOf.
  rewrite !(fold_visitStep_utc h Hu). cbn [snd visits].
  rewrite <- (Zsum_perm _ _ (Permutation_map _ Hp)), map_app, Zsum_app. lia.
Qed.

Lemma days_utc_additive_witness :
  Days.calculateDaysInUSForYear utcTime
    (mkResidencyInfo (visits openVisit ++ visits newYearVisit)) 2025
  = (Days.calculateDaysInUSForYear utcTime (mkResidencyInfo (visits newYearVisit)) 2025
     + Days.calculateDaysInUSForYear utcTime (mkResidencyInfo (visits openVisit)) 2025)%Z.
Proof.
  apply (days_utc_additive utcTime 2025 (visits newYearVisit) (visits openVisit)).
  - reflexivity.
  - apply Permutation_app_comm.
Defined.

Section DateShift.

Import Days PdfFiller2.
Local Open Scope Z_scope.

Lemma localDate_shift (h : Host) (day : Z) :
  - msPerDay <= utcOffset h < msPerDay ->
  localDate h (dateOfDay day)
  = civilFromDays (if utcOffset h <? 0 then day - 1 else day).
Proof.
  intro H. unfold localDate, dateOfDay. f_equal.
  unfold msPerDay in *.
  destruct (Z.ltb_spec (utcOffset h) 0);
    Z.to_euclidean_division_equations; lia.
Qed.

End DateShift.

(** X10. a stored date (a date-only string) printed by [formatDateForPDF]
    comes out as the day before on any host west of UTC (offset from -24 h
    up to, not including, 0) and as itself on a host at or east of UTC. *)
Theorem date_printed_a_day_early_west_of_utc (h : Days.Host) (day : Z) :
  (- Days.msPerDay <= Days.utcOffset h < Days.msPerDay)%Z ->
  PdfFiller2.formatDateForPDF h (Some day)
  = PdfFiller2.formatDateForPDF utcTime
      (Some (if (Days.utcOffset h <? 0)%Z then day - 1 else day)%Z)
  /\ PdfFiller2.formatDateForPDFShortYear h (Some day)
     = PdfFiller2.formatDateForPDFShortYear utcTime
         (Some (if (Days.utcOffset h <? 0)%Z then day - 1 else day)%Z)
  /\ PdfFiller2.formatDateForPDFDashes h (Some day)
     = PdfFiller2.formatDateForPDFDashes utcTime
         (Some (if (Days.utcOffset h <? 0)%Z then day - 1 else day)%Z).
Proof.
  intro H.
  unfold PdfFiller2.formatDateForPDF, PdfFiller2.formatDateForPDFShortYear,
    PdfFiller2.formatDateForPDFDashes.
  rewrite (localDate_shift h day H).
  rewrite (localDate_shift utcTime
             (if (Days.utcOffset h <? 0)%Z then day - 1 else day)%Z)
    by (vm_compute; split; [discriminate | reflexivity]).
  change (Days.utcOffset utcTime <? 0)%Z with false. cbv iota.
  repeat split.
Qed.

Lemma date_printed_a_day_early_witness :
  PdfFiller2.formatDateForPDF centralTime (Some (Days.daysFromCivil 2023 8 27))
  = "08/26/2023".
Proof.
  rewrite (proj1 (date_printed_a_day_early_west_of_utc centralTime
                    (Days.daysFromCivil 2023 8 27)
                    ltac:(vm_compute; split; [discriminate | reflexivity]))).
  reflexivity.
Defined.

(** The calendar used for printing inverts [Days.daysFromCivil] on every
    day from 1970-01-01 to 2169-12-31, with months in 1..12 and days in
    1..31. *)
Lemma civil_round_trip (z : Z) :
  (0 <= z < 73049)%Z ->
  PdfFiller2.civilOk z = true.
Proof.
  change PdfFiller2.civilOk with PdfFiller2.civilOk.
  intro H.
  pose (step := fun st : Z * bool => ((fst st + 1)%Z, snd st && PdfFiller2.civilOk (fst st))).
  pose (Inv := fun st : Z * bool =>
                 (0 <= fst st)%Z /\
                 (snd st = true -> forall k, (0 <= k < fst st)%Z -> PdfFiller2.civilOk k = true)).
  assert (Hstep : forall st, Inv st -> Inv (step st)).
  { intros [n b] [Hn Hb]. unfold Inv, step; cbn [fst snd] in *. split; [lia|].
    intros Hs k Hk. apply andb_true_iff in Hs. destruct Hs as [Hb' Hok].
    destruct (Z.eq_dec k n) as [->|Hne]; [exact Hok|].
    apply (Hb Hb'). lia. }
  assert (H0 : Inv (0%Z, true)) by (split; [cbn; lia | intros _ k Hk; cbn in Hk; lia]).
  pose proof (Pos.iter_invariant 73049 _ step Inv Hstep _ H0) as Hfin.
  assert (E : Pos.iter step (0%Z, true) 73049 = (73049%Z, true))
    by (vm_compute; reflexivity).
  rewrite E in Hfin. destruct Hfin as [_ Hall]. cbn [fst snd] in Hall.
  now apply Hall.
Qed.

(** ** Writing into a template *)

Section Template.

Import PdfFiller PdfFiller2.

Lemma getFormField_name (pdf : PDFDocument) (name : string) (field : Field) :
  getFormField pdf name = Some field -> f_name field = name.
Proof.
  induction pdf as [|f pdf IH]; cbn [getFormField]; [discriminate|].
  destruct (String.eqb_spec (f_name f) name) as [E|E]; [|exact IH].
  intro H. now injection H as <-.
Qed.

Lemma withField_names (pdf : PDFDocument) (name : string) (field' : Field) :
  f_name field' = name -> map f_name (withField pdf name field') = map f_name pdf.
Proof.
  intro Hn. induction pdf as [|f pdf IH]; cbn [withField map]; [reflexivity|].
  destruct (String.eqb_spec (f_name f) name) as [E|E]; cbn [map].
  - now rewrite Hn, E.
  - now rewrite IH.
Qed.

Lemma get_withField (pdf : PDFDocument) (name other : string) (field' : Field) :
  f_name field' = name ->
  getFormField (withField pdf name field') other
  = if name =? other
    then match getFormField pdf name with Some _ => Some field' | None => None end
    else getFormField pdf other.
Proof.
  intro Hn. destruct (String.eqb_spec name other) as [<-|E'].
  - induction pdf as [|f pdf IH]; cbn [withField getFormField]; [reflexivity|].
    destruct (f_name f =? name) eqn:E; cbn [getFormField].
    + now rewrite Hn, String.eqb_refl.
    + now rewrite E.
  - apply String.eqb_neq in E'.
    induction pdf as [|f pdf IH]; cbn [withField getFormField]; [reflexivity|].
    destruct (String.eqb_spec (f_name f) name) as [E|E]; cbn [getFormField].
    + now rewrite Hn, E, E'.
    + now destruct (f_name f =? other).
Qed.

(** The field a name reaches after one [setTextField]. *)
Lemma get_setTextField (pdf : PDFDocument) (name value other : string) :
  getFormField (setTextField pdf name value) other
  = match getFormField pdf other with
    | None => None
    | Some field =>
        Some (if (name =? other) && f_isText field && f_accepts field value
              then mkField (f_name field) (f_isText field) (f_accepts field) value
              else field)
    end.
Proof.
  unfold setTextField, setText.
  destruct (getFormField pdf name) as [field|] eqn:G.
  - destruct (f_isText field) eqn:T.
    + destruct (f_accepts field value) eqn:A.
      * rewrite get_withField by (cbn; now apply getFormField_name with pdf).
        destruct (String.eqb_spec name other) as [<-|E].
        -- rewrite G, T, A. reflexivity.
        -- now destruct (getFormField pdf other).
      * destruct (String.eqb_spec name other) as [<-|E].
        -- rewrite G, T, A. reflexivity.
        -- now destruct (getFormField pdf other).
    + destruct (String.eqb_spec name other) as [<-|E].
      * rewrite G, T. reflexivity.
      * now destruct (getFormField pdf other).
  - destruct (String.eqb_spec name other) as [<-|E].
    + now rewrite G.
    + now destruct (getFormField pdf other).
Qed.

Lemma setTextField_names (pdf : PDFDocument) (name value : string) :
  map f_name (setTextField pdf name value) = map f_name pdf.
Proof.
  unfold setTextField, setText.
  destruct (getFormField pdf name) as [field|] eqn:G; [|reflexivity].
  destruct (f_isText field); [|reflexivity].
  destruct (f_accepts field value); [|reflexivity].
  apply withField_names. cbn. now apply getFormField_name with pdf.
Qed.

Lemma alternate_names (pdf : PDFDocument) (names : list string) (value : string) :
  map f_name (setTextFieldWithAlternateNames pdf names value) = map f_name pdf.
Proof.
  induction names as [|n names IH]; cbn [setTextFieldWithAlternateNames]; [reflexivity|].
  unfold setText.
  destruct (getFormField pdf n) as [field|] eqn:G; [|exact IH].
  destruct (f_isText field); [|exact IH].
  destruct (f_accepts field value); [|exact IH].
  apply withField_names. cbn. now apply getFormField_name with pdf.
Qed.

Lemma setTextField_unused (pdf : PDFDocument) (name value : string) :
  takes pdf value name = false -> setTextField pdf name value = pdf.
Proof.
  unfold takes, setTextField, setText.
  destruct (getFormField pdf name) as [field|]; [|reflexivity].
  destruct (f_isText field); [|reflexivity].
  cbn [andb]. now intros ->.
Qed.

Lemma alternate_unused (pdf : PDFDocument) (names : list string) (value : string) :
  Forall (fun n => takes pdf value n = false) names ->
  forall rest, setTextFieldWithAlternateNames pdf (names ++ rest) value
               = setTextFieldWithAlternateNames pdf rest value.
Proof.
  induction 1 as [|n names Hn _ IH]; intro rest;
    cbn [app setTextFieldWithAlternateNames]; [reflexivity|].
  unfold takes in Hn. unfold setText.
  destruct (getFormField pdf n) as [field|]; [|apply IH].
  destruct (f_isText field); [|apply IH].
  cbn [andb] in Hn. rewrite Hn. apply IH.
Qed.

Lemma fill_names (ws : list Write) :
  forall pdf, map f_name (fill pdf ws) = map f_name pdf.
Proof.
  unfold fill. induction ws as [|w ws IH]; intro pdf; cbn [fold_left]; [reflexivity|].
  now rewrite IH, setTextField_names.
Qed.

Lemma get_fill (ws : list Write) :
  forall pdf name,
    textOf (fill pdf ws) name
    = match getFormField pdf name with
      | None => None
      | Some field =>
          if f_isText field then
            match written name (filter (fun w => f_accepts field (snd w)) ws) with
            | Some v => Some v
            | None => Some (f_value field)
            end
          else Some (f_value field)
      end.
Proof.
  unfold fill, textOf. induction ws as [|[n v] ws IH]; intros pdf name;
    cbn [fold_left filter written fst snd].
  - destruct (getFormField pdf name) as [field|]; [|reflexivity].
    now destruct (f_isText field).
  - rewrite IH, get_setTextField.
    destruct (getFormField pdf name) as [field|]; [|reflexivity].
    destruct (String.eqb_spec n name) as [->|E]; cbn [andb].
    + destruct (f_isText field) eqn:T; cbn [andb]; rewrite ?T; [|reflexivity].
      destruct (f_accepts field v) eqn:A; cbn [f_isText f_accepts f_value written];
        rewrite ?T, ?String.eqb_refl; [|reflexivity].
      now destruct (written name (filter (fun w => f_accepts field (snd w)) ws)).
    + destruct (f_isText field) eqn:T; rewrite ?T; [|reflexivity].
      destruct (f_accepts field v) eqn:A; cbn [written]; [|reflexivity].
      apply String.eqb_neq in E. rewrite ?E.
      now destruct (written name (filter (fun w => f_accepts field (snd w)) ws)).
Qed.

End Template.

(** X11. Filling a template with a mapper's writes gives every text field
    the last value the mapper wrote to its name among those the field's
    [setText] took; a field that is not a text field, a field the mapper
    did not name and a field that took none of the values keep their text;
    and a name the template lacks is still absent. *)
Theorem filled_field_value (pdf : PdfFiller.PDFDocument) (ws : list PdfFiller.Write)
    (name : string) :
  textOf (PdfFiller.fill pdf ws) name
  = match PdfFiller.getFormField pdf name with
    | None => None
    | Some field =>
        if PdfFiller.f_isText field then
          match PdfFiller.written name
                  (filter (fun w => PdfFiller.f_accepts field (snd w)) ws) with
          | Some v => Some v
          | None => Some (PdfFiller.f_value field)
          end
        else Some (PdfFiller.f_value field)
    end.
Proof. apply get_fill. Qed.

(** X12. Writing never adds, removes, renames or reorders fields: after
    any sequence of [setTextField] calls, and after
    [setTextFieldWithAlternateNames], the template has the field names it
    had; a [setTextField] to a name the template lacks returns the document
    unchanged, and so does [setTextFieldWithAlternateNames] when none of the
    names exists; and so do both when the names reach no text field that
    takes the value. *)
Theorem template_fields_kept (pdf : PdfFiller.PDFDocument) (ws : list PdfFiller.Write)
    (names : list string) (name value : string) :
  map PdfFiller.f_name (PdfFiller.fill pdf ws) = map PdfFiller.f_name pdf
  /\ map PdfFiller.f_name (PdfFiller2.setTextFieldWithAlternateNames pdf names value)
     = map PdfFiller.f_name pdf
  /\ (PdfFiller.getFormField pdf name = None ->
      PdfFiller.setTextField pdf name value = pdf)
  /\ (Forall (fun n => PdfFiller.getFormField pdf n = None) names ->
      PdfFiller2.setTextFieldWithAlternateNames pdf names value = pdf)
  /\ (takes pdf value name = false -> PdfFiller.setTextField pdf name value = pdf)
  /\ (Forall (fun n => takes pdf value n = false) names ->
      PdfFiller2.setTextFieldWithAlternateNames pdf names value = pdf).
Proof.
  assert (U : Forall (fun n => takes pdf value n = false) names ->
              PdfFiller2.setTextFieldWithAlternateNames pdf names value = pdf).
  { intro H. rewrite <- (app_nil_r names). now rewrite alternate_unused. }
  split; [apply fill_names|]. split; [apply alternate_names|].
  split.
  { intro H. apply setTextField_unused. unfold takes. now rewrite H. }
  split.
  { intro H. apply U. eapply Forall_impl; [|exact H].
    intros n Hn. unfold takes. now rewrite Hn. }
  split; [apply setTextField_unused | exact U].
Qed.

(** X13. [setTextFieldWithAlternateNames] sets exactly the first of the
    alternate names that reaches a text field whose [setText] takes the
    value: that field then reads the value, and every other name reaches
    the field it reached before.  Names that are missing, that reach a
    field of another kind or whose field rejects the value are passed
    over. *)
Theorem alternate_names_first_match (pdf : PdfFiller.PDFDocument)
    (before : list string) (name : string) (after : list string)
    (value other : string) :
  Forall (fun n => takes pdf value n = false) before ->
  takes pdf value name = true ->
  let pdf' := PdfFiller2.setTextFieldWithAlternateNames pdf
                (before ++ name :: after) value in
  textOf pdf' name = Some value
  /\ (other <> name ->
      PdfFiller.getFormField pdf' other = PdfFiller.getFormField pdf other).
Proof.
  intros Hb Hn. cbv zeta.
  assert (E : PdfFiller2.setTextFieldWithAlternateNames pdf (before ++ name :: after) value
              = PdfFiller.setTextField pdf name value).
  { rewrite (alternate_unused pdf before value Hb).
    cbn [PdfFiller2.setTextFieldWithAlternateNames]. unfold PdfFiller.setTextField.
    unfold takes in Hn.
    destruct (PdfFiller.getFormField pdf name) as [field|]; [|discriminate].
    apply andb_true_iff in Hn. destruct Hn as [T A].
    unfold PdfFiller.setText. now rewrite T, A. }
  rewrite E. unfold textOf. rewrite !get_setTextField. unfold takes in Hn.
  split.
  - destruct (PdfFiller.getFormField pdf name) as [field|]; [|discriminate].
    rewrite String.eqb_refl. cbn [andb]. now rewrite Hn.
  - intro Ho. destruct (PdfFiller.getFormField pdf other) as [field|]; [|reflexivity].
    destruct (String.eqb_spec name other) as [->|]; [contradiction | reflexivity].
Qed.

Lemma alternate_names_first_match_witness :
  textOf
    (PdfFiller2.setTextFieldWithAlternateNames countyTemplate
       (["step1-A-county"; "County"; "County (Illinois only)"] ++ "county" :: ["Name"])
       "Cook")
    "county"
  = Some "Cook".
Proof.
  refine (proj1 (alternate_names_first_match countyTemplate
                   ["step1-A-county"; "County"; "County (Illinois only)"] "county"
                   ["Name"] "Cook" "Name" _ _)).
  - repeat constructor.
  - reflexivity.
Defined.

(** ** Digits in, digits out: the formatters *)

Section Formatters.

Import PdfFiller.

Lemma substring_0_short (s : string) :
  forall k, (String.length s <= k)%nat -> substring 0 k s = s.
Proof.
  induction s as [|c s IH]; intros k Hk; cbn [String.length] in *.
  - destruct k; reflexivity.
  - destruct k as [|k]; [lia|]. cbn [substring]. now rewrite IH by lia.
Qed.

Lemma substring_0_split (s : string) :
  forall k, (k <= String.length s)%nat ->
    substring 0 k s ++ substring k (String.length s - k) s = s
    /\ String.length (substring 0 k s) = k.
Proof.
  induction s as [|c s IH]; intros k Hk; cbn [String.length] in *.
  - assert (k = 0)%nat by lia. subst k. split; reflexivity.
  - destruct k as [|k]; cbn [substring Nat.sub append String.length].
    + split; [|reflexivity]. now rewrite substring_0_short.
    + destruct (IH k ltac:(lia)) as [E L]. now rewrite E, L.
Qed.

Lemma substring_0_length (s : string) :
  forall k, String.length (substring 0 k s) = Nat.min k (String.length s).
Proof.
  induction s as [|c s IH]; intro k; destruct k; cbn [substring String.length Nat.min];
    try reflexivity.
  now rewrite IH.
Qed.

Lemma substring_0_allDigits (s : string) :
  forall k, Str.allDigits s = true -> Str.allDigits (substring 0 k s) = true.
Proof.
  induction s as [|c s IH]; intros k H; destruct k; cbn -[Str.isDigit] in *;
    try reflexivity.
  apply andb_true_iff in H. destruct H as [Hc Hs]. now rewrite Hc, IH.
Qed.

Lemma digitsOnly_allDigits (s : string) :
  Str.allDigits s = true -> Str.digitsOnly s = s.
Proof.
  induction s as [|c s IH]; cbn -[Str.isDigit]; [reflexivity|].
  intro H. apply andb_true_iff in H. destruct H as [Hc Hs]. now rewrite Hc, IH.
Qed.

Lemma digitsOnly_app (a b : string) :
  Str.digitsOnly (a ++ b) = Str.digitsOnly a ++ Str.digitsOnly b.
Proof.
  induction a as [|c a IH]; cbn -[Str.isDigit]; [reflexivity|].
  destruct (Str.isDigit c); cbn [append]; now rewrite IH.
Qed.

Lemma limited_facts (value : string) :
  let limited := Str.slice 0 9 (Str.digitsOnly value) in
  Str.allDigits limited = true
  /\ (String.length limited <= 9)%nat
  /\ String.length limited = Nat.min 9 (String.length (Str.digitsOnly value)).
Proof.
  cbv zeta. unfold Str.slice. rewrite Nat.sub_0_r. split; [|split].
  - apply substring_0_allDigits, allDigits_digitsOnly.
  - rewrite substring_0_length. lia.
  - apply substring_0_length.
Qed.

Ltac peel t L n :=
  lazymatch n with
  | O => idtac
  | S ?m => destruct t as [|? t]; [|cbn [String.length] in L; peel t L m]
  end.

Ltac short_digits t H L :=
  peel t L 10%nat; try (exfalso; lia);
  cbn -[Str.isDigit] in H;
  repeat (apply andb_true_iff in H; destruct H as [? H]).

Ltac use_digit_facts :=
  repeat match goal with
  | E : Str.isDigit ?c = true |- _ => rewrite ?E; clear E
  end.

Lemma ssnLayout_digits (t : string) :
  Str.allDigits t = true -> (String.length t <= 9)%nat ->
  Str.digitsOnly (ssnLayout t) = t
  /\ PdfFiller.formatSSN (ssnLayout t)
     = (if (String.length t =? 9)%nat then ssnLayout t else t)
  /\ isDashedSSN (ssnLayout t) = (String.length t =? 9)%nat.
Proof.
  intros H L. short_digits t H L;
    cbn -[Str.isDigit]; change (Str.isDigit "-") with false;
    use_digit_facts; repeat split; reflexivity.
Qed.

Lemma einLayout_digits (t : string) :
  Str.allDigits t = true -> (String.length t <= 9)%nat ->
  Str.digitsOnly (einLayout t) = t
  /\ isDashedEIN (einLayout t) = (String.length t =? 9)%nat
  /\ ((String.length t =? 9)%nat = true ->
      Str.slice 0 2 t ++ "-" ++ Str.sliceFrom 2 t = einLayout t).
Proof.
  intros H L. short_digits t H L;
    cbn -[Str.isDigit]; change (Str.isDigit "-") with false;
    use_digit_facts; repeat split; try reflexivity; discriminate.
Qed.

End Formatters.

(** X14. the SSN the income step stores for any typed text keeps exactly
    the first nine digits typed; formatting it again changes nothing; and
    the PDF helper [formatSSN] prints the stored text unchanged, in the shape
    XXX-XX-XXXX, exactly when nine digits were typed (with fewer, it prints
    the bare digits). *)
Theorem typed_ssn_round_trip (value : string) :
  let stored := IncomeStep.formatSSN value in
  let digits := Str.digitsOnly value in
  IncomeStep.getSSNWithoutDashes stored = Str.slice 0 9 digits
  /\ IncomeStep.formatSSN stored = stored
  /\ PdfFiller.formatSSN stored
     = (if (9 <=? String.length digits)%nat then stored else Str.slice 0 9 digits)
  /\ isDashedSSN stored = (9 <=? String.length digits)%nat.
Proof.
  cbv zeta.
  destruct (limited_facts value) as (Hd & Hl & Hlen). cbv zeta in Hd, Hl, Hlen.
  destruct (ssnLayout_digits _ Hd Hl) as (E1 & E2 & E3).
  change (IncomeStep.formatSSN value)
    with (ssnLayout (Str.slice 0 9 (Str.digitsOnly value))).
  assert (Eb : (String.length (Str.slice 0 9 (Str.digitsOnly value)) =? 9)%nat
               = (9 <=? String.length (Str.digitsOnly value))%nat).
  { rewrite Hlen.
    destruct (Nat.leb_spec 9 (String.length (Str.digitsOnly value)));
      [rewrite Nat.min_l by lia; reflexivity|].
    rewrite Nat.min_r by lia. apply Nat.eqb_neq. lia. }
  rewrite <- Eb. unfold IncomeStep.getSSNWithoutDashes.
  split; [exact E1|]. split; [|split; [exact E2 | exact E3]].
  unfold IncomeStep.formatSSN. rewrite E1.
  change (ssnLayout (Str.slice 0 9 (Str.slice 0 9 (Str.digitsOnly value)))
          = ssnLayout (Str.slice 0 9 (Str.digitsOnly value))).
  f_equal. unfold Str.slice at 1. rewrite Nat.sub_0_r.
  now apply substring_0_short.
Qed.

(** X15. the EIN the income step stores for any typed text keeps exactly
    the first nine digits typed and is stable under re-formatting; it passes
    [isValidEIN] exactly when nine digits were typed, and then it has the
    shape XX-XXXXXXX and Form 8316 prints it as stored. *)
Theorem typed_ein_round_trip (value : string) :
  let stored := IncomeStep.formatEIN value in
  let digits := Str.digitsOnly value in
  Str.digitsOnly stored = Str.slice 0 9 digits
  /\ IncomeStep.formatEIN stored = stored
  /\ IncomeStep.isValidEIN stored = (9 <=? String.length digits)%nat
  /\ isDashedEIN stored = (9 <=? String.length digits)%nat
  /\ (if (9 <=? String.length digits)%nat
      then SsnFields.einFormatted (w2WithTypedEIN value) = stored
      else True).
Proof.
  cbv zeta.
  destruct (limited_facts value) as (Hd & Hl & Hlen). cbv zeta in Hd, Hl, Hlen.
  destruct (einLayout_digits _ Hd Hl) as (E1 & E2 & E3).
  change (IncomeStep.formatEIN value)
    with (einLayout (Str.slice 0 9 (Str.digitsOnly value))) in *.
  assert (Eb : (String.length (Str.slice 0 9 (Str.digitsOnly value)) =? 9)%nat
               = (9 <=? String.length (Str.digitsOnly value))%nat).
  { rewrite Hlen.
    destruct (Nat.leb_spec 9 (String.length (Str.digitsOnly value)));
      [rewrite Nat.min_l by lia; reflexivity|].
    rewrite Nat.min_r by lia. apply Nat.eqb_neq. lia. }
  rewrite <- Eb.
  split; [exact E1|]. split; [|split; [|split; [exact E2|]]].
  - unfold IncomeStep.formatEIN. rewrite E1.
    change (einLayout (Str.slice 0 9 (Str.slice 0 9 (Str.digitsOnly value)))
            = einLayout (Str.slice 0 9 (Str.digitsOnly value))).
    f_equal. unfold Str.slice at 1. rewrite Nat.sub_0_r.
    now apply substring_0_short.
  - unfold IncomeStep.isValidEIN. now rewrite E1.
  - destruct (String.length (Str.slice 0 9 (Str.digitsOnly value)) =? 9)%nat eqn:E9;
      [|exact I].
    unfold SsnFields.einFormatted, w2WithTypedEIN. cbn [ein]. cbv zeta.
    change (IncomeStep.formatEIN value)
      with (einLayout (Str.slice 0 9 (Str.digitsOnly value))).
    rewrite E1.
    assert (H2 : (2 <=? String.length (Str.slice 0 9 (Str.digitsOnly value)))%nat = true)
      by (apply Nat.leb_le; apply Nat.eqb_eq in E9; lia).
    rewrite H2. apply E3. reflexivity.
Qed.

Section Phone.

Lemma ten_digits_grouped (d : string) :
  Str.allDigits d = true -> String.length d = 10%nat ->
  Str.digitsOnly ("(" ++ Str.slice 0 3 d ++ ") " ++ Str.slice 3 6 d ++ "-"
                  ++ Str.sliceFrom 6 d) = d.
Proof.
  intros H L.
  do 11 (destruct d as [|? d]; try discriminate L).
  cbn -[Str.isDigit] in H.
  repeat (apply andb_true_iff in H; destruct H as [? H]).
  cbn -[Str.isDigit].
  change (Str.isDigit "-") with false. change (Str.isDigit "(") with false.
  change (Str.isDigit ")") with false. change (Str.isDigit " ") with false.
  repeat match goal with
  | E : Str.isDigit ?c = true |- _ => rewrite ?E; clear E
  end.
  reflexivity.
Qed.

End Phone.

(** X16. the two phone formatters keep the digits.  The review page's
    [formatPhone] returns text with the same digits as its input (grouped
    as (XXX) XXX-XXXX for exactly ten digits, the input itself otherwise);
    [formatPhoneForPDF] splits the cleaned digits into an area code and a
    number that concatenate back to them, the area code being the first
    three digits when there are at least ten and empty otherwise. *)
Theorem phone_digits_kept (phone : string) :
  let d := Str.digitsOnly phone in
  Str.digitsOnly (ReviewPage.formatPhone phone) = d
  /\ fst (PdfFiller2.formatPhoneForPDF phone) ++ snd (PdfFiller2.formatPhoneForPDF phone)
     = d
  /\ String.length (fst (PdfFiller2.formatPhoneForPDF phone))
     = (if (10 <=? String.length d)%nat then 3 else 0)%nat.
Proof.
  cbv zeta. split; [|].
  - unfold ReviewPage.formatPhone.
    destruct (Nat.eqb_spec (String.length (Str.digitsOnly phone)) 10) as [L|L];
      [|reflexivity].
    apply ten_digits_grouped; [apply allDigits_digitsOnly | exact L].
  - unfold PdfFiller2.formatPhoneForPDF.
    destruct (String.eqb_spec phone "") as [->|Hne]; [split; reflexivity|].
    destruct (Nat.leb_spec 10 (String.length (Str.digitsOnly phone))) as [L|L];
      cbn [fst snd]; [|split; reflexivity].
    unfold Str.slice, Str.sliceFrom. rewrite Nat.sub_0_r.
    apply substring_0_split. lia.
Qed.

(** ** The rows and the header of Schedule IL-WIT *)

Section ScheduleRows.

Import PdfFiller ScheduleILWIT.

Lemma written_app (name : string) (a b : list Write) :
  written name (a ++ b)
  = match written name b with
    | Some v => Some v
    | None => written name a
    end.
Proof.
  induction a as [|[n v] a IH]; cbn [app written].
  - destruct (written name b); reflexivity.
  - rewrite IH. destruct (written name b); reflexivity.
Qed.

Lemma written_none (name : string) (ws : list Write) :
  Forall (fun w => (fst w =? name) = false) ws -> written name ws = None.
Proof.
  induction 1 as [|[n v] ws Hw _ IH]; cbn [written]; [reflexivity|].
  cbn [fst] in Hw. now rewrite IH, Hw.
Qed.

Lemma rows_names (P : Write -> Prop) :
  (forall i w2, Forall P (rowWrites i w2)) ->
  forall rows t ws, Forall P ws -> Forall P (snd (fold_left rowStep rows (t, ws))).
Proof.
  intro HP. induction rows as [|[i w2] rows IH]; intros t ws Hws; cbn [fold_left].
  - exact Hws.
  - cbn [rowStep]. apply IH. apply Forall_app. split; [exact Hws | apply HP].
Qed.

(** No row of the schedule writes a header field. *)
Lemma rows_skip_header (l : list W2Form) (name : string) :
  name = "Your SSN-3" \/ name = "Your SSN-2" \/ name = "Your SSN-4" ->
  written name (snd (rowLoop l)) = None.
Proof.
  intro H. apply written_none. unfold rowLoop. apply rows_names; [|constructor].
  intros i w2. unfold rowWrites.
  destruct H as [-> | [-> | ->]]; repeat constructor.
Qed.

End ScheduleRows.

(** X17. for a nine-digit SSN, the three SSN boxes of Schedule IL-WIT hold
    the first three, the next two and the last four digits; they
    concatenate to the cleaned SSN, and joined by dashes they are the SSN
    printed on Form IL-1040. *)
Theorem schedule_ssn_boxes (fd : FormData) (taxResult : TaxCalculationResult) :
  let d := Str.digitsOnly (ssnOrEmpty fd) in
  let ws := ScheduleILWIT.fillFormIL1040ScheduleILWIT fd taxResult in
  String.length d = 9%nat ->
  exists a b c,
    PdfFiller.written "Your SSN-3" ws = Some a
    /\ PdfFiller.written "Your SSN-2" ws = Some b
    /\ PdfFiller.written "Your SSN-4" ws = Some c
    /\ String.length a = 3%nat /\ String.length b = 2%nat /\ String.length c = 4%nat
    /\ a ++ b ++ c = d
    /\ PdfFiller.written "step1-A-ssn" (FormIL1040.fillFormIL1040 fd taxResult)
       = Some (a ++ "-" ++ b ++ "-" ++ c).
Proof.
  cbv zeta. intro L.
  exists (Str.slice 0 3 (Str.digitsOnly (ssnOrEmpty fd))),
         (Str.slice 3 5 (Str.digitsOnly (ssnOrEmpty fd))),
         (Str.slice 5 9 (Str.digitsOnly (ssnOrEmpty fd))).
  unfold ScheduleILWIT.fillFormIL1040ScheduleILWIT.
  pose proof (rows_skip_header (w2Forms (incomeInfo fd))) as Hrows.
  destruct (ScheduleILWIT.rowLoop (w2Forms (incomeInfo fd))) as [total rows].
  cbn [snd] in Hrows.
  rewrite L. cbn [Nat.leb].
  rewrite !written_app, !Hrows by auto.
  assert (Hd : Str.allDigits (Str.digitsOnly (ssnOrEmpty fd)) = true)
    by apply allDigits_digitsOnly.
  assert (Hf : PdfFiller.written "step1-A-ssn" (FormIL1040.fillFormIL1040 fd taxResult)
               = Some (PdfFiller.formatSSN (ssnOrEmpty fd))) by reflexivity.
  rewrite Hf. unfold PdfFiller.formatSSN.
  destruct (String.eqb_spec (ssnOrEmpty fd) "") as [E|E];
    [rewrite E in L; discriminate L|].
  rewrite L. cbn [Nat.eqb].
  set (d := Str.digitsOnly (ssnOrEmpty fd)) in *. clearbody d.
  do 10 (destruct d as [|? d]; try discriminate L).
  repeat split; reflexivity.
Qed.

Lemma schedule_ssn_boxes_witness :
  exists a b c,
    PdfFiller.written "Your SSN-3"
      (ScheduleILWIT.fillFormIL1040ScheduleILWIT scenario1 getMinimalTaxResultFor8843)
    = Some a
    /\ PdfFiller.written "Your SSN-2"
         (ScheduleILWIT.fillFormIL1040ScheduleILWIT scenario1 getMinimalTaxResultFor8843)
       = Some b
    /\ PdfFiller.written "Your SSN-4"
         (ScheduleILWIT.fillFormIL1040ScheduleILWIT scenario1 getMinimalTaxResultFor8843)
       = Some c
    /\ String.length a = 3%nat /\ String.length b = 2%nat /\ String.length c = 4%nat
    /\ a ++ b ++ c = Str.digitsOnly (ssnOrEmpty scenario1)
    /\ PdfFiller.written "step1-A-ssn"
         (FormIL1040.fillFormIL1040 scenario1 getMinimalTaxResultFor8843)
       = Some (a ++ "-" ++ b ++ "-" ++ c).
Proof.
  apply (schedule_ssn_boxes scenario1 getMinimalTaxResultFor8843). reflexivity.
Defined.

(** X18. row [i + 1] of Schedule IL-WIT, for each of the first five W-2s,
    carries that W-2: form type "W", the digits of its EIN (no dash), its
    wages floored in both wage columns and its floored Illinois withholding.
    There is never a sixth row. *)
Theorem schedule_row_contents (fd : FormData) (taxResult : TaxCalculationResult)
    (i : nat) (w2 : W2Form) :
  nth_error (w2Forms (incomeInfo fd)) i = Some w2 ->
  (i < 5)%nat ->
  let ws := ScheduleILWIT.fillFormIL1040ScheduleILWIT fd taxResult in
  let n := String_of_Z (Z.of_nat (i + 1)) in
  PdfFiller.written ("Form type - " ++ n) ws = Some "W"
  /\ PdfFiller.written ("EIN - " ++ n) ws = Some (Str.digitsOnly (ein w2))
  /\ PdfFiller.written ("Federal wages - " ++ n) ws
     = Some (String_of_Z (Qfloor (orZero (wages w2))))
  /\ PdfFiller.written ("Illinois wages - " ++ n) ws
     = Some (String_of_Z (Qfloor (orZero (wages w2))))
  /\ PdfFiller.written ("Illinois withheld - " ++ n) ws
     = Some (String_of_Z (flooredStateWithheld w2))
  /\ PdfFiller.written "Form type - 6" ws = None.
Proof.
  intros Hn Hi. cbv zeta.
  destruct (schedule_writes fd taxResult) as (_ & Hws & _). cbv zeta in Hws.
  rewrite Hws. clear Hws.
  assert (Hn5 : nth_error (firstn 5 (w2Forms (incomeInfo fd))) i = Some w2).
  { rewrite nth_error_firstn.
    destruct (Nat.ltb_spec i 5); [exact Hn | lia]. }
  assert (Hlen : (List.length (firstn 5 (w2Forms (incomeInfo fd))) <= 5)%nat)
    by (rewrite length_firstn; lia).
  set (l := firstn 5 (w2Forms (incomeInfo fd))) in *. clearbody l. clear Hn.
  repeat (destruct l as [|? l]; [|cbn [List.length] in Hlen; try (exfalso; lia)]);
    repeat (destruct i as [|i]; [|try (exfalso; lia)]);
    cbn [nth_error] in Hn5; try discriminate Hn5;
    injection Hn5 as <-; repeat split; reflexivity.
Qed.

Lemma schedule_row_contents_witness :
  PdfFiller.written ("Illinois withheld - " ++ String_of_Z (Z.of_nat (0 + 1)))
    (ScheduleILWIT.fillFormIL1040ScheduleILWIT scenario1 getMinimalTaxResultFor8843)
  = Some "1000".
Proof.
  refine (proj1 (proj2 (proj2 (proj2 (proj2
           (schedule_row_contents scenario1 getMinimalTaxResultFor8843 0
              (mkW2Form (Some 30000%Q) (Some 2000%Q) (Some 1000%Q) None None "12-3456789")
              eq_refl _)))))).
  repeat constructor.
Defined.

(** ** FICA figures, products and the checkout *)

Section Fica.

Local Open Scope Q_scope.

Lemma w2HasFica_pos (w2 : W2Form) : Products.w2HasFica w2 = true <-> 0 < ficaOf w2.
Proof.
  unfold Products.w2HasFica, ficaOf. rewrite negb_true_iff. split.
  - intro H. apply Qnot_le_lt. intro Hle. apply Qle_bool_iff in Hle. congruence.
  - intro H. destruct (Qle_bool _ 0) eqn:B; [|reflexivity].
    apply Qle_bool_iff in B. lra.
Qed.

Lemma w2HasFica_false (w2 : W2Form) :
  0 <= orZero (socialSecurityWithheld w2) ->
  0 <= orZero (medicareWithheld w2) ->
  Products.w2HasFica w2 = false ->
  orZero (socialSecurityWithheld w2) == 0 /\ orZero (medicareWithheld w2) == 0.
Proof.
  intros Hs Hm H.
  assert (N : ~ 0 < ficaOf w2).
  { intro P. apply w2HasFica_pos in P. congruence. }
  unfold ficaOf in N. rewrite (add_pos_iff _ _ Hs Hm) in N.
  split; apply Qle_antisym; try assumption; apply Qnot_lt_le; tauto.
Qed.

Lemma ficaOf_nonneg (w2 : W2Form) :
  0 <= orZero (socialSecurityWithheld w2) ->
  0 <= orZero (medicareWithheld w2) -> 0 <= ficaOf w2.
Proof. intros. now apply add_nonneg. Qed.

(** The running total of the FICA amounts is positive exactly when some W-2
    has FICA withheld. *)
Lemma fica_total_positive (l : list W2Form) (t : Q) :
  0 <= t ->
  Forall (fun w2 => 0 <= orZero (socialSecurityWithheld w2) /\
                    0 <= orZero (medicareWithheld w2)) l ->
  negb (Qle_bool (Double.forEach_add ficaOf l t) 0)
  = negb (Qle_bool t 0) || existsb Products.w2HasFica l.
Proof.
  intros Ht H. revert t Ht. unfold Double.forEach_add.
  induction H as [|w2 l [Hs Hm] Hl IH]; intros t Ht; cbn [fold_left existsb].
  - now rewrite orb_false_r.
  - rewrite IH by (apply add_nonneg; [exact Ht | now apply ficaOf_nonneg]).
    rewrite orb_assoc. f_equal.
    pose proof (add_pos_iff t (ficaOf w2) Ht (ficaOf_nonneg w2 Hs Hm)) as P.
    pose proof (w2HasFica_pos w2) as W.
    destruct (Qle_bool (Double.add t (ficaOf w2)) 0) eqn:A;
      destruct (Qle_bool t 0) eqn:B;
      destruct (Products.w2HasFica w2) eqn:C; cbn [negb orb]; try reflexivity; exfalso.
    + apply Qle_bool_iff in A. assert (0 < ficaOf w2) by now apply W. 
      assert (0 < Double.add t (ficaOf w2)) by (apply P; now right). lra.
    + apply Qle_bool_iff in A.
      assert (0 < t) by (apply Qnot_le_lt; intro Q0; apply Qle_bool_iff in Q0; congruence).
      assert (0 < Double.add t (ficaOf w2)) by (apply P; now left). lra.
    + apply Qle_bool_iff in A.
      assert (0 < t) by (apply Qnot_le_lt; intro Q0; apply Qle_bool_iff in Q0; congruence).
      assert (0 < Double.add t (ficaOf w2)) by (apply P; now left). lra.
    + apply Qle_bool_iff in B.
      assert (0 < Double.add t (ficaOf w2))
        by (apply Qnot_le_lt; intro Q0; apply Qle_bool_iff in Q0; congruence).
      apply P in H as [H|H]; [lra|]. apply W in H. congruence.
Qed.

Lemma Qsum_app (a b : list Q) : Qsum (a ++ b) == Qsum a + Qsum b.
Proof.
  unfold Qsum. induction a as [|x a IH]; cbn [app fold_right]; [ring|].
  rewrite IH. ring.
Qed.

Lemma Qsum_filter_fica (l : list W2Form) :
  Forall (fun w2 => 0 <= orZero (socialSecurityWithheld w2) /\
                    0 <= orZero (medicareWithheld w2)) l ->
  Qsum (map (fun w2 => orZero (socialSecurityWithheld w2)) (filter Products.w2HasFica l))
  == Qsum (map (fun w2 => orZero (socialSecurityWithheld w2)) l)
  /\ Qsum (map (fun w2 => orZero (medicareWithheld w2)) (filter Products.w2HasFica l))
     == Qsum (map (fun w2 => orZero (medicareWithheld w2)) l).
Proof.
  unfold Qsum. induction 1 as [|w2 l [Hs Hm] _ [IHs IHm]]; cbn [filter map fold_right].
  - split; reflexivity.
  - destruct (Products.w2HasFica w2) eqn:E; cbn [map fold_right].
    + rewrite IHs, IHm. split; reflexivity.
    + destruct (w2HasFica_false w2 Hs Hm E) as [Zs Zm].
      rewrite IHs, IHm, Zs, Zm. split; ring.
Qed.

(** What whole dollar FICA amounts give: the amounts of each W-2, the
    per-W-2 sums and the filtered lists are whole, and the exact sums
    agree. *)
Lemma whole_fica (l : list W2Form) :
  wholeDollars (map (fun w2 => orZero (socialSecurityWithheld w2)) l) ->
  wholeDollars (map (fun w2 => orZero (medicareWithheld w2)) l) ->
  Qsum (map (fun w2 => orZero (socialSecurityWithheld w2)) l)
  + Qsum (map (fun w2 => orZero (medicareWithheld w2)) l) <= inject_Z (2 ^ 53) ->
  Forall (fun w2 => 0 <= orZero (socialSecurityWithheld w2) /\
                    0 <= orZero (medicareWithheld w2)) l
  /\ wholeDollars (map (fun w2 => orZero (socialSecurityWithheld w2))
                      (filter Products.w2HasFica l))
  /\ wholeDollars (map (fun w2 => orZero (medicareWithheld w2))
                      (filter Products.w2HasFica l))
  /\ wholeDollars (map ficaOf l)
  /\ Qsum (map ficaOf l)
     == Qsum (map (fun w2 => orZero (socialSecurityWithheld w2)) l)
        + Qsum (map (fun w2 => orZero (medicareWithheld w2)) l).
Proof.
  induction l as [|w2 l IH]; cbn [map filter]; intros Hs Hm Hb.
  - repeat split; try constructor.
  - inversion Hs as [|? ? (ns & Hns & Es) Hs']; subst.
    inversion Hm as [|? ? (nm & Hnm & Em) Hm']; subst.
    destruct (Qsum_whole _ Hs') as (NS & HNS & ENS).
    destruct (Qsum_whole _ Hm') as (NM & HNM & ENM).
    unfold Qsum in Hb; cbn [fold_right] in Hb.
    fold (Qsum (map (fun w2 => orZero (socialSecurityWithheld w2)) l)) in Hb.
    fold (Qsum (map (fun w2 => orZero (medicareWithheld w2)) l)) in Hb.
    assert (Hb' : (ns + NS + (nm + NM) <= 2 ^ 53)%Z).
    { rewrite Zle_Qle, !inject_Z_plus, <- Es, <- Em, <- ENS, <- ENM. exact Hb. }
    destruct IH as (Hnn & Ws & Wm & Wf & Ef); try assumption.
    { rewrite ENS, ENM, <- inject_Z_plus, <- Zle_Qle. lia. }
    assert (P0 : 0 <= orZero (socialSecurityWithheld w2)).
    { rewrite Es. change 0 with (inject_Z 0). now rewrite <- Zle_Qle. }
    assert (P1 : 0 <= orZero (medicareWithheld w2)).
    { rewrite Em. change 0 with (inject_Z 0). now rewrite <- Zle_Qle. }
    assert (Ew : ficaOf w2 == inject_Z (ns + nm)).
    { unfold ficaOf. rewrite Es, Em. apply add_Z; lia. }
    split; [constructor; [split|]; assumption|].
    split.
    { destruct (Products.w2HasFica w2); cbn [map]; [constructor|]; try assumption.
      exists ns. now split. }
    split.
    { destruct (Products.w2HasFica w2); cbn [map]; [constructor|]; try assumption.
      exists nm. now split. }
    split.
    { constructor; [|exact Wf]. exists (ns + nm)%Z. split; [lia | exact Ew]. }
    unfold Qsum; cbn [fold_right].
    fold (Qsum (map ficaOf l)).
    fold (Qsum (map (fun w2 => orZero (socialSecurityWithheld w2)) l)).
    fold (Qsum (map (fun w2 => orZero (medicareWithheld w2)) l)).
    rewrite Ef, Ew, inject_Z_plus, Es, Em. ring.
Qed.

(** The two totals of Form 843 are doubles. *)
Lemma fica_totals_double (fd : FormData) :
  Double.round (Form843.totalSS fd) == Form843.totalSS fd /\
  Double.round (Form843.totalMedicare fd) == Form843.totalMedicare fd.
Proof.
  unfold Form843.totalSS, Form843.totalMedicare. rewrite !forEach_add_fold.
  split; apply fold_add_double; reflexivity.
Qed.

End Fica.

(** X19. For whole dollar amounts of Social Security and Medicare that
    stay within 53 bits, Form 843 and the FICA cover pages print the same
    figures: the amount to be refunded on line 2 of Form 843 (totalled over
    the W-2s that have FICA withheld, Social Security and Medicare apart)
    is the refund amount of the cover page (totalled W-2 by W-2 over all of
    them), it is the sum of the amounts, and the floored Social Security
    and Medicare totals are the same as well.  With cents the two orders of
    addition round differently: for W-2s with 627.05 and 190.64, and
    1772.10 and 0.21, Form 843 shows 2589 and the cover page 2590. *)
Theorem fica_figures_agree :
  (forall fd : FormData,
     wholeDollars (ficaAmounts fd) ->
     (Qsum (ficaAmounts fd) <= inject_Z (2 ^ 53))%Q ->
     Form843.totalFICAFloor fd = PackageFica.getFicaRefundAmount fd /\
     (Form843.ssFloor fd, Form843.medicareFloor fd) = PackageFica.getFicaBreakdown fd /\
     (inject_Z (Form843.totalFICAFloor fd) == Qsum (ficaAmounts fd))%Q)
  /\ (ficaNonneg ficaCents /\
      (Qsum (ficaAmounts ficaCents) == 2590)%Q /\
      Form843.totalFICAFloor ficaCents = 2589 /\
      PackageFica.getFicaRefundAmount ficaCents = 2590).
Proof.
  split.
  - intros fd Hw Hb. unfold ficaAmounts in Hw, Hb.
    apply Forall_app in Hw. destruct Hw as [Hs Hm].
    rewrite Qsum_app in Hb.
    destruct (whole_fica _ Hs Hm Hb) as (Hnn & Ws & Wm & Wf & Ef).
    destruct (Qsum_filter_fica _ Hnn) as [Fs Fm].
    destruct (Qsum_whole _ Hs) as (NS & HNS & ENS).
    destruct (Qsum_whole _ Hm) as (NM & HNM & ENM).
    assert (Hb' : (NS + NM <= 2 ^ 53)%Z).
    { rewrite Zle_Qle, inject_Z_plus, <- ENS, <- ENM. exact Hb. }
    assert (Tss : (Form843.totalSS fd == inject_Z NS)%Q).
    { unfold Form843.totalSS, Form843.w2WithFica. rewrite forEach_add_fold.
      change (fold_left Double.add ?l 0%Q) with (runningTotal l).
      rewrite runningTotal_whole; [now rewrite Fs | exact Ws |].
      rewrite Fs, ENS, <- Zle_Qle. lia. }
    assert (Tmed : (Form843.totalMedicare fd == inject_Z NM)%Q).
    { unfold Form843.totalMedicare, Form843.w2WithFica. rewrite forEach_add_fold.
      change (fold_left Double.add ?l 0%Q) with (runningTotal l).
      rewrite runningTotal_whole; [now rewrite Fm | exact Wm |].
      rewrite Fm, ENM, <- Zle_Qle. lia. }
    assert (Tall : (Double.forEach_add ficaOf (w2Forms (incomeInfo fd)) 0
                    == inject_Z (NS + NM))%Q).
    { rewrite forEach_add_fold.
      change (fold_left Double.add ?l 0%Q) with (runningTotal l).
      rewrite runningTotal_whole; [now rewrite Ef, ENS, ENM, inject_Z_plus | exact Wf |].
      rewrite Ef, ENS, ENM, <- inject_Z_plus, <- Zle_Qle. lia. }
    assert (Ts : (Double.forEach_add (fun w2 => orZero (socialSecurityWithheld w2))
                    (w2Forms (incomeInfo fd)) 0 == inject_Z NS)%Q).
    { rewrite forEach_add_fold.
      change (fold_left Double.add ?l 0%Q) with (runningTotal l).
      rewrite runningTotal_whole; [exact ENS | exact Hs |].
      rewrite ENS, <- Zle_Qle. lia. }
    assert (Tm : (Double.forEach_add (fun w2 => orZero (medicareWithheld w2))
                    (w2Forms (incomeInfo fd)) 0 == inject_Z NM)%Q).
    { rewrite forEach_add_fold.
      change (fold_left Double.add ?l 0%Q) with (runningTotal l).
      rewrite runningTotal_whole; [exact ENM | exact Hm |].
      rewrite ENM, <- Zle_Qle. lia. }
    assert (T843 : Form843.totalFICAFloor fd = (NS + NM)%Z).
    { unfold Form843.totalFICAFloor, Math.floor.
      rewrite Tss, Tmed, add_Z by lia. apply Qfloor_Z. }
    split.
    { rewrite T843. unfold PackageFica.getFicaRefundAmount, Math.floor.
      change (fun w2 => Double.add (orZero (socialSecurityWithheld w2))
                                   (orZero (medicareWithheld w2))) with ficaOf.
      rewrite Tall. symmetry. apply Qfloor_Z. }
    split.
    { unfold Form843.ssFloor, Form843.medicareFloor, PackageFica.getFicaBreakdown,
        Math.floor. cbv zeta. now rewrite Tss, Tmed, Ts, Tm. }
    unfold ficaAmounts. rewrite T843, Qsum_app, ENS, ENM. now rewrite inject_Z_plus.
  - split; [repeat constructor; cbn; discriminate|].
    repeat split; vm_compute; reflexivity.
Qed.

Lemma fica_figures_agree_witness :
  Form843.totalFICAFloor ficaWhole = PackageFica.getFicaRefundAmount ficaWhole.
Proof.
  apply (proj1 fica_figures_agree ficaWhole).
  - unfold wholeDollars, ficaAmounts. cbn [ficaWhole incomeOnly incomeInfo w2Forms map app].
    repeat (apply Forall_cons || apply Forall_nil);
      match goal with
      | |- exists n, _ /\ (?q == _)%Q => exists (Qnum q)
      end; (split; [vm_compute; discriminate | reflexivity]).
  - vm_compute. discriminate.
Defined.

(** X20. On Form 843 the amount to be refunded (f1_19) is the floor of the
    double sum of the Social Security and the Medicare total, and line 3a
    (f1_20, "See attached") is written exactly when that amount is
    positive.  While neither total exceeds 2^52 in size, the refund line is
    the sum of the two separately floored totals or one dollar more. *)
Theorem form_843_refund_line (fd : FormData) :
  ((inject_Z (- 2 ^ 52) <= Form843.totalSS fd <= inject_Z (2 ^ 52))%Q ->
   (inject_Z (- 2 ^ 52) <= Form843.totalMedicare fd <= inject_Z (2 ^ 52))%Q ->
   Form843.ssFloor fd + Form843.medicareFloor fd <= Form843.totalFICAFloor fd
   /\ Form843.totalFICAFloor fd <= Form843.ssFloor fd + Form843.medicareFloor fd + 1)
  /\ PdfFiller.written "topmostSubform[0].Page1[0].f1_19[0]" (Form843.fillForm843_amounts fd)
     = Some (String_of_Z (Form843.totalFICAFloor fd))
  /\ (PdfFiller.written "topmostSubform[0].Page1[0].f1_20[0]" (Form843.fillForm843_amounts fd)
      = Some "See attached"%string <-> 0 < Form843.totalFICAFloor fd)
  /\ (PdfFiller.written "topmostSubform[0].Page1[0].f1_20[0]" (Form843.fillForm843_amounts fd)
      = None <-> Form843.totalFICAFloor fd <= 0).
Proof.
  split.
  { intros Hs Hm. destruct (fica_totals_double fd) as [Ds Dm].
    unfold Form843.ssFloor, Form843.medicareFloor, Form843.totalFICAFloor, Math.floor.
    apply floor_add_bounds; assumption. }
  unfold Form843.fillForm843_amounts.
  generalize (Form843.totalFICAFloor fd). intro total.
  destruct (0 <? total)%Z eqn:E.
  - apply Z.ltb_lt in E.
    repeat split; try reflexivity; intros; try discriminate; try lia.
  - apply Z.ltb_ge in E.
    repeat split; try reflexivity; intros; try discriminate; try lia.
Qed.

Lemma form_843_refund_line_witness :
  (inject_Z (- 2 ^ 52) <= Form843.totalSS withFica <= inject_Z (2 ^ 52))%Q
  /\ (inject_Z (- 2 ^ 52) <= Form843.totalMedicare withFica <= inject_Z (2 ^ 52))%Q
  /\ Form843.ssFloor withFica + Form843.medicareFloor withFica
     <= Form843.totalFICAFloor withFica
  /\ Form843.totalFICAFloor withFica
     <= Form843.ssFloor withFica + Form843.medicareFloor withFica + 1.
Proof.
  assert (Hs : (inject_Z (- 2 ^ 52) <= Form843.totalSS withFica <= inject_Z (2 ^ 52))%Q)
    by (split; vm_compute; discriminate).
  assert (Hm : (inject_Z (- 2 ^ 52) <= Form843.totalMedicare withFica
                <= inject_Z (2 ^ 52))%Q)
    by (split; vm_compute; discriminate).
  split; [exact Hs|]. split; [exact Hm|].
  destruct (form_843_refund_line withFica) as [E _]. exact (E Hs Hm).
Defined.

(** Beyond 53 bits the sum of the floors can exceed the floor of the double
    sum: for one W-2 with 2^53 dollars of Social Security and 1 dollar of
    Medicare, 2^53 + 1 rounds to 2^53. *)
Lemma floors_beyond_53_bits :
  Form843.ssFloor ficaHuge + Form843.medicareFloor ficaHuge = 2 ^ 53 + 1
  /\ Form843.totalFICAFloor ficaHuge = 2 ^ 53.
Proof. split; vm_compute; reflexivity. Qed.

(** X21. The three places that decide whether a FICA refund exists agree
    on every record with US income and no negative Social Security or
    Medicare amount: the FICA product is offered for purchase exactly when
    the federal rule flags Form 843, and exactly when the payment page
    shows a FICA refund; the refund shown is the total withheld, whose
    floor is the amount of the FICA cover page. *)
Theorem fica_offer_consistent (fd : FormData) (taxResult : option TaxCalculationResult) :
  ficaNonneg fd ->
  hadUSIncome (incomeInfo fd) = true ->
  offersFica (Products.getApplicableProducts (Some fd))
  = form832 (fed_forms (India.calculateFederalTax fd))
  /\ match Products.rb_fica (Products.getRefundByProduct (Some fd) taxResult) with
     | Some t =>
         offersFica (Products.getApplicableProducts (Some fd)) = true /\
         (0 < t)%Q /\ PackageFica.getFicaRefundAmount fd = Qfloor t
     | None => offersFica (Products.getApplicableProducts (Some fd)) = false
     end.
Proof.
  intros Hnn Hinc.
  assert (Hflag : negb (Qle_bool (India.totalFICAWithheld fd) 0)
                  = existsb Products.w2HasFica (w2Forms (incomeInfo fd))).
  { unfold India.totalFICAWithheld.
    change (fun w2 => Double.add (orZero (socialSecurityWithheld w2))
                                 (orZero (medicareWithheld w2))) with ficaOf.
    rewrite (fica_total_positive _ 0 (Qle_refl 0) Hnn). reflexivity. }
  assert (Hoffer : offersFica (Products.getApplicableProducts (Some fd))
                   = existsb Products.w2HasFica (w2Forms (incomeInfo fd))).
  { unfold Products.getApplicableProducts, offersFica. rewrite Hinc.
    cbn [negb andb]. cbv zeta.
    destruct (w2Forms (incomeInfo fd)) as [|w2 l]; cbn [List.length Nat.eqb negb].
    - destruct (incomeState (incomeInfo fd)) as [[|]|]; reflexivity.
    - destruct (existsb Products.w2HasFica (w2 :: l));
        destruct (incomeState (incomeInfo fd)) as [[|]|]; reflexivity. }
  split.
  - rewrite Hoffer. cbn [India.calculateFederalTax fed_forms form832]. now rewrite Hflag.
  - unfold Products.getRefundByProduct. cbv zeta. cbn [Products.rb_fica].
    change (Products.ficaTotal fd) with (India.totalFICAWithheld fd).
    rewrite Hoffer, <- Hflag.
    destruct (Qle_bool (India.totalFICAWithheld fd) 0) eqn:E; cbn [negb].
    + reflexivity.
    + split; [reflexivity|]. split; [|reflexivity].
      apply Qnot_le_lt. intro Hle. apply Qle_bool_iff in Hle. congruence.
Qed.

Lemma fica_offer_consistent_witness :
  ficaNonneg withFica /\ hadUSIncome (incomeInfo withFica) = true /\
  offersFica (Products.getApplicableProducts (Some withFica))
  = form832 (fed_forms (India.calculateFederalTax withFica)).
Proof.
  assert (H : ficaNonneg withFica).
  { repeat constructor; cbn; discriminate. }
  split; [exact H|]. split; [reflexivity|].
  destruct (fica_offer_consistent withFica None H eq_refl) as [E _]. exact E.
Defined.

Ltac products_shape :=
  repeat match goal with |- _ /\ _ => split end;
  try solve [ repeat constructor; cbn [In]; intuition discriminate ];
  try solve [ discriminate ];
  try solve [ intuition (discriminate || congruence) ];
  try solve [ intros p Hp; cbn [In] in Hp; intuition (subst; reflexivity) ].

(** X22. Shape of the product list, for every record: no product is listed
    twice and the list is never empty; Form 8843 is the one product
    exactly when there was no US income; the federal product is listed
    exactly when there was US income; the Illinois product exactly when
    there was US income earned in Illinois; the FICA product exactly when
    there was US income and some W-2 has FICA withheld; and each listed
    product is the catalogue entry of its id. *)
Theorem applicable_products_shape (fd : FormData) :
  let products := Products.getApplicableProducts (Some fd) in
  let ids := map Products.id products in
  NoDup ids /\ products <> [] /\
  (In Products.form8843 ids <-> hadUSIncome (incomeInfo fd) = false) /\
  (hadUSIncome (incomeInfo fd) = false -> products = [Products.FORM_PRODUCTS.form8843]) /\
  (In Products.federal ids <-> hadUSIncome (incomeInfo fd) = true) /\
  (In Products.illinois ids <->
   hadUSIncome (incomeInfo fd) = true /\ incomeState (incomeInfo fd) = Some Illinois) /\
  (In Products.fica ids <->
   hadUSIncome (incomeInfo fd) = true /\
   existsb Products.w2HasFica (w2Forms (incomeInfo fd)) = true) /\
  (forall p, In p products ->
     p = match Products.id p with
         | Products.form8843 => Products.FORM_PRODUCTS.form8843
         | Products.federal => Products.FORM_PRODUCTS.federal
         | Products.illinois => Products.FORM_PRODUCTS.illinois
         | Products.fica => Products.FORM_PRODUCTS.fica
         end).
Proof.
  cbv zeta. unfold Products.getApplicableProducts.
  assert (Hex : (if negb (Nat.eqb (List.length (w2Forms (incomeInfo fd))) 0)
                 then existsb Products.w2HasFica (w2Forms (incomeInfo fd)) else false)
                = existsb Products.w2HasFica (w2Forms (incomeInfo fd))).
  { destruct (w2Forms (incomeInfo fd)); reflexivity. }
  destruct (hadUSIncome (incomeInfo fd)); cbn [negb andb]; [rewrite Hex|].
  - destruct (incomeState (incomeInfo fd)) as [[|]|];
      destruct (existsb Products.w2HasFica (w2Forms (incomeInfo fd)));
      cbn [andb app map Products.id Products.FORM_PRODUCTS.federal
           Products.FORM_PRODUCTS.illinois Products.FORM_PRODUCTS.fica In];
      products_shape.
  - cbn [map Products.id Products.FORM_PRODUCTS.form8843 In]. products_shape.
Qed.

Section Payment.

Lemma round_inject_Z (z : Z) : Checkout.round (inject_Z z) = z.
Proof.
  unfold Checkout.round, Qfloor, Qplus, inject_Z. cbn [Qnum Qden].
  change (Z.pos (1 * 2)) with 2. symmetry. apply Z.div_unique with (r := 1); lia.
Qed.

Lemma round_at_least (x : Q) (n : Z) :
  (inject_Z n <= x)%Q -> n <= Checkout.round x.
Proof.
  intro H. unfold Checkout.round.
  rewrite <- (Qfloor_Z n). apply Qfloor_resp_le. lra.
Qed.

End Payment.

(** X23. The promo code SAVE10OVER50 (in any letter case, with surrounding
    blanks) is accepted only for the full cart: whenever it is applied to
    the total of the selected applicable products of a record, the record
    is offered exactly the federal, Illinois and FICA products, all three
    are selected, the total is 50.97 and the discount 5.097. *)
Theorem save10over50_needs_full_cart (fd : FormData)
    (selectedIds : Products.FormProductId -> bool) (promoCode : string) (d : Q) :
  Checkout.toUpperCase (Str.trim promoCode) = "SAVE10OVER50"%string ->
  Checkout.handleApplyPromo promoCode
    (Checkout.total (Products.getApplicableProducts (Some fd)) selectedIds) = inl d ->
  map Products.id (Products.getApplicableProducts (Some fd))
  = [Products.federal; Products.illinois; Products.fica] /\
  selectedIds Products.federal = true /\
  selectedIds Products.illinois = true /\
  selectedIds Products.fica = true /\
  (Checkout.total (Products.getApplicableProducts (Some fd)) selectedIds == 5097 # 100)%Q /\
  (d == 5097 # 1000)%Q.
Proof.
  intros Hcode. unfold Checkout.handleApplyPromo. cbv zeta. rewrite Hcode.
  cbn [String.eqb Ascii.eqb Bool.eqb].
  unfold Products.getApplicableProducts. cbv zeta.
  destruct (hadUSIncome (incomeInfo fd)); cbn [negb andb].
  - destruct (incomeState (incomeInfo fd)) as [[|]|];
      destruct (if negb (Nat.eqb (List.length (w2Forms (incomeInfo fd))) 0)
                then existsb Products.w2HasFica (w2Forms (incomeInfo fd)) else false);
      cbn [andb app map Products.id Products.price Products.FORM_PRODUCTS.federal
           Products.FORM_PRODUCTS.illinois Products.FORM_PRODUCTS.fica];
      unfold Checkout.total, forEach_add;
      cbn [fold_left Products.id Products.price Products.FORM_PRODUCTS.federal
           Products.FORM_PRODUCTS.illinois Products.FORM_PRODUCTS.fica];
      destruct (selectedIds Products.federal);
      destruct (selectedIds Products.illinois);
      destruct (selectedIds Products.fica);
      intro H; vm_compute in H; try discriminate H;
      injection H as <-; repeat split; reflexivity.
  - unfold Checkout.total, forEach_add.
    cbn [fold_left Products.id Products.price Products.FORM_PRODUCTS.form8843].
    destruct (selectedIds Products.form8843);
      intro H; vm_compute in H; discriminate H.
Qed.

Lemma save10over50_needs_full_cart_witness :
  Checkout.total (Products.getApplicableProducts (Some withFica)) (fun _ => true)
  == 5097 # 100.
Proof.
  exact (proj1 (proj2 (proj2 (proj2 (proj2
    (save10over50_needs_full_cart withFica (fun _ => true) " save10over50 "
       (Checkout.total (Products.getApplicableProducts (Some withFica)) (fun _ => true)
        * (1 # 10))%Q eq_refl eq_refl)))))).
Defined.

(** X24. Whenever the payment page shows the card form, the amount the form
    posts passes the server's minimum: for every cart total and applied
    discount, if the page renders the checkout form with total [t], then
    [t] is the final total, it is at least 0.50, the posted amount is at
    least 50 cents, and the payment route hands exactly that amount on
    instead of answering 400. *)
Theorem checkout_meets_server_minimum (total : Q) (appliedPromo : option Q) (t : Q) :
  Checkout.payView (Checkout.finalTotal total appliedPromo) = Checkout.CheckoutForm t ->
  t = Checkout.finalTotal total appliedPromo /\
  (1 # 2 <= t)%Q /\
  Checkout.MIN_AMOUNT_CENTS <= Checkout.amountCents t /\
  Checkout.POST_amount (Checkout.amountCents t) = inl (Checkout.amountCents t).
Proof.
  unfold Checkout.payView.
  destruct (Qeq_bool (Checkout.finalTotal total appliedPromo) 0); [discriminate|].
  destruct (Qle_bool (1 # 2) (Checkout.finalTotal total appliedPromo)) eqn:E;
    cbn [negb]; [|discriminate].
  intro H. injection H as <-. apply Qle_bool_iff in E.
  assert (Hmin : Checkout.MIN_AMOUNT_CENTS
                 <= Checkout.amountCents (Checkout.finalTotal total appliedPromo)).
  { unfold Checkout.amountCents, Checkout.MIN_AMOUNT_CENTS.
    apply round_at_least. change (inject_Z 50) with 50%Q. lra. }
  repeat split; try assumption.
  unfold Checkout.POST_amount. cbv zeta. rewrite round_inject_Z.
  destruct (Checkout.amountCents (Checkout.finalTotal total appliedPromo)
            <? Checkout.MIN_AMOUNT_CENTS)%Z eqn:L; [|reflexivity].
  apply Z.ltb_lt in L. lia.
Qed.

Lemma checkout_meets_server_minimum_witness :
  Checkout.POST_amount (Checkout.amountCents (Checkout.finalTotal (999 # 100) (Some 5%Q)))
  = inl (Checkout.amountCents (Checkout.finalTotal (999 # 100) (Some 5%Q))).
Proof.
  exact (proj2 (proj2 (proj2
    (checkout_meets_server_minimum (999 # 100) (Some 5%Q)
       (Checkout.finalTotal (999 # 100) (Some 5%Q)) eq_refl)))).
Defined.

(** Instances of the two lemmas on the country guard and on the agreement of
    the three withholding totals. *)
Lemma india_spellings_use_india_rule_witness :
  exists r, calculateTax scenario1 = Ok r /\
            federalTax r = India.calculateFederalTax scenario1 /\
            stateTax r = IllinoisTax.calculateStateTax scenario1.
Proof.
  apply (india_spellings_use_india_rule scenario1).
  right. left. reflexivity.
Defined.

Lemma withholding_total_agrees_witness :
  PdfFiller.written "Total amount"
    (ScheduleILWIT.fillFormIL1040ScheduleILWIT scenario1 getMinimalTaxResultFor8843)
  = Some (String_of_Z (IllinoisTax.calculateStateTaxWithheld scenario1))
  /\ PdfFiller.written "Illinois Income Tax withheld"
       (FormIL1040.fillFormIL1040 scenario1 getMinimalTaxResultFor8843)
     = Some (String_of_Z (IllinoisTax.calculateStateTaxWithheld scenario1)).
Proof.
  apply (withholding_total_agrees scenario1 getMinimalTaxResultFor8843).
  - cbn. lia.
  - reflexivity.
  - reflexivity.
Defined.
